(** * Invoice backend: accounting and authorization logic

    A shallow embedding of [backend/app/crud.py], of the request handlers in
    [backend/app/routers/] and of the ORM models in [backend/app/models/].

    Modelling conventions.

    - A table is the list of its rows in insertion order; a query
      [db.query(M).filter(M.id == x).first()] is [find]; [offset]/[limit] are
      [skipn]/[firstn].
    - A Python [float] is an IEEE binary64 value ([PrimFloat.float]); [+],
      [-], [*] round to nearest, ties to even; a decimal literal denotes the
      nearest binary64 value, as in Python.  The builtin [sum] adds from left
      to right, starting from 0 (CPython up to 3.11; later versions
      compensate the rounding error of a sum of floats).
    - Identifiers come from [default=lambda: str(uuid.uuid4())]; the drawn
      value is an explicit argument of each creating operation.
    - The session is the one of [tests/test_auth.py]
      ([sessionmaker(autocommit=False, autoflush=False)] over SQLite): a query
      does not flush pending objects, foreign keys are not enforced, primary
      keys, [unique] and [nullable=False] are.  A [Float] column stores NaN as
      NULL and a zero without its sign; an [Integer] column takes the ints of
      64 bits, and binding any other int raises [OverflowError].
    - A function either returns a value and the committed database, or raises;
      an exception leaves the database as it was (nothing is committed).
    - [skip] and [limit] are natural numbers: what a negative [OFFSET] or
      [LIMIT] does depends on the database backend.
    - [created_at], [updated_at] and [date] play no role in the logic and are
      left out of the rows. *)

From Stdlib Require Import String List Bool Arith ZArith Floats Lia.
Import ListNotations.

Set Warnings "-inexact-float".

Local Open Scope string_scope.
Local Open Scope list_scope.

(** ** Exceptions and results *)

Inductive exn : Type :=
| HTTPException (status_code : nat) (detail : string)
| IntegrityError
| OverflowError
| TypeError
| AttributeError.

Inductive result (A : Type) : Type :=
| Ok : A -> result A
| Raise : exn -> result A.
Arguments Ok {A} _.
Arguments Raise {A} _.

Definition bind {A B} (m : result A) (k : A -> result B) : result B :=
  match m with Ok a => k a | Raise e => Raise e end.

Notation "x <- m ;; k" := (bind m (fun x => k))
  (at level 61, m at next level, right associativity).
Notation "' p <- m ;; k" := (bind m (fun x => let p := x in k))
  (at level 61, p pattern, m at next level, right associativity).

Definition HTTP_400_BAD_REQUEST : nat := 400.
Definition HTTP_403_FORBIDDEN : nat := 403.
Definition HTTP_404_NOT_FOUND : nat := 404.

(** ** Python values *)

(** [float(i)], which [i * x] applies to the int [i] when [x] is a float: the
    nearest binary64 value, and [OverflowError] when [i] is too large for
    one. *)
Definition of_int (i : Z) : result float :=
  let x := SF2Prim (binary_normalize prec emax i 0 false) in
  if is_infinity x then Raise OverflowError else Ok x.

(** [i * x] for an int [i] and a float [x]. *)
Definition int_mul (i : Z) (x : float) : result float :=
  f <- of_int i ;; Ok (f * x)%float.

(** The builtin [sum]: a left fold starting from 0. *)
Definition sum (l : list float) : float := fold_left PrimFloat.add l 0%float.

(** An operand of [+], [-] or [>=] next to a float: [None] raises. *)
Definition operand {A} (v : option A) : result A :=
  match v with Some a => Ok a | None => Raise TypeError end.

(** Truth value of an optional boolean attribute ([None] is falsy). *)
Definition truthy (b : option bool) : bool :=
  match b with Some true => true | _ => false end.

(** Truth value of an optional string ([None] and [""] are falsy). *)
Definition truthy_str (s : option string) : bool :=
  match s with Some s => negb (s =? "") | None => false end.

(** [if key: query = query.filter(column == key)]. *)
Definition filter_if {R} (column : R -> string) (key : option string)
           (query : list R) : list R :=
  match key with
  | Some k => if truthy_str key then filter (fun r => column r =? k) query
              else query
  | None => query
  end.

(** A field of a pydantic update schema ([Optional[T] = None]): left unset, or
    set by the client, possibly to [null]. *)
Inductive field (A : Type) : Type :=
| Unset : field A
| Given : option A -> field A.
Arguments Unset {A}.
Arguments Given {A} _.

(** [model.field], which is [None] when the field is unset. *)
Definition value {A} (f : field A) : option A :=
  match f with Unset => None | Given v => v end.

(** [setattr(obj, name, v)] for the entry of [dict(exclude_unset=True)], if any;
    [old] is the attribute before the loop. *)
Definition setattr {A} (old : option A) (f : field A) : option A :=
  match f with Unset => old | Given v => v end.

(** ** models/enums.py *)

Inductive CustomerType := CUSTOMER | CLIENT.
Inductive InvoiceStatus := DRAFT | SENT | PAID | OVERDUE | CANCELLED.
Inductive PaymentMethod := CASH | BANK_TRANSFER | CREDIT_CARD | PAYPAL | CHECK.
Inductive PaymentStatus := PENDING | COMPLETED | FAILED | REFUNDED.

Definition PaymentStatus_eqb (a b : PaymentStatus) : bool :=
  match a, b with
  | PENDING, PENDING | COMPLETED, COMPLETED
  | FAILED, FAILED | REFUNDED, REFUNDED => true
  | _, _ => false
  end.

(** [p.status == PaymentStatus.COMPLETED]; a NULL status compares unequal. *)
Definition is_completed (s : option PaymentStatus) : bool :=
  match s with Some s => PaymentStatus_eqb s COMPLETED | None => false end.

(** ** models: one record per table row

    Nullable columns are options: the API can set [Invoice.status] and
    [Invoice.is_paid] to NULL, and [Invoice.total_amount] is NULL when the
    amount written to it is NaN. *)

Module User.
Record t := mk {
  id : string;
  name : string;
  email : string;
  password_hash : string;
  is_super_admin : option bool
}.
End User.

Module Customer.
Record t := mk {
  id : string;
  name : string;
  email : string;
  phone : option string;
  type : CustomerType
}.
End Customer.

Module Invoice.
Record t := mk {
  id : string;
  user_id : string;
  customer_id : string;
  status : option InvoiceStatus;
  total_amount : option float;
  is_paid : option bool
}.
End Invoice.

Module InvoiceItem.
Record t := mk {
  id : string;
  invoice_id : string;
  description : string;
  quantity : Z;
  unit_price : float;
  total : float
}.
End InvoiceItem.

Module Payment.
Record t := mk {
  id : string;
  user_id : string;
  invoice_id : string;
  amount : float;
  method : PaymentMethod;
  status : option PaymentStatus
}.
End Payment.

(** The database: the five tables. *)
Record Session := mkSession {
  users : list User.t;
  customers : list Customer.t;
  invoices : list Invoice.t;
  invoice_items : list InvoiceItem.t;
  payments : list Payment.t
}.

(** ** schemas.py *)

Module UserCreate.
Record t := mk {
  name : string;
  email : string;
  is_super_admin : bool;
  password : string
}.
End UserCreate.

Module UserUpdate.
Record t := mk {
  name : field string;
  email : field string;
  is_super_admin : field bool
}.
End UserUpdate.

Module CustomerCreate.
Record t := mk {
  name : string;
  email : string;
  phone : option string;
  type : CustomerType
}.
End CustomerCreate.

Module CustomerUpdate.
Record t := mk {
  name : field string;
  email : field string;
  phone : field string;
  type : field CustomerType
}.
End CustomerUpdate.

Module InvoiceItemCreate.
Record t := mk {
  description : string;
  quantity : Z;
  unit_price : float
}.
End InvoiceItemCreate.

Module InvoiceItemUpdate.
Record t := mk {
  description : field string;
  quantity : field Z;
  unit_price : field float
}.
End InvoiceItemUpdate.

Module InvoiceCreate.
Record t := mk {
  customer_id : string;
  status : InvoiceStatus;
  items : list InvoiceItemCreate.t
}.
End InvoiceCreate.

Module InvoiceUpdate.
Record t := mk {
  customer_id : field string;
  status : field InvoiceStatus;
  is_paid : field bool
}.
End InvoiceUpdate.

Module PaymentCreate.
Record t := mk {
  invoice_id : string;
  amount : float;
  method : PaymentMethod;
  status : PaymentStatus
}.
End PaymentCreate.

Module PaymentUpdate.
Record t := mk {
  amount : field float;
  method : field PaymentMethod;
  status : field PaymentStatus
}.
End PaymentUpdate.

(** ** Rows and tables *)

Definition set_users (db : Session) (l : list User.t) : Session :=
  mkSession l (customers db) (invoices db) (invoice_items db) (payments db).
Definition set_customers (db : Session) (l : list Customer.t) : Session :=
  mkSession (users db) l (invoices db) (invoice_items db) (payments db).
Definition set_invoices (db : Session) (l : list Invoice.t) : Session :=
  mkSession (users db) (customers db) l (invoice_items db) (payments db).
Definition set_invoice_items (db : Session) (l : list InvoiceItem.t) : Session :=
  mkSession (users db) (customers db) (invoices db) l (payments db).
Definition set_payments (db : Session) (l : list Payment.t) : Session :=
  mkSession (users db) (customers db) (invoices db) (invoice_items db) l.

(** [INSERT]: the primary key must be new. *)
Definition insert {R} (pk : R -> string) (table : list R) (row : R)
  : result (list R) :=
  if existsb (fun r => pk r =? pk row) table then Raise IntegrityError
  else Ok (table ++ [row]).

Fixpoint insert_all {R} (pk : R -> string) (table rows : list R)
  : result (list R) :=
  match rows with
  | [] => Ok table
  | row :: rows => table' <- insert pk table row ;; insert_all pk table' rows
  end.

(** [UPDATE ... WHERE id = pk row]. *)
Definition update {R} (pk : R -> string) (table : list R) (row : R) : list R :=
  map (fun r => if pk r =? pk row then row else r) table.

(** [DELETE ... WHERE id = key]. *)
Definition delete {R} (pk : R -> string) (table : list R) (key : string)
  : list R :=
  filter (fun r => negb (pk r =? key)) table.

(** [DELETE] of each member of a collection, by primary key. *)
Definition delete_all {R} (pk : R -> string) (table : list R)
           (keys : list string) : list R :=
  fold_left (delete pk) keys table.

(** A [nullable=False] column at commit. *)
Definition not_null {A} (v : option A) : result A :=
  match v with Some a => Ok a | None => Raise IntegrityError end.

(** What a [Float] column keeps of the float written to it: SQLite stores NaN
    as NULL, and a zero as 0.0 whatever its sign; every other value comes back
    as it was written. *)
Definition Float (x : float) : option float :=
  if is_nan x then None else Some (if is_zero x then 0%float else x).

(** An int bound to an [Integer] column: [sqlite3] raises [OverflowError] when
    it does not fit 64 bits. *)
Definition Integer (i : Z) : result Z :=
  if ((- 2 ^ 63 <=? i) && (i <? 2 ^ 63))%Z then Ok i
  else Raise OverflowError.

(** A column at commit: an attribute that [setattr] has set is written to its
    column, an attribute that was left alone is not. *)
Definition written {A B} (f : field A) (column : B -> result B) (v : B)
  : result B :=
  match f with Unset => Ok v | Given _ => column v end.

(** ** Relationships *)

(** [invoice.items]. *)
Definition Invoice_items (db : Session) (invoice : Invoice.t)
  : list InvoiceItem.t :=
  filter (fun i => InvoiceItem.invoice_id i =? Invoice.id invoice)
         (invoice_items db).

(** [invoice.payments]. *)
Definition Invoice_payments (db : Session) (invoice : Invoice.t)
  : list Payment.t :=
  filter (fun p => Payment.invoice_id p =? Invoice.id invoice) (payments db).

(** [customer.invoices]. *)
Definition Customer_invoices (db : Session) (customer : Customer.t)
  : list Invoice.t :=
  filter (fun i => Invoice.customer_id i =? Customer.id customer)
         (invoices db).

(** [user.invoices] and [user.payments]. *)
Definition User_invoices (db : Session) (user : User.t) : list Invoice.t :=
  filter (fun i => Invoice.user_id i =? User.id user) (invoices db).
Definition User_payments (db : Session) (user : User.t) : list Payment.t :=
  filter (fun p => Payment.user_id p =? User.id user) (payments db).

(** ** crud.py *)

Module crud.

Section UserCRUD.

(** [auth.get_password_hash]; [app/auth.py] is not part of the sources. *)
Variable get_password_hash : string -> string.

Definition get_user (db : Session) (user_id : string) : option User.t :=
  find (fun u => User.id u =? user_id) (users db).

Definition get_user_by_email (db : Session) (email : string)
  : option User.t :=
  find (fun u => User.email u =? email) (users db).

Definition get_users (db : Session) (skip limit : nat) : list User.t :=
  firstn limit (skipn skip (users db)).

(** [email] is a [unique] column. *)
Definition email_taken (db : Session) (user : User.t) : bool :=
  existsb (fun u => (User.email u =? User.email user)
                    && negb (User.id u =? User.id user)) (users db).

Definition create_user (db : Session) (user : UserCreate.t) (uuid : string)
  : result (User.t * Session) :=
  let hashed_password := get_password_hash (UserCreate.password user) in
  let db_user :=
    User.mk uuid (UserCreate.name user) (UserCreate.email user)
            hashed_password (Some (UserCreate.is_super_admin user)) in
  if email_taken db db_user then Raise IntegrityError else
  users' <- insert User.id (users db) db_user ;;
  Ok (db_user, set_users db users').

Definition update_user (db : Session) (user_id : string)
           (user_update : UserUpdate.t)
  : result (option User.t * Session) :=
  match get_user db user_id with
  | None => Ok (None, db)
  | Some db_user =>
      let name := setattr (Some (User.name db_user))
                          (UserUpdate.name user_update) in
      let email := setattr (Some (User.email db_user))
                           (UserUpdate.email user_update) in
      let is_super_admin := setattr (User.is_super_admin db_user)
                                    (UserUpdate.is_super_admin user_update) in
      name <- not_null name ;;
      email <- not_null email ;;
      let db_user := User.mk (User.id db_user) name email
                             (User.password_hash db_user) is_super_admin in
      if email_taken db db_user then Raise IntegrityError else
      Ok (Some db_user, set_users db (update User.id (users db) db_user))
  end.

(** [user.invoices] and [user.payments] have no delete cascade: the ORM sets
    the [user_id] of the user's invoices and payments to NULL, which
    [nullable=False] refuses. *)
Definition delete_user (db : Session) (user_id : string)
  : result (bool * Session) :=
  match get_user db user_id with
  | None => Ok (false, db)
  | Some db_user =>
      match User_invoices db db_user, User_payments db db_user with
      | [], [] => Ok (true, set_users db (delete User.id (users db) user_id))
      | _, _ => Raise IntegrityError
      end
  end.

End UserCRUD.

(** *** Customer CRUD (the part the invoice handlers use) *)

Definition get_customer (db : Session) (customer_id : string)
  : option Customer.t :=
  find (fun c => Customer.id c =? customer_id) (customers db).

(** *** Customer CRUD (the rest) *)

Definition get_customers (db : Session) (skip limit : nat)
  : list Customer.t :=
  firstn limit (skipn skip (customers db)).

Definition create_customer (db : Session) (customer : CustomerCreate.t)
           (uuid : string) : result (Customer.t * Session) :=
  let db_customer :=
    Customer.mk uuid (CustomerCreate.name customer)
                (CustomerCreate.email customer)
                (CustomerCreate.phone customer)
                (CustomerCreate.type customer) in
  customers' <- insert Customer.id (customers db) db_customer ;;
  Ok (db_customer, set_customers db customers').

Definition update_customer (db : Session) (customer_id : string)
           (customer_update : CustomerUpdate.t)
  : result (option Customer.t * Session) :=
  match get_customer db customer_id with
  | None => Ok (None, db)
  | Some db_customer =>
      let name := setattr (Some (Customer.name db_customer))
                          (CustomerUpdate.name customer_update) in
      let email := setattr (Some (Customer.email db_customer))
                           (CustomerUpdate.email customer_update) in
      let phone := setattr (Customer.phone db_customer)
                           (CustomerUpdate.phone customer_update) in
      let type := setattr (Some (Customer.type db_customer))
                          (CustomerUpdate.type customer_update) in
      name <- not_null name ;;
      email <- not_null email ;;
      type <- not_null type ;;
      let db_customer :=
        Customer.mk (Customer.id db_customer) name email phone type in
      Ok (Some db_customer,
          set_customers db (update Customer.id (customers db) db_customer))
  end.

(** [customer.invoices] has no delete cascade: the ORM sets the
    [customer_id] of the customer's invoices to NULL, which [nullable=False]
    refuses. *)
Definition delete_customer (db : Session) (customer_id : string)
  : result (bool * Session) :=
  match get_customer db customer_id with
  | None => Ok (false, db)
  | Some db_customer =>
      match Customer_invoices db db_customer with
      | [] =>
          Ok (true,
              set_customers db
                (delete Customer.id (customers db) (Customer.id db_customer)))
      | _ :: _ => Raise IntegrityError
      end
  end.

(** *** Invoice CRUD *)

Definition get_invoice (db : Session) (invoice_id : string)
  : option Invoice.t :=
  find (fun i => Invoice.id i =? invoice_id) (invoices db).

Definition get_invoices (db : Session) (user_id : option string)
           (skip limit : nat) : list Invoice.t :=
  let query := invoices db in
  let query := filter_if Invoice.user_id user_id query in
  firstn limit (skipn skip query).

(** The generator [item.quantity * item.unit_price for item in
    invoice.items]. *)
Fixpoint item_totals (items : list InvoiceItemCreate.t)
  : result (list float) :=
  match items with
  | [] => Ok []
  | item :: items =>
      item_total <- int_mul (InvoiceItemCreate.quantity item)
                            (InvoiceItemCreate.unit_price item) ;;
      item_totals' <- item_totals items ;;
      Ok (item_total :: item_totals')
  end.

(** The objects built by the loop [for item in invoice.items]; the [k]-th one
    receives the identifier [uuids k]. *)
Fixpoint new_items (invoice_id : string) (uuids : nat -> string) (k : nat)
         (items : list InvoiceItemCreate.t) : result (list InvoiceItem.t) :=
  match items with
  | [] => Ok []
  | item :: items =>
      item_total <- int_mul (InvoiceItemCreate.quantity item)
                            (InvoiceItemCreate.unit_price item) ;;
      let db_item :=
        InvoiceItem.mk (uuids k) invoice_id
                       (InvoiceItemCreate.description item)
                       (InvoiceItemCreate.quantity item)
                       (InvoiceItemCreate.unit_price item)
                       item_total in
      db_items <- new_items invoice_id uuids (S k) items ;;
      Ok (db_item :: db_items)
  end.

(** The [INSERT] of new items at commit.  Their attributes are bound to the
    parameters of the statement first, then SQLite executes it: [unit_price]
    and [total] are [nullable=False]. *)
Definition bound (db_item : InvoiceItem.t) : result InvoiceItem.t :=
  _ <- Integer (InvoiceItem.quantity db_item) ;; Ok db_item.

Definition stored (db_item : InvoiceItem.t) : result InvoiceItem.t :=
  unit_price <- not_null (Float (InvoiceItem.unit_price db_item)) ;;
  total <- not_null (Float (InvoiceItem.total db_item)) ;;
  Ok (InvoiceItem.mk (InvoiceItem.id db_item) (InvoiceItem.invoice_id db_item)
                     (InvoiceItem.description db_item)
                     (InvoiceItem.quantity db_item) unit_price total).

Fixpoint for_each {A B} (f : A -> result B) (l : list A) : result (list B) :=
  match l with
  | [] => Ok []
  | a :: l => b <- f a ;; l' <- for_each f l ;; Ok (b :: l')
  end.

Definition create_invoice (db : Session) (invoice : InvoiceCreate.t)
           (user_id : string) (uuid : string) (uuids : nat -> string)
  : result (option Invoice.t * Session) :=
  (* Calculate total amount *)
  item_totals <- item_totals (InvoiceCreate.items invoice) ;;
  let total_amount := sum item_totals in
  (* Create invoice; [is_paid] takes its column default *)
  let db_invoice :=
    Invoice.mk uuid user_id (InvoiceCreate.customer_id invoice)
               (Some (InvoiceCreate.status invoice)) (Float total_amount)
               (Some false) in
  invoices' <- insert Invoice.id (invoices db) db_invoice ;;
  (* Create invoice items *)
  db_items <- new_items (Invoice.id db_invoice) uuids 0
                        (InvoiceCreate.items invoice) ;;
  (* [db.commit()] *)
  db_items <- for_each bound db_items ;;
  db_items <- for_each stored db_items ;;
  items' <- insert_all InvoiceItem.id (invoice_items db) db_items ;;
  let db' := set_invoice_items (set_invoices db invoices') items' in
  Ok (get_invoice db' (Invoice.id db_invoice), db').

Definition update_invoice (db : Session) (invoice_id : string)
           (invoice_update : InvoiceUpdate.t)
  : result (option Invoice.t * Session) :=
  match get_invoice db invoice_id with
  | None => Ok (None, db)
  | Some db_invoice =>
      let customer_id := setattr (Some (Invoice.customer_id db_invoice))
                                 (InvoiceUpdate.customer_id invoice_update) in
      let status := setattr (Invoice.status db_invoice)
                            (InvoiceUpdate.status invoice_update) in
      let is_paid := setattr (Invoice.is_paid db_invoice)
                             (InvoiceUpdate.is_paid invoice_update) in
      customer_id <- not_null customer_id ;;
      let db_invoice :=
        Invoice.mk (Invoice.id db_invoice) (Invoice.user_id db_invoice)
                   customer_id status
                   (Invoice.total_amount db_invoice) is_paid in
      Ok (Some db_invoice,
          set_invoices db (update Invoice.id (invoices db) db_invoice))
  end.

(** [invoice.items] cascades ([all, delete-orphan]); [invoice.payments] does
    not: the ORM sets the [invoice_id] of the invoice's payments to NULL, which
    [nullable=False] refuses. *)
Definition delete_invoice (db : Session) (invoice_id : string)
  : result (bool * Session) :=
  match get_invoice db invoice_id with
  | None => Ok (false, db)
  | Some db_invoice =>
      match Invoice_payments db db_invoice with
      | [] =>
          let items' :=
            delete_all InvoiceItem.id (invoice_items db)
                       (map InvoiceItem.id (Invoice_items db db_invoice)) in
          let invoices' :=
            delete Invoice.id (invoices db) (Invoice.id db_invoice) in
          Ok (true, set_invoice_items (set_invoices db invoices') items')
      | _ :: _ => Raise IntegrityError
      end
  end.

(** *** Invoice Item CRUD *)

(** [db.query(models.InvoiceItem).filter(models.InvoiceItem.id == item_id).first()] *)
Definition get_invoice_item (db : Session) (item_id : string)
  : option InvoiceItem.t :=
  find (fun i => InvoiceItem.id i =? item_id) (invoice_items db).

Definition set_total_amount (invoice : Invoice.t)
           (total_amount : option float) : Invoice.t :=
  Invoice.mk (Invoice.id invoice) (Invoice.user_id invoice)
             (Invoice.customer_id invoice) (Invoice.status invoice)
             total_amount (Invoice.is_paid invoice).

Definition create_invoice_item (db : Session) (item : InvoiceItemCreate.t)
           (invoice_id : string) (uuid : string)
  : result (InvoiceItem.t * Session) :=
  item_total <- int_mul (InvoiceItemCreate.quantity item)
                        (InvoiceItemCreate.unit_price item) ;;
  let db_item :=
    InvoiceItem.mk uuid invoice_id (InvoiceItemCreate.description item)
                   (InvoiceItemCreate.quantity item)
                   (InvoiceItemCreate.unit_price item) item_total in
  (* Update invoice total *)
  invoices' <-
    match get_invoice db invoice_id with
    | Some invoice =>
        total_amount <- operand (Invoice.total_amount invoice) ;;
        Ok (update Invoice.id (invoices db)
                   (set_total_amount invoice
                      (Float (total_amount + item_total)%float)))
    | None => Ok (invoices db)
    end ;;
  (* [db.commit()] *)
  db_item <- bound db_item ;;
  db_item <- stored db_item ;;
  items' <- insert InvoiceItem.id (invoice_items db) db_item ;;
  Ok (db_item, set_invoice_items (set_invoices db invoices') items').

Definition update_invoice_item (db : Session) (item_id : string)
           (item_update : InvoiceItemUpdate.t)
  : result (option InvoiceItem.t * Session) :=
  match get_invoice_item db item_id with
  | None => Ok (None, db)
  | Some db_item =>
      let old_total := InvoiceItem.total db_item in
      let description :=
        setattr (Some (InvoiceItem.description db_item))
                (InvoiceItemUpdate.description item_update) in
      let quantity :=
        setattr (Some (InvoiceItem.quantity db_item))
                (InvoiceItemUpdate.quantity item_update) in
      let unit_price :=
        setattr (Some (InvoiceItem.unit_price db_item))
                (InvoiceItemUpdate.unit_price item_update) in
      (* Recalculate total: [None * x] and [x * None] raise *)
      match quantity, unit_price with
      | Some quantity, Some unit_price =>
          total <- int_mul quantity unit_price ;;
          (* Update invoice total *)
          invoices' <-
            match get_invoice db (InvoiceItem.invoice_id db_item) with
            | Some invoice =>
                total_amount <- operand (Invoice.total_amount invoice) ;;
                Ok (update Invoice.id (invoices db)
                           (set_total_amount invoice
                              (Float (total_amount - old_total + total)%float)))
            | None => Ok (invoices db)
            end ;;
          (* [db.commit()] *)
          quantity <- written (InvoiceItemUpdate.quantity item_update)
                              Integer quantity ;;
          description <- not_null description ;;
          unit_price <- written (InvoiceItemUpdate.unit_price item_update)
                                (fun x => not_null (Float x)) unit_price ;;
          total <- not_null (Float total) ;;
          let db_item :=
            InvoiceItem.mk (InvoiceItem.id db_item)
                           (InvoiceItem.invoice_id db_item)
                           description quantity unit_price total in
          Ok (Some db_item,
              set_invoice_items (set_invoices db invoices')
                (update InvoiceItem.id (invoice_items db) db_item))
      | _, _ => Raise TypeError
      end
  end.

Definition delete_invoice_item (db : Session) (item_id : string)
  : result (bool * Session) :=
  match get_invoice_item db item_id with
  | None => Ok (false, db)
  | Some db_item =>
      (* Update invoice total *)
      invoices' <-
        match get_invoice db (InvoiceItem.invoice_id db_item) with
        | Some invoice =>
            total_amount <- operand (Invoice.total_amount invoice) ;;
            Ok (update Invoice.id (invoices db)
                       (set_total_amount invoice
                          (Float (total_amount
                                  - InvoiceItem.total db_item)%float)))
        | None => Ok (invoices db)
        end ;;
      Ok (true,
          set_invoice_items (set_invoices db invoices')
            (delete InvoiceItem.id (invoice_items db) (InvoiceItem.id db_item)))
  end.

(** *** Payment CRUD *)

Definition get_payment (db : Session) (payment_id : string)
  : option Payment.t :=
  find (fun p => Payment.id p =? payment_id) (payments db).

Definition get_payments (db : Session) (user_id invoice_id : option string)
           (skip limit : nat) : list Payment.t :=
  let query := payments db in
  let query := filter_if Payment.user_id user_id query in
  let query := filter_if Payment.invoice_id invoice_id query in
  firstn limit (skipn skip query).

Definition create_payment (db : Session) (payment : PaymentCreate.t)
           (user_id : string) (uuid : string)
  : result (Payment.t * Session) :=
  (* Update invoice payment status if payment is completed *)
  invoices' <-
    if PaymentStatus_eqb (PaymentCreate.status payment) COMPLETED then
      match get_invoice db (PaymentCreate.invoice_id payment) with
      | Some invoice =>
          let total_payments :=
            sum (map Payment.amount
                     (filter (fun p => is_completed (Payment.status p))
                             (Invoice_payments db invoice))) in
          let total_payments :=
            (total_payments + PaymentCreate.amount payment)%float in
          total_amount <- operand (Invoice.total_amount invoice) ;;
          if (total_amount <=? total_payments)%float then
            Ok (update Invoice.id (invoices db)
                       (Invoice.mk (Invoice.id invoice)
                                   (Invoice.user_id invoice)
                                   (Invoice.customer_id invoice) (Some PAID)
                                   (Invoice.total_amount invoice) (Some true)))
          else Ok (invoices db)
      | None => Ok (invoices db)
      end
    else Ok (invoices db) ;;
  (* [db.commit()] *)
  amount <- not_null (Float (PaymentCreate.amount payment)) ;;
  let db_payment :=
    Payment.mk uuid user_id (PaymentCreate.invoice_id payment)
               amount (PaymentCreate.method payment)
               (Some (PaymentCreate.status payment)) in
  payments' <- insert Payment.id (payments db) db_payment ;;
  Ok (db_payment, set_payments (set_invoices db invoices') payments').

Definition update_payment (db : Session) (payment_id : string)
           (payment_update : PaymentUpdate.t)
  : result (option Payment.t * Session) :=
  match get_payment db payment_id with
  | None => Ok (None, db)
  | Some db_payment =>
      let amount := setattr (Some (Payment.amount db_payment))
                            (PaymentUpdate.amount payment_update) in
      let method := setattr (Some (Payment.method db_payment))
                            (PaymentUpdate.method payment_update) in
      let status := setattr (Payment.status db_payment)
                            (PaymentUpdate.status payment_update) in
      (* [db.commit()] *)
      amount <- not_null amount ;;
      amount <- written (PaymentUpdate.amount payment_update)
                        (fun x => not_null (Float x)) amount ;;
      method <- not_null method ;;
      let db_payment :=
        Payment.mk (Payment.id db_payment) (Payment.user_id db_payment)
                   (Payment.invoice_id db_payment) amount method status in
      Ok (Some db_payment,
          set_payments db (update Payment.id (payments db) db_payment))
  end.

Definition delete_payment (db : Session) (payment_id : string)
  : result (bool * Session) :=
  match get_payment db payment_id with
  | None => Ok (false, db)
  | Some db_payment =>
      Ok (true,
          set_payments db
            (delete Payment.id (payments db) (Payment.id db_payment)))
  end.

End crud.

(** ** auth.py (dependencies of the handlers)

    [auth.get_current_user] resolves the bearer token to a user row; the
    handlers below receive that row as [current_user]. *)

Module auth.

(** Modelled from the spec: [app/auth.py], which defines the dependency
    [get_current_super_admin], is not part of the sources.  Section 4.2 of the
    specification has "User | list all, delete any | only super-admin", and a
    forbidden action "signals a Forbidden condition" (status 403, section 6). *)
Definition get_current_super_admin (current_user : User.t) : result User.t :=
  if negb (truthy (User.is_super_admin current_user)) then
    Raise (HTTPException HTTP_403_FORBIDDEN "Not enough permissions")
  else Ok current_user.

End auth.

(** [if not current_user.is_super_admin and owner_id != current_user.id] *)
Definition not_permitted (current_user : User.t) (owner_id : string) : bool :=
  negb (truthy (User.is_super_admin current_user))
  && negb (owner_id =? User.id current_user).

Definition not_found {A} (detail : string) : result A :=
  Raise (HTTPException HTTP_404_NOT_FOUND detail).

Definition forbidden {A} (detail : string) : result A :=
  Raise (HTTPException HTTP_403_FORBIDDEN detail).

(** ** routers/invoices.py *)

Module invoices_router.

Definition create_invoice (db : Session) (invoice : InvoiceCreate.t)
           (current_user : User.t) (uuid : string) (uuids : nat -> string)
  : result (option Invoice.t * Session) :=
  (* Check if customer exists *)
  match crud.get_customer db (InvoiceCreate.customer_id invoice) with
  | None => not_found "Customer not found"
  | Some _ =>
      crud.create_invoice db invoice (User.id current_user) uuid uuids
  end.

Definition read_invoices (db : Session) (skip limit : nat)
           (current_user : User.t) : list Invoice.t :=
  (* Super admins can see all invoices, regular users only their own *)
  let user_id :=
    if truthy (User.is_super_admin current_user) then None
    else Some (User.id current_user) in
  crud.get_invoices db user_id skip limit.

Definition read_invoice (db : Session) (invoice_id : string)
           (current_user : User.t) : result Invoice.t :=
  match crud.get_invoice db invoice_id with
  | None => not_found "Invoice not found"
  | Some db_invoice =>
      if not_permitted current_user (Invoice.user_id db_invoice) then
        forbidden "Not enough permissions"
      else Ok db_invoice
  end.

Definition update_invoice (db : Session) (invoice_id : string)
           (invoice_update : InvoiceUpdate.t) (current_user : User.t)
  : result (option Invoice.t * Session) :=
  match crud.get_invoice db invoice_id with
  | None => not_found "Invoice not found"
  | Some db_invoice =>
      if not_permitted current_user (Invoice.user_id db_invoice) then
        forbidden "Not enough permissions"
      else
        (* Check if customer exists (if being updated) *)
        _ <- match value (InvoiceUpdate.customer_id invoice_update) with
             | Some customer_id =>
                 match crud.get_customer db customer_id with
                 | None => not_found "Customer not found"
                 | Some _ => Ok tt
                 end
             | None => Ok tt
             end ;;
        crud.update_invoice db invoice_id invoice_update
  end.

Definition delete_invoice (db : Session) (invoice_id : string)
           (current_user : User.t) : result (unit * Session) :=
  match crud.get_invoice db invoice_id with
  | None => not_found "Invoice not found"
  | Some db_invoice =>
      if not_permitted current_user (Invoice.user_id db_invoice) then
        forbidden "Not enough permissions"
      else
        '(success, db') <- crud.delete_invoice db invoice_id ;;
        if negb success then not_found "Invoice not found"
        else Ok (tt, db')
  end.

(** Invoice Items endpoints *)

Definition create_invoice_item (db : Session) (invoice_id : string)
           (item : InvoiceItemCreate.t) (current_user : User.t) (uuid : string)
  : result (InvoiceItem.t * Session) :=
  match crud.get_invoice db invoice_id with
  | None => not_found "Invoice not found"
  | Some db_invoice =>
      if not_permitted current_user (Invoice.user_id db_invoice) then
        forbidden "Not enough permissions"
      else crud.create_invoice_item db item invoice_id uuid
  end.

(** The permission test of the two item handlers: [db_invoice.user_id] is
    evaluated only when the caller is not a super-admin, and fails on [None]. *)
Definition item_permission (db : Session) (db_item : InvoiceItem.t)
           (current_user : User.t) : result unit :=
  let db_invoice := crud.get_invoice db (InvoiceItem.invoice_id db_item) in
  if negb (truthy (User.is_super_admin current_user)) then
    match db_invoice with
    | None => Raise AttributeError
    | Some db_invoice =>
        if negb (Invoice.user_id db_invoice =? User.id current_user) then
          forbidden "Not enough permissions"
        else Ok tt
    end
  else Ok tt.

Definition update_invoice_item (db : Session) (item_id : string)
           (item_update : InvoiceItemUpdate.t) (current_user : User.t)
  : result (InvoiceItem.t * Session) :=
  (* Get the item and its invoice *)
  match crud.get_invoice_item db item_id with
  | None => not_found "Invoice item not found"
  | Some db_item =>
      _ <- item_permission db db_item current_user ;;
      '(db_item, db') <- crud.update_invoice_item db item_id item_update ;;
      match db_item with
      | None => not_found "Invoice item not found"
      | Some db_item => Ok (db_item, db')
      end
  end.

Definition delete_invoice_item (db : Session) (item_id : string)
           (current_user : User.t) : result (unit * Session) :=
  (* Get the item and its invoice *)
  match crud.get_invoice_item db item_id with
  | None => not_found "Invoice item not found"
  | Some db_item =>
      _ <- item_permission db db_item current_user ;;
      '(success, db') <- crud.delete_invoice_item db item_id ;;
      if negb success then not_found "Invoice item not found"
      else Ok (tt, db')
  end.

End invoices_router.

(** ** routers/payments.py *)

Module payments_router.

Definition create_payment (db : Session) (payment : PaymentCreate.t)
           (current_user : User.t) (uuid : string)
  : result (Payment.t * Session) :=
  (* Check if invoice exists and user has permission *)
  match crud.get_invoice db (PaymentCreate.invoice_id payment) with
  | None => not_found "Invoice not found"
  | Some invoice =>
      if not_permitted current_user (Invoice.user_id invoice) then
        forbidden "Not enough permissions"
      else crud.create_payment db payment (User.id current_user) uuid
  end.

Definition read_payments (db : Session) (invoice_id : option string)
           (skip limit : nat) (current_user : User.t) : list Payment.t :=
  (* Super admins can see all payments, regular users only their own *)
  let user_id :=
    if truthy (User.is_super_admin current_user) then None
    else Some (User.id current_user) in
  crud.get_payments db user_id invoice_id skip limit.

Definition read_payment (db : Session) (payment_id : string)
           (current_user : User.t) : result Payment.t :=
  match crud.get_payment db payment_id with
  | None => not_found "Payment not found"
  | Some db_payment =>
      if not_permitted current_user (Payment.user_id db_payment) then
        forbidden "Not enough permissions"
      else Ok db_payment
  end.

Definition update_payment (db : Session) (payment_id : string)
           (payment_update : PaymentUpdate.t) (current_user : User.t)
  : result (option Payment.t * Session) :=
  match crud.get_payment db payment_id with
  | None => not_found "Payment not found"
  | Some db_payment =>
      if not_permitted current_user (Payment.user_id db_payment) then
        forbidden "Not enough permissions"
      else crud.update_payment db payment_id payment_update
  end.

Definition delete_payment (db : Session) (payment_id : string)
           (current_user : User.t) : result (string * Session) :=
  match crud.get_payment db payment_id with
  | None => not_found "Payment not found"
  | Some db_payment =>
      if not_permitted current_user (Payment.user_id db_payment) then
        forbidden "Not enough permissions"
      else
        '(success, db') <- crud.delete_payment db payment_id ;;
        if negb success then not_found "Payment not found"
        else Ok ("Payment deleted successfully", db')
  end.

End payments_router.

(** ** routers/users.py *)

Module users_router.

Definition read_users (db : Session) (skip limit : nat)
           (current_user : User.t) : result (list User.t) :=
  _ <- auth.get_current_super_admin current_user ;;
  Ok (crud.get_users db skip limit).

(** [if user_id != current_user.id and not current_user.is_super_admin] *)
Definition not_self (current_user : User.t) (user_id : string) : bool :=
  negb (user_id =? User.id current_user)
  && negb (truthy (User.is_super_admin current_user)).

Definition read_user (db : Session) (user_id : string)
           (current_user : User.t) : result User.t :=
  (* Users can only view their own profile unless they're super admin *)
  if not_self current_user user_id then forbidden "Not enough permissions"
  else
    match crud.get_user db user_id with
    | None => not_found "User not found"
    | Some db_user => Ok db_user
    end.

Definition update_user (db : Session) (user_id : string)
           (user_update : UserUpdate.t) (current_user : User.t)
  : result (User.t * Session) :=
  (* Users can only update their own profile unless they're super admin *)
  if not_self current_user user_id then forbidden "Not enough permissions"
  else
    (* Only super admins can modify super admin status *)
    if match value (UserUpdate.is_super_admin user_update) with
       | Some _ => negb (truthy (User.is_super_admin current_user))
       | None => false
       end
    then forbidden "Not enough permissions to modify admin status"
    else
      '(db_user, db') <- crud.update_user db user_id user_update ;;
      match db_user with
      | None => not_found "User not found"
      | Some db_user => Ok (db_user, db')
      end.

Definition delete_user (db : Session) (user_id : string)
           (current_user : User.t) : result (unit * Session) :=
  _ <- auth.get_current_super_admin current_user ;;
  '(success, db') <- crud.delete_user db user_id ;;
  if negb success then not_found "User not found"
  else Ok (tt, db').

End users_router.

(** ** routers/customers.py

    Every handler depends on [auth.get_current_user] and makes no use of the
    caller. *)

Module customers_router.

Definition create_customer (db : Session) (customer : CustomerCreate.t)
           (current_user : User.t) (uuid : string)
  : result (Customer.t * Session) :=
  crud.create_customer db customer uuid.

Definition read_customers (db : Session) (skip limit : nat)
           (current_user : User.t) : list Customer.t :=
  crud.get_customers db skip limit.

Definition read_customer (db : Session) (customer_id : string)
           (current_user : User.t) : result Customer.t :=
  match crud.get_customer db customer_id with
  | None => not_found "Customer not found"
  | Some db_customer => Ok db_customer
  end.

Definition update_customer (db : Session) (customer_id : string)
           (customer_update : CustomerUpdate.t) (current_user : User.t)
  : result (Customer.t * Session) :=
  '(db_customer, db') <- crud.update_customer db customer_id
                                              customer_update ;;
  match db_customer with
  | None => not_found "Customer not found"
  | Some db_customer => Ok (db_customer, db')
  end.

Definition delete_customer (db : Session) (customer_id : string)
           (current_user : User.t) : result (string * Session) :=
  '(success, db') <- crud.delete_customer db customer_id ;;
  if negb success then not_found "Customer not found"
  else Ok ("Customer deleted successfully", db').

End customers_router.

(** ** routers/auth.py *)

Module auth_router.

Section Register.

Variable get_password_hash : string -> string.

(** The handler has no [Depends(auth.get_current_user)]: it takes no caller. *)
Definition register (db : Session) (user : UserCreate.t) (uuid : string)
  : result (User.t * Session) :=
  (* Check if user already exists *)
  match crud.get_user_by_email db (UserCreate.email user) with
  | Some _ =>
      Raise (HTTPException HTTP_400_BAD_REQUEST "Email already registered")
  | None => crud.create_user get_password_hash db user uuid
  end.

End Register.

End auth_router.

(** * Vocabulary of the statements *)

(** ** Requests, calls and their outcome *)

(** The identifiers drawn for the rows of one [create_invoice] are new. *)
Definition fresh_uuids (db : Session) (uuid : string) (uuids : nat -> string)
           (n : nat) : Prop :=
  crud.get_invoice db uuid = None
  /\ NoDup (map uuids (seq 0 n))
  /\ forall k, (k < n)%nat -> crud.get_invoice_item db (uuids k) = None.

(** A field that the client supplies with a value, or leaves out. *)
Definition supplied {A} (v : option A) : field A :=
  match v with Some a => Given (Some a) | None => Unset end.

(** A partial update: any subset of description, quantity, unit price. *)
Definition partial_update (description : option string) (quantity : option Z)
           (unit_price : option float) : InvoiceItemUpdate.t :=
  InvoiceItemUpdate.mk (supplied description) (supplied quantity)
                       (supplied unit_price).

(** The value of a column after such an update. *)
Definition or_else {A} (v : option A) (old : A) : A :=
  match v with Some a => a | None => old end.

(** What a [Float] column holds after such an update, if the update can be
    stored. *)
Definition Float_or_else (v : option float) (old : float) : option float :=
  match v with Some x => Float x | None => Some old end.

(** A quantity and a unit price that can be stored in an item row: the
    quantity fits the [Integer] column, the unit price and the total are
    numbers. *)
Definition storable (quantity : Z) (unit_price : float) : bool :=
  match int_mul quantity unit_price, Integer quantity with
  | Ok total, Ok _ => negb (is_nan unit_price) && negb (is_nan total)
  | _, _ => false
  end.

(** The item row [db_item] of invoice [invoice_id] holds the specification
    [item]: its columns keep the supplied values and the product
    quantity * unit_price. *)
Definition holds (invoice_id : string) (item : InvoiceItemCreate.t)
           (db_item : InvoiceItem.t) : Prop :=
  InvoiceItem.invoice_id db_item = invoice_id
  /\ InvoiceItem.description db_item = InvoiceItemCreate.description item
  /\ InvoiceItem.quantity db_item = InvoiceItemCreate.quantity item
  /\ Float (InvoiceItemCreate.unit_price item)
     = Some (InvoiceItem.unit_price db_item)
  /\ exists total,
       int_mul (InvoiceItemCreate.quantity item)
               (InvoiceItemCreate.unit_price item) = Ok total
       /\ Float total = Some (InvoiceItem.total db_item).

(** The objects built by the loop of [create_invoice], given the products
    that the generator has computed. *)
Fixpoint pending (invoice_id : string) (uuids : nat -> string) (k : nat)
         (items : list InvoiceItemCreate.t) (totals : list float)
  : list InvoiceItem.t :=
  match items, totals with
  | item :: items, total :: totals =>
      InvoiceItem.mk (uuids k) invoice_id
                     (InvoiceItemCreate.description item)
                     (InvoiceItemCreate.quantity item)
                     (InvoiceItemCreate.unit_price item) total
      :: pending invoice_id uuids (S k) items totals
  | _, _ => []
  end.

(** What the item table holds of a pending object. *)
Definition stored_as (row db_item : InvoiceItem.t) : Prop :=
  exists unit_price total,
    Float (InvoiceItem.unit_price row) = Some unit_price
    /\ Float (InvoiceItem.total row) = Some total
    /\ db_item =
       InvoiceItem.mk (InvoiceItem.id row) (InvoiceItem.invoice_id row)
                      (InvoiceItem.description row)
                      (InvoiceItem.quantity row) unit_price total.

(** The amounts of the payments recorded for an invoice whose status is
    "completed", in the order of the table, and their sum. *)
Definition completed_amounts (db : Session) (invoice : Invoice.t)
  : list float :=
  flat_map (fun p =>
              if Payment.invoice_id p =? Invoice.id invoice then
                match Payment.status p with
                | Some COMPLETED => [Payment.amount p]
                | _ => []
                end
              else [])
           (payments db).

Definition completed_payments (db : Session) (invoice : Invoice.t) : float :=
  sum (completed_amounts db invoice).

(** The database after a call: what the call committed, or the database as it
    was when the call raised. *)
Definition after {A} (db : Session) (r : result (A * Session)) : Session :=
  match r with Ok (_, db') => db' | Raise _ => db end.

(** The call raised [HTTPException(status_code=403)]. *)
Definition is_forbidden {A} (r : result A) : bool :=
  match r with
  | Raise (HTTPException status_code _) =>
      Nat.eqb status_code HTTP_403_FORBIDDEN
  | _ => false
  end.

(** The call raised [HTTPException] with the given status code. *)
Definition raises_status {A} (status_code : nat) (r : result A) : bool :=
  match r with
  | Raise (HTTPException code _) => Nat.eqb code status_code
  | _ => false
  end.

(** What the handler does with the answer of the CRUD layer. *)
Definition found {A} (detail : string) (r : result (option A * Session))
  : result (A * Session) :=
  match r with
  | Ok (Some a, db') => Ok (a, db')
  | Ok (None, _) => not_found detail
  | Raise e => Raise e
  end.

Definition deleted {A} (detail : string) (a : A) (r : result (bool * Session))
  : result (A * Session) :=
  match r with
  | Ok (true, db') => Ok (a, db')
  | Ok (false, _) => not_found detail
  | Raise e => Raise e
  end.

(** The caller is neither a super-admin nor the owner. *)
Definition stranger (current_user : User.t) (owner_id : string) : Prop :=
  truthy (User.is_super_admin current_user) = false
  /\ owner_id <> User.id current_user.

(** ** The accounting equations *)

(** [item.total == item.quantity * item.unit_price]: the total is what its
    column keeps of the product. *)
Definition item_ok (item : InvoiceItem.t) : Prop :=
  exists product,
    int_mul (InvoiceItem.quantity item) (InvoiceItem.unit_price item)
    = Ok product
    /\ Float product = Some (InvoiceItem.total item).


(** The invoice table after an operation on an item: at most one invoice has
    a new [total_amount]. *)
Definition retotalled (db : Session) (invoices' : list Invoice.t) : Prop :=
  invoices' = invoices db
  \/ exists invoice total_amount,
       In invoice (invoices db)
       /\ invoices' = update Invoice.id (invoices db)
                             (crud.set_total_amount invoice total_amount).

(** ** Sequences of item operations *)

(** The operations of section 4.1 on items, each with the identifiers it
    draws. *)
Inductive item_operation : Type :=
| CreateInvoice (invoice : InvoiceCreate.t) (user_id : string)
                (uuid : string) (uuids : nat -> string)
| AddItem (item : InvoiceItemCreate.t) (invoice_id : string) (uuid : string)
| UpdateItem (item_id : string) (item_update : InvoiceItemUpdate.t)
| DeleteItem (item_id : string).

(** One call of the CRUD layer. *)
Definition perform (db : Session) (op : item_operation) : Session :=
  match op with
  | CreateInvoice invoice user_id uuid uuids =>
      after db (crud.create_invoice db invoice user_id uuid uuids)
  | AddItem item invoice_id uuid =>
      after db (crud.create_invoice_item db item invoice_id uuid)
  | UpdateItem item_id item_update =>
      after db (crud.update_invoice_item db item_id item_update)
  | DeleteItem item_id =>
      after db (crud.delete_invoice_item db item_id)
  end.

(** The calls of a sequence, one after the other. *)
Definition run (db : Session) (ops : list item_operation) : Session :=
  fold_left perform ops db.

(** The same operations as requests to [routers/invoices.py], each with its
    authenticated caller. *)
Inductive item_request : Type :=
| PostInvoice (invoice : InvoiceCreate.t) (uuid : string)
              (uuids : nat -> string)
| PostItem (invoice_id : string) (item : InvoiceItemCreate.t) (uuid : string)
| PutItem (item_id : string) (item_update : InvoiceItemUpdate.t)
| DeleteItemRequest (item_id : string).

Definition handle (db : Session) (request : User.t * item_request)
  : Session :=
  let (current_user, request) := request in
  match request with
  | PostInvoice invoice uuid uuids =>
      after db (invoices_router.create_invoice db invoice current_user
                                               uuid uuids)
  | PostItem invoice_id item uuid =>
      after db (invoices_router.create_invoice_item db invoice_id item
                                                    current_user uuid)
  | PutItem item_id item_update =>
      after db (invoices_router.update_invoice_item db item_id item_update
                                                    current_user)
  | DeleteItemRequest item_id =>
      after db (invoices_router.delete_invoice_item db item_id current_user)
  end.

(** ** Sequences of requests to the whole API *)

(** The requests that write: those on items, and one per other handler that
    changes the database. *)
Inductive api_request : Type :=
| ItemRequest (request : item_request)
| PutInvoice (invoice_id : string) (invoice_update : InvoiceUpdate.t)
| DeleteInvoice (invoice_id : string)
| PostPayment (payment : PaymentCreate.t) (uuid : string)
| PutPayment (payment_id : string) (payment_update : PaymentUpdate.t)
| DeletePayment (payment_id : string)
| PostCustomer (customer : CustomerCreate.t) (uuid : string)
| PutCustomer (customer_id : string) (customer_update : CustomerUpdate.t)
| DeleteCustomer (customer_id : string)
| PostRegister (user : UserCreate.t) (uuid : string)
| PutUser (user_id : string) (user_update : UserUpdate.t)
| DeleteUser (user_id : string).

(** The database after one request of [current_user] ([register] has no
    caller and ignores it). *)
Definition respond (get_password_hash : string -> string) (db : Session)
           (request : User.t * api_request) : Session :=
  let (current_user, request) := request in
  match request with
  | ItemRequest request => handle db (current_user, request)
  | PutInvoice invoice_id invoice_update =>
      after db (invoices_router.update_invoice db invoice_id invoice_update
                                               current_user)
  | DeleteInvoice invoice_id =>
      after db (invoices_router.delete_invoice db invoice_id current_user)
  | PostPayment payment uuid =>
      after db (payments_router.create_payment db payment current_user uuid)
  | PutPayment payment_id payment_update =>
      after db (payments_router.update_payment db payment_id payment_update
                                               current_user)
  | DeletePayment payment_id =>
      after db (payments_router.delete_payment db payment_id current_user)
  | PostCustomer customer uuid =>
      after db (customers_router.create_customer db customer current_user
                                                 uuid)
  | PutCustomer customer_id customer_update =>
      after db (customers_router.update_customer db customer_id
                                                 customer_update current_user)
  | DeleteCustomer customer_id =>
      after db (customers_router.delete_customer db customer_id current_user)
  | PostRegister user uuid =>
      after db (auth_router.register get_password_hash db user uuid)
  | PutUser user_id user_update =>
      after db (users_router.update_user db user_id user_update current_user)
  | DeleteUser user_id =>
      after db (users_router.delete_user db user_id current_user)
  end.

(** ** A sample database *)

(** A super-admin and two regular users. *)
Definition ex_root : User.t :=
  User.mk "u0" "Root" "root@example.com" "x" (Some true).
Definition ex_alice : User.t :=
  User.mk "u1" "Alice" "alice@example.com" "x" (Some false).
Definition ex_bob : User.t :=
  User.mk "u2" "Bob" "bob@example.com" "x" (Some false).

Definition ex_acme : Customer.t :=
  Customer.mk "c1" "Acme" "acme@example.com" None CUSTOMER.

(** Alice's open invoice: 2 x 100 and 1 x 50, a pending payment of 200 and
    a completed payment of 100. *)
Definition ex_item1 : InvoiceItem.t :=
  InvoiceItem.mk "t1" "i1" "Design" 2 100 200.
Definition ex_item2 : InvoiceItem.t :=
  InvoiceItem.mk "t2" "i1" "Hosting" 1 50 50.
Definition ex_invoice1 : Invoice.t :=
  Invoice.mk "i1" "u1" "c1" (Some SENT) (Some 250%float) (Some false).
Definition ex_payment0 : Payment.t :=
  Payment.mk "p0" "u1" "i1" 200 BANK_TRANSFER (Some PENDING).
Definition ex_payment1 : Payment.t :=
  Payment.mk "p1" "u1" "i1" 100 CASH (Some COMPLETED).

(** Alice's paid invoice: 1 x 80, paid in full. *)
Definition ex_item3 : InvoiceItem.t :=
  InvoiceItem.mk "t3" "i2" "Support" 1 80 80.
Definition ex_invoice2 : Invoice.t :=
  Invoice.mk "i2" "u1" "c1" (Some PAID) (Some 80%float) (Some true).
Definition ex_payment2 : Payment.t :=
  Payment.mk "p2" "u1" "i2" 80 PAYPAL (Some COMPLETED).

(** Bob's draft: 3 x 10, no payment. *)
Definition ex_item4 : InvoiceItem.t :=
  InvoiceItem.mk "t4" "i3" "Stickers" 3 10 30.
Definition ex_invoice3 : Invoice.t :=
  Invoice.mk "i3" "u2" "c1" (Some DRAFT) (Some 30%float) (Some false).

Definition ex_db : Session :=
  mkSession [ex_root; ex_alice; ex_bob] [ex_acme]
            [ex_invoice1; ex_invoice2; ex_invoice3]
            [ex_item1; ex_item2; ex_item3; ex_item4]
            [ex_payment0; ex_payment1; ex_payment2].

(** A new invoice with the items of the specification's example, and the
    identifiers drawn for its rows. *)
Definition ex_uuids (k : nat) : string :=
  match k with O => "t5" | _ => "t6" end.

Definition ex_new_invoice : InvoiceCreate.t :=
  InvoiceCreate.mk "c1" DRAFT
    [InvoiceItemCreate.mk "Logo" 2 100;
     InvoiceItemCreate.mk "Flyer" 1 50].


(** Amounts that binary64 does not hold exactly: an invoice of 0.1, 0.2 and
    0.3, whose first item is then deleted. *)
Definition ex_uuids' (k : nat) : string :=
  match k with O => "t10" | 1%nat => "t11" | _ => "t12" end.

Definition ex_tenths : InvoiceCreate.t :=
  InvoiceCreate.mk "c1" DRAFT
    [InvoiceItemCreate.mk "One tenth" 1 0.1;
     InvoiceItemCreate.mk "Two tenths" 1 0.2;
     InvoiceItemCreate.mk "Three tenths" 1 0.3].


(** Amounts beyond 2^53, where binary64 holds even integers only: an invoice
    of 1e16 and 1. *)
Definition ex_uuids'' (k : nat) : string :=
  match k with O => "t13" | _ => "t14" end.

Definition ex_large : InvoiceCreate.t :=
  InvoiceCreate.mk "c1" DRAFT
    [InvoiceItemCreate.mk "Plant" 1 1e16;
     InvoiceItemCreate.mk "Bolt" 1 1].

Definition ex_db_large : Session :=
  run ex_db [CreateInvoice ex_large "u2" "i6" ex_uuids''].

(** An invoice of 19.99. *)
Definition ex_db_cents : Session :=
  run ex_db
      [CreateInvoice
         (InvoiceCreate.mk "c1" DRAFT [InvoiceItemCreate.mk "Pen" 1 19.99])
         "u2" "i7" (fun _ => "t16")].

(** An invoice of 0.1 + 0.2 with a completed payment of 0.1. *)
Definition ex_db_threshold : Session :=
  after
    (run ex_db
       [CreateInvoice
          (InvoiceCreate.mk "c1" DRAFT
             [InvoiceItemCreate.mk "One tenth" 1 0.1;
              InvoiceItemCreate.mk "Two tenths" 1 0.2])
          "u2" "i8" (fun k => match k with O => "t17" | _ => "t18" end)])
    (crud.create_payment
       (run ex_db
          [CreateInvoice
             (InvoiceCreate.mk "c1" DRAFT
                [InvoiceItemCreate.mk "One tenth" 1 0.1;
                 InvoiceItemCreate.mk "Two tenths" 1 0.2])
             "u2" "i8" (fun k => match k with O => "t17" | _ => "t18" end)])
       (PaymentCreate.mk "i8" 0.1 CASH COMPLETED) "u2" "p8").

(** The constraints on the user table: [id] is the primary key and [email]
    is [unique]. *)
Definition users_unique (db : Session) : Prop :=
  NoDup (map User.id (users db)) /\ NoDup (map User.email (users db)).

(** [invoice.customer] is there for every invoice. *)
Definition customers_exist (db : Session) : Prop :=
  Forall (fun invoice =>
            crud.get_customer db (Invoice.customer_id invoice) <> None)
         (invoices db).

(** One request of each router, by Alice and by the super-admin. *)
Definition ex_requests : list (User.t * api_request) :=
  [(ex_alice, PostPayment
                (PaymentCreate.mk "i1" 150 CASH COMPLETED) "p3");
   (ex_alice, ItemRequest (PutItem "t1" (partial_update None (Some 3%Z) None)));
   (ex_root, PutInvoice "i3" (InvoiceUpdate.mk Unset Unset (Given (Some true))));
   (ex_bob, DeleteInvoice "i3");
   (ex_bob, PostCustomer
              (CustomerCreate.mk "Bolt" "bolt@example.com" None CLIENT) "c2");
   (ex_alice, PostRegister
                (UserCreate.mk "Mallory" "mallory@example.com" true "secret")
                "u9");
   (ex_alice, DeletePayment "p1")].

(** * Properties *)

(** ** Tables *)

Section Tables.

Context {R : Type} (pk : R -> string).

Lemma find_pk (table : list R) (key : string) (r : R) :
  find (fun r => pk r =? key) table = Some r -> pk r = key /\ In r table.
Proof.
  intros H. apply find_some in H. destruct H as [Hin Heq].
  apply String.eqb_eq in Heq. auto.
Qed.

Lemma find_none_existsb (table : list R) (key : string) :
  find (fun r => pk r =? key) table = None ->
  existsb (fun r => pk r =? key) table = false.
Proof.
  induction table as [|r table IH]; simpl; [reflexivity|].
  destruct (pk r =? key); [discriminate|]. exact IH.
Qed.

Lemma existsb_find_none (table : list R) (key : string) :
  existsb (fun r => pk r =? key) table = false ->
  find (fun r => pk r =? key) table = None.
Proof.
  induction table as [|r table IH]; simpl; [reflexivity|].
  destruct (pk r =? key); [discriminate|]. exact IH.
Qed.

Lemma insert_fresh (table : list R) (row : R) :
  find (fun r => pk r =? pk row) table = None ->
  insert pk table row = Ok (table ++ [row]).
Proof.
  intros H. unfold insert. rewrite (find_none_existsb _ _ H). reflexivity.
Qed.

Lemma insert_inv (table table' : list R) (row : R) :
  insert pk table row = Ok table' ->
  table' = table ++ [row] /\ find (fun r => pk r =? pk row) table = None.
Proof.
  unfold insert. intros H.
  destruct (existsb _ table) eqn:E; [discriminate|].
  inversion H. split; [reflexivity|]. now apply existsb_find_none.
Qed.

Lemma find_app (f : R -> bool) (l1 l2 : list R) :
  find f (l1 ++ l2) = match find f l1 with Some r => Some r | None => find f l2 end.
Proof.
  induction l1 as [|r l1 IH]; simpl; [reflexivity|].
  destruct (f r); [reflexivity|exact IH].
Qed.

Lemma find_update (table : list R) (row : R) (key : string) :
  find (fun r => pk r =? key) (update pk table row) =
  if pk row =? key then
    match find (fun r => pk r =? key) table with
    | Some _ => Some row
    | None => None
    end
  else find (fun r => pk r =? key) table.
Proof.
  unfold update. induction table as [|r table IH]; simpl.
  - destruct (pk row =? key); reflexivity.
  - destruct (String.eqb_spec (pk r) (pk row)) as [E1|E1];
    destruct (String.eqb_spec (pk row) key) as [E2|E2];
    destruct (String.eqb_spec (pk r) key) as [E3|E3];
    try congruence; auto.
Qed.

Lemma find_delete (table : list R) (key key' : string) :
  find (fun r => pk r =? key) (delete pk table key') =
  if key =? key' then None else find (fun r => pk r =? key) table.
Proof.
  unfold delete. induction table as [|r table IH]; simpl.
  - destruct (key =? key'); reflexivity.
  - destruct (String.eqb_spec (pk r) key') as [E1|E1]; simpl;
    destruct (String.eqb_spec key key') as [E2|E2];
    destruct (String.eqb_spec (pk r) key) as [E3|E3];
    try congruence; auto.
Qed.

Lemma update_absent (table : list R) (row : R) :
  find (fun r => pk r =? pk row) table = None -> update pk table row = table.
Proof.
  unfold update. induction table as [|r table IH]; simpl; [reflexivity|].
  destruct (pk r =? pk row); [discriminate|].
  intros H. now rewrite IH.
Qed.

End Tables.

Section Keys.

Context {R : Type} (pk : R -> string).

Lemma find_none_iff (table : list R) (key : string) :
  find (fun r => pk r =? key) table = None <-> ~ In key (map pk table).
Proof.
  induction table as [|r table IH]; simpl; [tauto|].
  destruct (String.eqb_spec (pk r) key) as [E|E].
  - split; [discriminate|]. intros H. exfalso. apply H. now left.
  - rewrite IH. tauto.
Qed.

Lemma map_pk_update (table : list R) (row : R) :
  map pk (update pk table row) = map pk table.
Proof.
  unfold update. induction table as [|r table IH]; simpl; [reflexivity|].
  rewrite IH. destruct (String.eqb_spec (pk r) (pk row)) as [E|E];
    [now rewrite E|reflexivity].
Qed.

Lemma delete_absent (table : list R) (key : string) :
  ~ In key (map pk table) -> delete pk table key = table.
Proof.
  unfold delete. induction table as [|r table IH]; simpl; [reflexivity|].
  intros H. destruct (String.eqb_spec (pk r) key) as [E|E]; simpl.
  - exfalso. apply H. now left.
  - rewrite IH; [reflexivity|]. tauto.
Qed.

Lemma in_delete (table : list R) (key : string) (r : R) :
  In r (delete pk table key) -> In r table.
Proof. unfold delete. intros H. now apply filter_In in H. Qed.

Lemma NoDup_delete (table : list R) (key : string) :
  NoDup (map pk table) -> NoDup (map pk (delete pk table key)).
Proof.
  induction table as [|r table IH]; simpl; [auto|].
  intros H. inversion H as [|? ? Hnin Hnd]; subst.
  destruct (pk r =? key); simpl; [auto|].
  constructor; [|auto].
  intros Hin. apply Hnin. apply in_map_iff in Hin.
  destruct Hin as (x & Hx & Hin). apply in_delete in Hin.
  rewrite <- Hx. now apply in_map.
Qed.

Lemma NoDup_insert (table : list R) (row : R) :
  NoDup (map pk table) ->
  find (fun r => pk r =? pk row) table = None ->
  NoDup (map pk (table ++ [row])).
Proof.
  intros Hnd Hfresh. apply find_none_iff in Hfresh.
  rewrite map_app. simpl.
  apply NoDup_app; [exact Hnd|constructor; [simpl; tauto|constructor]|].
  intros x Hx [E|[]]. subst x. contradiction.
Qed.

Lemma insert_all_inv (rows table table' : list R) :
  insert_all pk table rows = Ok table' ->
  table' = table ++ rows
  /\ (NoDup (map pk table) -> NoDup (map pk table')).
Proof.
  revert table. induction rows as [|row rows IH]; intros table; simpl.
  - intros H. inversion H. rewrite app_nil_r. auto.
  - destruct (insert pk table row) as [t|e] eqn:E; [|discriminate].
    cbn [bind]. intros H. apply insert_inv in E. destruct E as [-> Hf].
    apply IH in H. destruct H as [-> Hnd].
    split; [now rewrite <- app_assoc|].
    intros H. apply Hnd. now apply NoDup_insert.
Qed.

Lemma Forall_update (P : R -> Prop) (table : list R) (row : R) :
  (forall r, In r table -> pk r <> pk row -> P r) ->
  P row ->
  Forall P (update pk table row).
Proof.
  intros H Hrow. unfold update. apply Forall_forall. intros x Hx.
  apply in_map_iff in Hx. destruct Hx as (r & Hr & Hin).
  destruct (String.eqb_spec (pk r) (pk row)) as [E|E]; subst x; auto.
Qed.

End Keys.

(** Reading a table back from an updated session. *)
Ltac tables :=
  unfold set_users, set_customers, set_invoices, set_invoice_items,
    set_payments;
  cbn [users customers invoices invoice_items payments].

Ltac queries :=
  unfold crud.get_user, crud.get_user_by_email, crud.get_customer,
    crud.get_invoice, crud.get_invoice_item, crud.get_payment in *;
  unfold Invoice_items, Invoice_payments in *; tables.

(** ** Floats *)

Lemma is_zero_inv (x : float) :
  is_zero x = true -> x = 0%float \/ x = (-0)%float.
Proof.
  unfold is_zero. rewrite eqb_spec. intros H.
  rewrite <- (SF2Prim_Prim2SF x).
  destruct (Prim2SF x) as [[]|[]| |[] m e]; try discriminate; auto.
Qed.

Lemma Float_inv (x y : float) :
  Float x = Some y ->
  is_nan x = false /\ y = if is_zero x then 0%float else x.
Proof.
  unfold Float. destruct (is_nan x); [discriminate|].
  intros H. inversion H. auto.
Qed.

Lemma Float_number (x : float) :
  is_nan x = false -> Float x = Some (if is_zero x then 0%float else x).
Proof. unfold Float. now intros ->. Qed.

Lemma Float_nan (x : float) : is_nan x = true -> Float x = None.
Proof. unfold Float. now intros ->. Qed.

(** What the column keeps is equal, as a number, to what was written. *)
Lemma Float_eqb (x y : float) : Float x = Some y -> (y =? x)%float = true.
Proof.
  intros H. destruct (Float_inv _ _ H) as [Hn ->].
  destruct (is_zero x) eqn:Hz.
  - destruct (is_zero_inv x Hz) as [-> | ->]; reflexivity.
  - unfold is_nan in Hn. now destruct (x =? x)%float.
Qed.

(** A value read from the column is stored as it is. *)
Lemma Float_Float (x y : float) : Float x = Some y -> Float y = Some y.
Proof.
  intros H. destruct (Float_inv _ _ H) as [Hn ->].
  destruct (is_zero x) eqn:Hz; [reflexivity|].
  unfold Float. now rewrite Hn, Hz.
Qed.

(** The product by a zero does not depend, once stored, on the sign of the
    zero. *)
Lemma Float_mul_zero (x p : float) :
  is_zero p = true -> Float (x * 0) = Float (x * p).
Proof.
  intros H. destruct (is_zero_inv p H) as [-> | ->]; [reflexivity|].
  unfold Float, is_nan, is_zero. rewrite !eqb_spec, !mul_spec.
  change (Prim2SF 0) with (S754_zero false).
  change (Prim2SF (-0)) with (S754_zero true).
  destruct (Prim2SF x) as [[]|[]| |[] m e]; reflexivity.
Qed.

Lemma SFcompare_Lt (x y : spec_float) :
  SFcompare x y = Some Lt -> SFcompare y x = Some Gt.
Proof.
  destruct x as [[]|[]| |[] m1 e1], y as [[]|[]| |[] m2 e2]; simpl;
    try discriminate; try reflexivity;
    assert (Em : Pos.compare_cont Eq m2 m1
                 = CompOpp (Pos.compare_cont Eq m1 m2))
      by (symmetry; apply (Pos.compare_cont_antisym m1 m2 Eq));
    rewrite (Z.compare_antisym e1 e2), Em;
    destruct (e1 ?= e2)%Z; simpl; try discriminate; try reflexivity;
    destruct (Pos.compare_cont Eq m1 m2); simpl; try discriminate;
    reflexivity.
Qed.

(** [a < b] excludes [a >= b]. *)
Lemma ltb_leb (a b : float) :
  (a <? b)%float = true -> (b <=? a)%float = false.
Proof.
  rewrite ltb_spec, leb_spec. unfold SFltb, SFleb.
  destruct (SFcompare (Prim2SF a) (Prim2SF b)) as [[]|] eqn:E;
    try discriminate.
  intros _. now rewrite (SFcompare_Lt _ _ E).
Qed.

(** ** Sums *)

Lemma sum_nil : sum [] = 0%float.
Proof. reflexivity. Qed.

Lemma sum_snoc (l : list float) (x : float) :
  sum (l ++ [x]) = (sum l + x)%float.
Proof. unfold sum. now rewrite fold_left_app. Qed.

(** ** Quantities and prices that can be stored *)

Lemma Integer_inv (i j : Z) : Integer i = Ok j -> j = i.
Proof. unfold Integer. destruct (_ && _); [|discriminate]. now inversion 1. Qed.

Lemma Integer_raise (i : Z) (e : exn) :
  Integer i = Raise e -> e = OverflowError.
Proof. unfold Integer. destruct (_ && _); [discriminate|]. now inversion 1. Qed.

Lemma int_mul_raise (i : Z) (x : float) (e : exn) :
  int_mul i x = Raise e -> e = OverflowError.
Proof.
  unfold int_mul, of_int. destruct (is_infinity _); cbn [bind]; [|discriminate].
  now inversion 1.
Qed.

Lemma storable_inv (quantity : Z) (unit_price : float) :
  storable quantity unit_price = true ->
  exists total unit_price' total',
    int_mul quantity unit_price = Ok total
    /\ Integer quantity = Ok quantity
    /\ Float unit_price = Some unit_price'
    /\ Float total = Some total'.
Proof.
  unfold storable.
  destruct (int_mul quantity unit_price) as [total|] eqn:Em; [|discriminate].
  destruct (Integer quantity) as [i|] eqn:Ei; [|discriminate].
  pose proof (Integer_inv _ _ Ei); subst i.
  intros H. apply andb_prop in H. destruct H as [Hp Ht].
  apply negb_true_iff in Hp, Ht.
  eexists. eexists. eexists.
  split; [reflexivity|]. split; [reflexivity|].
  split; apply Float_number; assumption.
Qed.


(** The row that holds a storable product satisfies the item equation. *)
Lemma stored_item_ok (id invoice_id description : string) (quantity : Z)
      (unit_price total unit_price' total' : float) :
  int_mul quantity unit_price = Ok total ->
  Float unit_price = Some unit_price' ->
  Float total = Some total' ->
  item_ok (InvoiceItem.mk id invoice_id description quantity unit_price'
                          total').
Proof.
  intros Hm Hp Ht. unfold item_ok. cbn [InvoiceItem.quantity
    InvoiceItem.unit_price InvoiceItem.total].
  unfold int_mul in *. destruct (of_int quantity) as [f|]; [|discriminate].
  cbn [bind] in *. inversion Hm; subst total.
  eexists. split; [reflexivity|].
  destruct (Float_inv _ _ Hp) as [_ ->].
  destruct (is_zero unit_price) eqn:Hz; [|exact Ht].
  now rewrite (Float_mul_zero f unit_price Hz).
Qed.

(** ** Adding an item *)

(** One step of a call: the binds, and the columns of the rows it builds. *)
Ltac step :=
  cbn [bind not_null operand
       InvoiceItem.id InvoiceItem.invoice_id InvoiceItem.description
       InvoiceItem.quantity InvoiceItem.unit_price InvoiceItem.total
       Invoice.id Invoice.user_id Invoice.customer_id Invoice.status
       Invoice.total_amount Invoice.is_paid
       Payment.id Payment.user_id Payment.invoice_id Payment.amount
       Payment.method Payment.status].

Lemma bound_ok (db_item : InvoiceItem.t) :
  Integer (InvoiceItem.quantity db_item) = Ok (InvoiceItem.quantity db_item) ->
  crud.bound db_item = Ok db_item.
Proof. unfold crud.bound. now intros ->. Qed.

Lemma bound_inv (db_item db_item' : InvoiceItem.t) :
  crud.bound db_item = Ok db_item' ->
  db_item' = db_item
  /\ Integer (InvoiceItem.quantity db_item)
     = Ok (InvoiceItem.quantity db_item).
Proof.
  unfold crud.bound.
  destruct (Integer _) as [i|] eqn:E; cbn [bind]; [|discriminate].
  rewrite (Integer_inv _ _ E). now inversion 1.
Qed.

Lemma stored_ok (db_item : InvoiceItem.t) (unit_price total : float) :
  Float (InvoiceItem.unit_price db_item) = Some unit_price ->
  Float (InvoiceItem.total db_item) = Some total ->
  crud.stored db_item
  = Ok (InvoiceItem.mk (InvoiceItem.id db_item)
                       (InvoiceItem.invoice_id db_item)
                       (InvoiceItem.description db_item)
                       (InvoiceItem.quantity db_item) unit_price total).
Proof. unfold crud.stored. now intros -> ->. Qed.

Lemma stored_inv (db_item db_item' : InvoiceItem.t) :
  crud.stored db_item = Ok db_item' ->
  exists unit_price total,
    Float (InvoiceItem.unit_price db_item) = Some unit_price
    /\ Float (InvoiceItem.total db_item) = Some total
    /\ db_item' =
       InvoiceItem.mk (InvoiceItem.id db_item)
                      (InvoiceItem.invoice_id db_item)
                      (InvoiceItem.description db_item)
                      (InvoiceItem.quantity db_item) unit_price total.
Proof.
  unfold crud.stored.
  destruct (Float (InvoiceItem.unit_price db_item)) as [p|];
    cbn [bind not_null]; [|discriminate].
  destruct (Float (InvoiceItem.total db_item)) as [t|];
    cbn [bind not_null]; [|discriminate].
  inversion 1. now exists p, t.
Qed.

(** The call on values that can be stored: the row and the database it
    commits. *)
Lemma create_invoice_item_ok
  (db : Session) (item : InvoiceItemCreate.t) (invoice_id uuid : string)
  (invoice : Invoice.t) (total_amount T unit_price' T' : float) :
  crud.get_invoice db invoice_id = Some invoice ->
  Invoice.total_amount invoice = Some total_amount ->
  crud.get_invoice_item db uuid = None ->
  int_mul (InvoiceItemCreate.quantity item) (InvoiceItemCreate.unit_price item)
  = Ok T ->
  Integer (InvoiceItemCreate.quantity item)
  = Ok (InvoiceItemCreate.quantity item) ->
  Float (InvoiceItemCreate.unit_price item) = Some unit_price' ->
  Float T = Some T' ->
  let db_item :=
    InvoiceItem.mk uuid invoice_id (InvoiceItemCreate.description item)
                   (InvoiceItemCreate.quantity item) unit_price' T' in
  crud.create_invoice_item db item invoice_id uuid
  = Ok (db_item,
        set_invoice_items
          (set_invoices db
             (update Invoice.id (invoices db)
                (crud.set_total_amount invoice
                   (Float (total_amount + T)%float))))
          (invoice_items db ++ [db_item])).
Proof.
  intros Hinv Htotal Hfresh Hmul Hint Hprice HT db_item.
  unfold crud.create_invoice_item.
  rewrite Hmul, Hinv, Htotal. cbn [bind operand].
  rewrite bound_ok by exact Hint. cbn [bind].
  rewrite (stored_ok _ unit_price' T') by assumption.
  cbn [bind InvoiceItem.id InvoiceItem.invoice_id InvoiceItem.description
       InvoiceItem.quantity].
  fold db_item. rewrite insert_fresh by exact Hfresh. reflexivity.
Qed.

(** C4 (amended). For an existing invoice whose [total_amount] is a number
    and an item specification that can be stored, whatever the signs of its
    quantity and unit price, [create_invoice_item] persists an item whose
    total is the binary64 product T = quantity * unit_price, and sets the
    invoice's [total_amount] to the binary64 sum of the old value and T, its
    other columns staying as they were.  A specification that cannot be
    stored raises and nothing is persisted; a quantity beyond 64 bits raises
    [OverflowError]. *)
Theorem create_invoice_item_adds_total
  (db : Session) (item : InvoiceItemCreate.t) (invoice_id uuid : string)
  (invoice : Invoice.t) (total_amount : float) :
  crud.get_invoice db invoice_id = Some invoice ->
  Invoice.total_amount invoice = Some total_amount ->
  crud.get_invoice_item db uuid = None ->
  let quantity := InvoiceItemCreate.quantity item in
  let unit_price := InvoiceItemCreate.unit_price item in
  (storable quantity unit_price = true ->
   exists T db_item db',
     int_mul quantity unit_price = Ok T
     /\ crud.create_invoice_item db item invoice_id uuid = Ok (db_item, db')
     /\ Float T = Some (InvoiceItem.total db_item)
     /\ InvoiceItem.quantity db_item = quantity
     /\ Float unit_price = Some (InvoiceItem.unit_price db_item)
     /\ InvoiceItem.invoice_id db_item = invoice_id
     /\ item_ok db_item
     /\ crud.get_invoice_item db' uuid = Some db_item
     /\ invoice_items db' = invoice_items db ++ [db_item]
     /\ crud.get_invoice db' invoice_id =
        Some (crud.set_total_amount invoice
                (Float (total_amount + T)%float)))
  /\ (storable quantity unit_price = false ->
      crud.create_invoice_item db item invoice_id uuid = Raise OverflowError
      \/ crud.create_invoice_item db item invoice_id uuid
         = Raise IntegrityError)
  /\ (Integer quantity = Raise OverflowError ->
      crud.create_invoice_item db item invoice_id uuid
      = Raise OverflowError).
Proof.
  intros Hinv Htotal Hfresh quantity unit_price.
  destruct (find_pk _ _ _ _ Hinv) as [Hid _].
  split; [|split].
  - intros Hs.
    destruct (storable_inv _ _ Hs) as (T & p' & T' & Hmul & Hint & Hp & HT).
    exists T. eexists. eexists. split; [exact Hmul|].
    split.
    { apply (create_invoice_item_ok db item invoice_id uuid invoice
               total_amount T p' T'); assumption. }
    cbn [InvoiceItem.total InvoiceItem.quantity InvoiceItem.unit_price
         InvoiceItem.invoice_id].
    split; [exact HT|]. split; [reflexivity|]. split; [exact Hp|].
    split; [reflexivity|].
    split; [now apply (stored_item_ok _ _ _ _ unit_price T)|].
    split.
    { queries. rewrite find_app.
      unfold crud.get_invoice_item in Hfresh. rewrite Hfresh.
      cbn [find InvoiceItem.id]. now rewrite String.eqb_refl. }
    split; [reflexivity|].
    queries. rewrite find_update. cbn [crud.set_total_amount Invoice.id].
    now rewrite Hid, String.eqb_refl, Hinv.
  - intros Hs. unfold crud.create_invoice_item, crud.bound, crud.stored.
    unfold storable in Hs. fold quantity unit_price.
    destruct (int_mul quantity unit_price) as [T|e] eqn:Hmul.
    + rewrite Hinv, Htotal. step.
      destruct (Integer quantity) as [i|e] eqn:Hint; step.
      * apply andb_false_iff in Hs. right.
        destruct Hs as [Hs|Hs]; apply negb_false_iff in Hs.
        -- now rewrite (Float_nan _ Hs).
        -- destruct (Float unit_price); step; [|reflexivity].
           now rewrite (Float_nan _ Hs).
      * left. now rewrite (Integer_raise _ _ Hint).
    + left. cbn [bind]. now rewrite (int_mul_raise _ _ _ Hmul).
  - intros Hint. unfold crud.create_invoice_item, crud.bound.
    fold quantity unit_price.
    destruct (int_mul quantity unit_price) as [T|e] eqn:Hmul.
    + rewrite Hinv, Htotal. step. now rewrite Hint.
    + cbn [bind]. now rewrite (int_mul_raise _ _ _ Hmul).
Qed.

(** ** Creating an invoice *)

Lemma insert_all_fresh {R} (pk : R -> string) (rows table : list R) :
  NoDup (map pk rows) ->
  (forall r, In r rows -> find (fun x => pk x =? pk r) table = None) ->
  insert_all pk table rows = Ok (table ++ rows).
Proof.
  revert table. induction rows as [|row rows IH]; intros table Hnd Hfresh.
  - simpl. now rewrite app_nil_r.
  - simpl. rewrite insert_fresh by (apply Hfresh; now left). simpl.
    inversion Hnd as [|? ? Hnin Hnd']; subst.
    rewrite IH.
    + now rewrite <- app_assoc.
    + exact Hnd'.
    + intros r Hr. rewrite find_app, Hfresh by (now right). simpl.
      destruct (String.eqb_spec (pk row) (pk r)) as [E|E]; [|reflexivity].
      exfalso. apply Hnin. rewrite E. now apply in_map.
Qed.

Lemma item_totals_inv (items : list InvoiceItemCreate.t) :
  forall totals,
    crud.item_totals items = Ok totals ->
    Forall2 (fun item total =>
               int_mul (InvoiceItemCreate.quantity item)
                       (InvoiceItemCreate.unit_price item) = Ok total)
            items totals.
Proof.
  induction items as [|item items IH]; intros totals; cbn [crud.item_totals].
  - inversion 1. constructor.
  - destruct (int_mul _ _) as [total|] eqn:Hm; cbn [bind]; [|discriminate].
    destruct (crud.item_totals items) as [totals'|]; cbn [bind];
      [|discriminate].
    inversion 1. constructor; [exact Hm|]. now apply IH.
Qed.

Lemma item_totals_ok (items : list InvoiceItemCreate.t) (totals : list float) :
  Forall2 (fun item total =>
             int_mul (InvoiceItemCreate.quantity item)
                     (InvoiceItemCreate.unit_price item) = Ok total)
          items totals ->
  crud.item_totals items = Ok totals.
Proof.
  induction 1 as [|item total items totals Hm _ IH]; cbn [crud.item_totals].
  - reflexivity.
  - now rewrite Hm, IH.
Qed.

Lemma new_items_pending (invoice_id : string) (uuids : nat -> string)
      (items : list InvoiceItemCreate.t) (totals : list float) :
  crud.item_totals items = Ok totals ->
  forall k,
    crud.new_items invoice_id uuids k items
    = Ok (pending invoice_id uuids k items totals).
Proof.
  intros H. apply item_totals_inv in H.
  induction H as [|item total items totals Hm _ IH]; intros k;
    cbn [crud.new_items pending].
  - reflexivity.
  - now rewrite Hm, IH.
Qed.

Lemma for_each_bound_inv (rows rows' : list InvoiceItem.t) :
  crud.for_each crud.bound rows = Ok rows' ->
  rows' = rows
  /\ Forall (fun row => Integer (InvoiceItem.quantity row)
                        = Ok (InvoiceItem.quantity row)) rows.
Proof.
  revert rows'. induction rows as [|row rows IH]; intros rows';
    cbn [crud.for_each].
  - inversion 1. auto.
  - destruct (crud.bound row) as [row'|] eqn:Hb; cbn [bind]; [|discriminate].
    destruct (crud.for_each crud.bound rows) as [rows''|]; cbn [bind];
      [|discriminate].
    inversion 1. destruct (bound_inv _ _ Hb) as [-> Hi].
    destruct (IH _ eq_refl) as [-> Hf]. auto.
Qed.

Lemma for_each_bound_ok (rows : list InvoiceItem.t) :
  Forall (fun row => Integer (InvoiceItem.quantity row)
                     = Ok (InvoiceItem.quantity row)) rows ->
  crud.for_each crud.bound rows = Ok rows.
Proof.
  induction 1 as [|row rows Hi _ IH]; cbn [crud.for_each]; [reflexivity|].
  now rewrite (bound_ok _ Hi), IH.
Qed.

Lemma for_each_stored_inv (rows db_items : list InvoiceItem.t) :
  crud.for_each crud.stored rows = Ok db_items ->
  Forall2 stored_as rows db_items.
Proof.
  revert db_items. induction rows as [|row rows IH]; intros db_items;
    cbn [crud.for_each].
  - inversion 1. constructor.
  - destruct (crud.stored row) as [row'|] eqn:Hs; cbn [bind]; [|discriminate].
    destruct (crud.for_each crud.stored rows) as [rows'|]; cbn [bind];
      [|discriminate].
    inversion 1. constructor; [|now apply IH].
    exact (stored_inv _ _ Hs).
Qed.

Lemma for_each_stored_ok (rows db_items : list InvoiceItem.t) :
  Forall2 stored_as rows db_items ->
  crud.for_each crud.stored rows = Ok db_items.
Proof.
  induction 1 as [|row db_item rows db_items (p & t & Hp & Ht & ->) _ IH];
    cbn [crud.for_each]; [reflexivity|].
  now rewrite (stored_ok _ p t Hp Ht), IH.
Qed.

(** The rows that [create_invoice] stores for the supplied items. *)
Lemma pending_stored (invoice_id : string) (uuids : nat -> string)
      (items : list InvoiceItemCreate.t) (totals : list float) :
  Forall2 (fun item total =>
             int_mul (InvoiceItemCreate.quantity item)
                     (InvoiceItemCreate.unit_price item) = Ok total)
          items totals ->
  forall k db_items,
    Forall2 stored_as (pending invoice_id uuids k items totals) db_items ->
    map InvoiceItem.id db_items = map uuids (seq k (length items))
    /\ Forall2 (holds invoice_id) items db_items
    /\ Forall2 (fun total db_item =>
                  Float total = Some (InvoiceItem.total db_item))
               totals db_items
    /\ Forall item_ok db_items.
Proof.
  induction 1 as [|item total items totals Hm _ IH]; intros k db_items;
    cbn [pending]; intros H; inversion H as [|? db_item ? db_items' Hs Hrest];
    subst.
  - repeat split; constructor.
  - destruct Hs as (p & t & Hp & Ht & ->). step.
    cbn [InvoiceItem.unit_price InvoiceItem.total] in Hp, Ht.
    destruct (IH _ _ Hrest) as (H1 & H2 & H3 & H4).
    cbn [map length seq]. rewrite H1.
    split; [reflexivity|]. split; [|split].
    + constructor; [|exact H2]. unfold holds. step.
      repeat split; try assumption. now exists total.
    + constructor; [exact Ht|exact H3].
    + constructor; [|exact H4].
      now apply (stored_item_ok _ _ _ _ (InvoiceItemCreate.unit_price item)
                   total).
Qed.

Lemma pending_storable (invoice_id : string) (uuids : nat -> string)
      (items : list InvoiceItemCreate.t) :
  Forall (fun item => storable (InvoiceItemCreate.quantity item)
                               (InvoiceItemCreate.unit_price item) = true)
         items ->
  exists totals,
    crud.item_totals items = Ok totals
    /\ forall k,
         Forall (fun row => Integer (InvoiceItem.quantity row)
                            = Ok (InvoiceItem.quantity row))
                (pending invoice_id uuids k items totals)
         /\ exists db_items,
              Forall2 stored_as (pending invoice_id uuids k items totals)
                      db_items.
Proof.
  induction 1 as [|item items Hs _ (totals & Ht & IH)].
  - exists []. split; [reflexivity|]. intros k. split; [constructor|].
    exists []. constructor.
  - destruct (storable_inv _ _ Hs) as (T & p' & T' & Hmul & Hint & Hp & HT).
    exists (T :: totals). split.
    { cbn [crud.item_totals]. now rewrite Hmul, Ht. }
    intros k. destruct (IH (S k)) as (Hb & db_items & Hst).
    cbn [pending]. split.
    + constructor; [exact Hint|exact Hb].
    + eexists (_ :: db_items). constructor; [|exact Hst].
      exists p', T'. step. auto.
Qed.

(** What a call of [create_invoice] that returns has done. *)
Lemma create_invoice_inv
  (db : Session) (invoice : InvoiceCreate.t) (user_id uuid : string)
  (uuids : nat -> string) (r : option Invoice.t) (db' : Session) :
  crud.create_invoice db invoice user_id uuid uuids = Ok (r, db') ->
  exists totals db_items,
    let db_invoice :=
      Invoice.mk uuid user_id (InvoiceCreate.customer_id invoice)
                 (Some (InvoiceCreate.status invoice)) (Float (sum totals))
                 (Some false) in
    crud.item_totals (InvoiceCreate.items invoice) = Ok totals
    /\ crud.get_invoice db uuid = None
    /\ r = Some db_invoice
    /\ db' = set_invoice_items
               (set_invoices db (invoices db ++ [db_invoice]))
               (invoice_items db ++ db_items)
    /\ insert_all InvoiceItem.id (invoice_items db) db_items
       = Ok (invoice_items db ++ db_items)
    /\ map InvoiceItem.id db_items
       = map uuids (seq 0 (length (InvoiceCreate.items invoice)))
    /\ Forall2 (holds uuid) (InvoiceCreate.items invoice) db_items
    /\ Forall2 (fun total db_item =>
                  Float total = Some (InvoiceItem.total db_item))
               totals db_items
    /\ Forall item_ok db_items.
Proof.
  unfold crud.create_invoice.
  destruct (crud.item_totals _) as [totals|] eqn:Ht; cbn [bind];
    [|discriminate].
  destruct (insert Invoice.id _ _) as [invoices'|] eqn:Hi; cbn [bind];
    [|discriminate].
  apply insert_inv in Hi. destruct Hi as [-> Hfresh].
  cbn [Invoice.id] in *.
  rewrite (new_items_pending uuid uuids _ _ Ht). cbn [bind].
  destruct (crud.for_each crud.bound _) as [rows|] eqn:Hb; cbn [bind];
    [|discriminate].
  destruct (for_each_bound_inv _ _ Hb) as [-> _].
  destruct (crud.for_each crud.stored _) as [db_items|] eqn:Hs; cbn [bind];
    [|discriminate].
  apply for_each_stored_inv in Hs.
  destruct (insert_all InvoiceItem.id _ _) as [items'|] eqn:Ha; cbn [bind];
    [|discriminate].
  destruct (insert_all_inv _ _ _ _ Ha) as [-> _].
  intros H. inversion H; subst. clear H.
  exists totals, db_items. cbv zeta.
  destruct (pending_stored uuid uuids _ _ (item_totals_inv _ _ Ht) 0 _ Hs)
    as (H1 & H2 & H3 & H4).
  split; [reflexivity|]. split; [exact Hfresh|].
  split.
  { queries. rewrite find_app.
    unfold crud.get_invoice in Hfresh. rewrite Hfresh.
    cbn [find Invoice.id]. now rewrite String.eqb_refl. }
  repeat split; assumption.
Qed.

(** The call returns when the identifiers are new and the items can be
    stored. *)
Lemma create_invoice_returns
  (db : Session) (invoice : InvoiceCreate.t) (user_id uuid : string)
  (uuids : nat -> string) :
  fresh_uuids db uuid uuids (length (InvoiceCreate.items invoice)) ->
  Forall (fun item => storable (InvoiceItemCreate.quantity item)
                               (InvoiceItemCreate.unit_price item) = true)
         (InvoiceCreate.items invoice) ->
  exists r db', crud.create_invoice db invoice user_id uuid uuids
                = Ok (r, db').
Proof.
  intros (Hinv & Hnd & Hitems) Hs.
  destruct (pending_storable uuid uuids _ Hs) as (totals & Ht & Hp).
  destruct (Hp 0%nat) as (Hb & db_items & Hst).
  unfold crud.create_invoice. rewrite Ht. cbn [bind].
  rewrite insert_fresh by exact Hinv. cbn [bind Invoice.id].
  rewrite (new_items_pending uuid uuids _ _ Ht). cbn [bind].
  rewrite (for_each_bound_ok _ Hb). cbn [bind].
  rewrite (for_each_stored_ok _ _ Hst). cbn [bind].
  destruct (pending_stored uuid uuids _ _ (item_totals_inv _ _ Ht) 0 _ Hst)
    as (H1 & _).
  rewrite insert_all_fresh.
  - cbn [bind]. eexists. eexists. reflexivity.
  - now rewrite H1.
  - intros row Hr. apply (in_map InvoiceItem.id) in Hr. rewrite H1 in Hr.
    apply in_map_iff in Hr. destruct Hr as (k & Hk & Hin).
    apply in_seq in Hin. rewrite <- Hk. apply Hitems. lia.
Qed.



(** ** Updating an item *)

Lemma update_others {R} (pk : R -> string) (table : list R) (row : R) :
  filter (fun r => negb (pk r =? pk row)) (update pk table row) =
  filter (fun r => negb (pk r =? pk row)) table.
Proof.
  unfold update. induction table as [|r table IH]; simpl; [reflexivity|].
  destruct (String.eqb_spec (pk r) (pk row)) as [E|E]; simpl.
  - rewrite String.eqb_refl. simpl. exact IH.
  - destruct (String.eqb_spec (pk r) (pk row)); [contradiction|].
    simpl. now rewrite IH.
Qed.

Lemma setattr_supplied {A} (old : A) (v : option A) :
  setattr (Some old) (supplied v) = Some (or_else v old).
Proof. destruct v; reflexivity. Qed.

Lemma setattr_supplied' {A} (old : option A) (v : option A) :
  setattr old (supplied v) = match v with Some a => Some a | None => old end.
Proof. destruct v; reflexivity. Qed.

Lemma written_supplied {A B} (v : option A) (column : B -> result B) (b : B) :
  written (supplied v) column b
  = match v with Some _ => column b | None => Ok b end.
Proof. destruct v; reflexivity. Qed.

(** The call on an update that supplies values which can be stored: the row
    and the database it commits. *)
Lemma update_invoice_item_ok
  (db : Session) (item_id : string) (description : option string)
  (quantity : option Z) (unit_price : option float) (db_item : InvoiceItem.t)
  (invoice : Invoice.t) (total_amount total unit_price' total' : float) :
  crud.get_invoice_item db item_id = Some db_item ->
  crud.get_invoice db (InvoiceItem.invoice_id db_item) = Some invoice ->
  Invoice.total_amount invoice = Some total_amount ->
  (forall q, quantity = Some q -> Integer q = Ok q) ->
  Float_or_else unit_price (InvoiceItem.unit_price db_item)
  = Some unit_price' ->
  int_mul (or_else quantity (InvoiceItem.quantity db_item))
          (or_else unit_price (InvoiceItem.unit_price db_item)) = Ok total ->
  Float total = Some total' ->
  let db_item' :=
    InvoiceItem.mk item_id (InvoiceItem.invoice_id db_item)
      (or_else description (InvoiceItem.description db_item))
      (or_else quantity (InvoiceItem.quantity db_item))
      unit_price' total' in
  crud.update_invoice_item db item_id
    (partial_update description quantity unit_price)
  = Ok (Some db_item',
        set_invoice_items
          (set_invoices db
             (update Invoice.id (invoices db)
                (crud.set_total_amount invoice
                   (Float (total_amount - InvoiceItem.total db_item
                           + total)%float))))
          (update InvoiceItem.id (invoice_items db) db_item')).
Proof.
  intros Hitem Hinv Htotal Hq Hp Hmul HT db_item'.
  destruct (find_pk _ _ _ _ Hitem) as [Hid _].
  unfold crud.update_invoice_item. rewrite Hitem.
  unfold partial_update. cbn [InvoiceItemUpdate.description
    InvoiceItemUpdate.quantity InvoiceItemUpdate.unit_price].
  rewrite !setattr_supplied, Hmul, Hinv, Htotal. step.
  rewrite !written_supplied.
  assert (Hq' : match quantity with
                | Some _ =>
                    Integer (or_else quantity (InvoiceItem.quantity db_item))
                | None => Ok (or_else quantity (InvoiceItem.quantity db_item))
                end = Ok (or_else quantity (InvoiceItem.quantity db_item))).
  { destruct quantity as [q|]; [|reflexivity]. now apply Hq. }
  rewrite Hq'. step.
  assert (Hp' : match unit_price with
                | Some _ =>
                    not_null
                      (Float (or_else unit_price
                                      (InvoiceItem.unit_price db_item)))
                | None =>
                    Ok (or_else unit_price (InvoiceItem.unit_price db_item))
                end = Ok unit_price').
  { destruct unit_price as [p|]; cbn [or_else Float_or_else] in *.
    - now rewrite Hp.
    - now inversion Hp. }
  rewrite Hp', HT. step. rewrite Hid. reflexivity.
Qed.

(** C3 (amended). For an existing item whose invoice exists with a
    [total_amount] that is a number, and any subset of new description,
    quantity and unit price that can be stored, [update_invoice_item] stores
    the supplied values, recomputes total = quantity * unit_price (a binary64
    product), and sets the invoice's [total_amount] to
    (total_amount - old total) + new total, each operation rounded to
    binary64; the rows of all other items are as before.  For an identifier
    with no item it returns [None] and the database is unchanged.  A quantity
    or unit price set to null raises [TypeError], a description set to null
    raises [IntegrityError]. *)
Theorem update_invoice_item_delta (db : Session) (item_id : string) :
  (forall (description : option string) (quantity : option Z)
          (unit_price : option float) (db_item : InvoiceItem.t)
          (invoice : Invoice.t) (total_amount total unit_price' total' : float),
      crud.get_invoice_item db item_id = Some db_item ->
      crud.get_invoice db (InvoiceItem.invoice_id db_item) = Some invoice ->
      Invoice.total_amount invoice = Some total_amount ->
      (forall q, quantity = Some q -> Integer q = Ok q) ->
      Float_or_else unit_price (InvoiceItem.unit_price db_item)
      = Some unit_price' ->
      int_mul (or_else quantity (InvoiceItem.quantity db_item))
              (or_else unit_price (InvoiceItem.unit_price db_item))
      = Ok total ->
      Float total = Some total' ->
      (exists db_item' db',
          crud.update_invoice_item db item_id
            (partial_update description quantity unit_price)
          = Ok (Some db_item', db')
          /\ db_item' =
             InvoiceItem.mk item_id (InvoiceItem.invoice_id db_item)
               (or_else description (InvoiceItem.description db_item))
               (or_else quantity (InvoiceItem.quantity db_item))
               unit_price' total'
          /\ item_ok db_item'
          /\ crud.get_invoice_item db' item_id = Some db_item'
          /\ crud.get_invoice db' (InvoiceItem.invoice_id db_item)
             = Some (crud.set_total_amount invoice
                       (Float (total_amount - InvoiceItem.total db_item
                               + total)%float))
          /\ filter (fun i => negb (InvoiceItem.id i =? item_id))
                    (invoice_items db') =
             filter (fun i => negb (InvoiceItem.id i =? item_id))
                    (invoice_items db))
      /\ crud.update_invoice_item db item_id
           (InvoiceItemUpdate.mk (Given None) (supplied quantity)
                                 (supplied unit_price))
         = Raise IntegrityError)
  /\ (forall item_update : InvoiceItemUpdate.t,
         crud.get_invoice_item db item_id = None ->
         crud.update_invoice_item db item_id item_update = Ok (None, db))
  /\ (forall (item_update : InvoiceItemUpdate.t) (db_item : InvoiceItem.t),
         crud.get_invoice_item db item_id = Some db_item ->
         InvoiceItemUpdate.quantity item_update = Given None
         \/ InvoiceItemUpdate.unit_price item_update = Given None ->
         crud.update_invoice_item db item_id item_update = Raise TypeError).
Proof.
  split; [|split].
  - intros description quantity unit_price db_item invoice total_amount total
           unit_price' total' Hitem Hinv Htotal Hq Hp Hmul HT.
    destruct (find_pk _ _ _ _ Hitem) as [Hid _].
    destruct (find_pk _ _ _ _ Hinv) as [Hiid _].
    split.
    + eexists. eexists. split.
      { apply (update_invoice_item_ok db item_id description quantity
                 unit_price db_item invoice total_amount total unit_price'
                 total'); assumption. }
      split; [reflexivity|]. split.
      { destruct unit_price as [p|]; cbn [Float_or_else or_else] in *.
        - now apply (stored_item_ok _ _ _ _ p total).
        - inversion Hp; subst unit_price'. unfold item_ok. step.
          now exists total. }
      split.
      { queries. rewrite find_update. cbn [InvoiceItem.id].
        rewrite String.eqb_refl. unfold crud.get_invoice_item in Hitem.
        now rewrite Hitem. }
      split.
      { queries. rewrite find_update.
        cbn [crud.set_total_amount Invoice.id].
        now rewrite Hiid, String.eqb_refl, Hinv. }
      tables.
      apply (update_others InvoiceItem.id (invoice_items db)
               (InvoiceItem.mk item_id _ _ _ _ _)).
    + unfold crud.update_invoice_item. rewrite Hitem.
      cbn [InvoiceItemUpdate.description InvoiceItemUpdate.quantity
           InvoiceItemUpdate.unit_price].
      rewrite !setattr_supplied, Hmul, Hinv, Htotal. step.
      rewrite written_supplied.
      destruct quantity as [q|]; cbn [or_else setattr]; step;
        [rewrite (Hq q eq_refl); step|]; reflexivity.
  - intros item_update H. unfold crud.update_invoice_item. now rewrite H.
  - intros item_update db_item Hitem [H|H];
      unfold crud.update_invoice_item; rewrite Hitem, H; cbn [setattr];
      [reflexivity|].
    now destruct (setattr _ (InvoiceItemUpdate.quantity item_update)).
Qed.

(** ** Recording a payment *)

(** The sum that [create_payment] computes over [invoice.payments] is the
    sum of the completed payments of the invoice. *)
Lemma completed_amounts_spec (db : Session) (invoice : Invoice.t) :
  map Payment.amount
      (filter (fun p => is_completed (Payment.status p))
              (Invoice_payments db invoice))
  = completed_amounts db invoice.
Proof.
  unfold completed_amounts, Invoice_payments.
  induction (payments db) as [|p l IH]; cbn [filter flat_map map];
    [reflexivity|].
  destruct (Payment.invoice_id p =? Invoice.id invoice);
    cbn [filter map app]; [|exact IH].
  destruct (Payment.status p) as [[]|];
    cbn [is_completed PaymentStatus_eqb filter map app];
    now rewrite IH.
Qed.

Lemma not_completed (status : PaymentStatus) :
  status <> COMPLETED -> PaymentStatus_eqb status COMPLETED = false.
Proof. destruct status; try reflexivity. now intros []. Qed.

(** The call for an invoice whose [total_amount] is a number and an amount
    that is a number: the row and the database it commits. *)
Lemma create_payment_ok
  (db : Session) (payment : PaymentCreate.t) (user_id uuid : string)
  (invoice : Invoice.t) (total_amount amount : float) :
  crud.get_invoice db (PaymentCreate.invoice_id payment) = Some invoice ->
  Invoice.total_amount invoice = Some total_amount ->
  crud.get_payment db uuid = None ->
  Float (PaymentCreate.amount payment) = Some amount ->
  let db_payment :=
    Payment.mk uuid user_id (PaymentCreate.invoice_id payment) amount
               (PaymentCreate.method payment)
               (Some (PaymentCreate.status payment)) in
  crud.create_payment db payment user_id uuid
  = Ok (db_payment,
        set_payments
          (set_invoices db
             (if PaymentStatus_eqb (PaymentCreate.status payment) COMPLETED
                 && (total_amount
                     <=? completed_payments db invoice
                         + PaymentCreate.amount payment)%float
              then update Invoice.id (invoices db)
                     (Invoice.mk (Invoice.id invoice)
                        (Invoice.user_id invoice)
                        (Invoice.customer_id invoice) (Some PAID)
                        (Invoice.total_amount invoice) (Some true))
              else invoices db))
          (payments db ++ [db_payment])).
Proof.
  intros Hinv Htotal Hfresh Hamount db_payment.
  unfold crud.create_payment.
  rewrite Hinv, Htotal, completed_amounts_spec.
  fold (completed_payments db invoice). rewrite Hamount. step.
  destruct (PaymentStatus_eqb _ _); cbn [andb]; step;
    [destruct (_ <=? _)%float; step|];
    fold db_payment; rewrite insert_fresh by exact Hfresh; reflexivity.
Qed.

(** C1. [create_payment] on an existing invoice, with the sum of the
    completed payments recorded so far plus the amount computed in binary64
    as the code does: when the payment is completed and that sum reaches
    [total_amount], the payment is recorded and the invoice gets
    [is_paid = True] and status PAID, its other columns unchanged; when the
    sum is strictly below [total_amount], the payment is recorded and the
    invoice row is unchanged, so [is_paid] stays false; when the payment is
    not completed, the invoice table is unchanged.  (An amount that is NaN
    and, for a completed payment, a [total_amount] that is NULL make the
    call raise, and nothing changes.) *)
Theorem create_payment_paid_threshold
  (db : Session) (payment : PaymentCreate.t) (user_id uuid : string)
  (invoice : Invoice.t) :
  crud.get_invoice db (PaymentCreate.invoice_id payment) = Some invoice ->
  crud.get_payment db uuid = None ->
  let total_payments :=
    (completed_payments db invoice + PaymentCreate.amount payment)%float in
  let paid :=
    Invoice.mk (Invoice.id invoice) (Invoice.user_id invoice)
               (Invoice.customer_id invoice) (Some PAID)
               (Invoice.total_amount invoice) (Some true) in
  (forall total_amount amount : float,
      Invoice.total_amount invoice = Some total_amount ->
      Float (PaymentCreate.amount payment) = Some amount ->
      let db_payment :=
        Payment.mk uuid user_id (PaymentCreate.invoice_id payment) amount
                   (PaymentCreate.method payment)
                   (Some (PaymentCreate.status payment)) in
      exists db',
        crud.create_payment db payment user_id uuid = Ok (db_payment, db')
        /\ crud.get_payment db' uuid = Some db_payment
        /\ (PaymentCreate.status payment = COMPLETED ->
            (total_amount <=? total_payments)%float = true ->
            crud.get_invoice db' (PaymentCreate.invoice_id payment)
            = Some paid)
        /\ (PaymentCreate.status payment = COMPLETED ->
            (total_payments <? total_amount)%float = true ->
            invoices db' = invoices db
            /\ crud.get_invoice db' (PaymentCreate.invoice_id payment)
               = Some invoice)
        /\ (PaymentCreate.status payment = COMPLETED ->
            (total_amount <=? total_payments)%float = false ->
            invoices db' = invoices db
            /\ crud.get_invoice db' (PaymentCreate.invoice_id payment)
               = Some invoice)
        /\ (PaymentCreate.status payment <> COMPLETED ->
            invoices db' = invoices db
            /\ crud.get_invoice db' (PaymentCreate.invoice_id payment)
               = Some invoice))
  /\ (PaymentCreate.status payment <> COMPLETED ->
      invoices (after db (crud.create_payment db payment user_id uuid))
      = invoices db)
  /\ (PaymentCreate.status payment = COMPLETED ->
      Invoice.total_amount invoice = None ->
      crud.create_payment db payment user_id uuid = Raise TypeError)
  /\ (Float (PaymentCreate.amount payment) = None ->
      PaymentCreate.status payment <> COMPLETED
      \/ Invoice.total_amount invoice <> None ->
      crud.create_payment db payment user_id uuid = Raise IntegrityError).
Proof.
  intros Hinv Hfresh total_payments paid.
  destruct (find_pk _ _ _ _ Hinv) as [Hid _].
  split; [|split; [|split]].
  - intros total_amount amount Htotal Hamount db_payment.
    eexists. split.
    { apply (create_payment_ok db payment user_id uuid invoice total_amount
               amount); assumption. }
    fold total_payments. split.
    { queries. rewrite find_app.
      unfold crud.get_payment in Hfresh. rewrite Hfresh.
      cbn [find Payment.id]. now rewrite String.eqb_refl. }
    split; [|split; [|split]].
    + intros -> Hle. rewrite Hle. cbn [PaymentStatus_eqb andb].
      queries. rewrite find_update. cbn [Invoice.id]. rewrite Hinv.
      now destruct (String.eqb_spec (Invoice.id invoice)
                      (PaymentCreate.invoice_id payment)).
    + intros -> Hlt. rewrite (ltb_leb _ _ Hlt).
      cbn [PaymentStatus_eqb andb]. split; [reflexivity|].
      queries. exact Hinv.
    + intros -> Hle. rewrite Hle. cbn [PaymentStatus_eqb andb].
      split; [reflexivity|]. queries. exact Hinv.
    + intros Hs. rewrite (not_completed _ Hs). cbn [andb].
      split; [reflexivity|]. queries. exact Hinv.
  - intros Hs. unfold crud.create_payment.
    rewrite (not_completed _ Hs). step.
    destruct (Float _); step; [|reflexivity].
    destruct (insert _ _ _); reflexivity.
  - intros Hs Htotal. unfold crud.create_payment.
    now rewrite Hs, Hinv, Htotal.
  - intros Hamount H. unfold crud.create_payment. rewrite Hinv, Hamount.
    destruct (PaymentStatus_eqb _ _) eqn:E; step; [|reflexivity].
    destruct (Invoice.total_amount invoice) as [total_amount|] eqn:Ht.
    + step. destruct (_ <=? _)%float; reflexivity.
    + destruct H as [H|H]; [|now contradiction H].
      now rewrite (not_completed _ H) in E.
Qed.

(** ** Updating and deleting a payment *)

Lemma update_payment_invoices (db : Session) (payment_id : string)
      (payment_update : PaymentUpdate.t) :
  invoices (after db (crud.update_payment db payment_id payment_update))
  = invoices db.
Proof.
  unfold crud.update_payment.
  destruct (crud.get_payment db payment_id) as [p|]; [|reflexivity].
  destruct (setattr (Some (Payment.amount p)) _); step; [|reflexivity].
  destruct (written _ _ _); step; [|reflexivity].
  destruct (setattr (Some (Payment.method p)) _); reflexivity.
Qed.

Lemma delete_payment_invoices (db : Session) (payment_id : string) :
  invoices (after db (crud.delete_payment db payment_id)) = invoices db.
Proof.
  unfold crud.delete_payment.
  destruct (crud.get_payment db payment_id); reflexivity.
Qed.

(** The call on an update that supplies values which can be stored: the row
    and the database it commits. *)
Lemma update_payment_ok
  (db : Session) (payment_id : string) (db_payment : Payment.t)
  (amount : option float) (method : option PaymentMethod)
  (status : option PaymentStatus) (amount' : float) :
  crud.get_payment db payment_id = Some db_payment ->
  Float_or_else amount (Payment.amount db_payment) = Some amount' ->
  let db_payment' :=
    Payment.mk payment_id (Payment.user_id db_payment)
               (Payment.invoice_id db_payment) amount'
               (or_else method (Payment.method db_payment))
               (match status with
                | Some s => Some s
                | None => Payment.status db_payment
                end) in
  crud.update_payment db payment_id
    (PaymentUpdate.mk (supplied amount) (supplied method) (supplied status))
  = Ok (Some db_payment',
        set_payments db (update Payment.id (payments db) db_payment'))
  /\ crud.get_payment
       (set_payments db (update Payment.id (payments db) db_payment'))
       payment_id = Some db_payment'.
Proof.
  intros Hp Hamount. cbv zeta.
  destruct (find_pk _ _ _ _ Hp) as [Hid _].
  split.
  - unfold crud.update_payment. rewrite Hp.
    cbn [PaymentUpdate.amount PaymentUpdate.method PaymentUpdate.status].
    rewrite !setattr_supplied, setattr_supplied'. step.
    rewrite written_supplied, Hid.
    destruct amount as [a|]; cbn [Float_or_else or_else] in *.
    + rewrite Hamount. step. reflexivity.
    + inversion Hamount; subst amount'. step. reflexivity.
  - queries. rewrite find_update. cbn [Payment.id].
    now rewrite String.eqb_refl, Hp.
Qed.

(** C6. For an existing payment, [update_payment] with any update (null
    fields included, a change of status from completed to refunded or failed
    included) and [delete_payment] leave the invoice table as it was: every
    invoice keeps [is_paid], status and [total_amount].  An update that
    supplies values is carried out: the payment is read back with them (an
    amount that is NaN is refused).  So is the deletion.  An invoice with
    [is_paid = True] still has it afterwards. *)
Theorem payment_update_delete_keep_invoice
  (db : Session) (payment_id : string) (db_payment : Payment.t) :
  crud.get_payment db payment_id = Some db_payment ->
  (forall payment_update : PaymentUpdate.t,
      let db' := after db (crud.update_payment db payment_id payment_update) in
      invoices db' = invoices db
      /\ forall invoice_id,
           crud.get_invoice db' invoice_id = crud.get_invoice db invoice_id)
  /\ (forall (amount : option float) (method : option PaymentMethod)
             (status : option PaymentStatus),
         match Float_or_else amount (Payment.amount db_payment) with
         | Some amount' =>
             exists db',
               crud.update_payment db payment_id
                 (PaymentUpdate.mk (supplied amount) (supplied method)
                                   (supplied status))
               = Ok (Some (Payment.mk payment_id (Payment.user_id db_payment)
                             (Payment.invoice_id db_payment) amount'
                             (or_else method (Payment.method db_payment))
                             (match status with
                              | Some s => Some s
                              | None => Payment.status db_payment
                              end)), db')
               /\ crud.get_payment db' payment_id
                  = Some (Payment.mk payment_id (Payment.user_id db_payment)
                            (Payment.invoice_id db_payment) amount'
                            (or_else method (Payment.method db_payment))
                            (match status with
                             | Some s => Some s
                             | None => Payment.status db_payment
                             end))
               /\ invoices db' = invoices db
               /\ (forall invoice,
                      crud.get_invoice db (Payment.invoice_id db_payment)
                      = Some invoice ->
                      Invoice.is_paid invoice = Some true ->
                      exists invoice',
                        crud.get_invoice db' (Payment.invoice_id db_payment)
                        = Some invoice'
                        /\ Invoice.is_paid invoice' = Some true)
         | None =>
             crud.update_payment db payment_id
               (PaymentUpdate.mk (supplied amount) (supplied method)
                                 (supplied status))
             = Raise IntegrityError
         end)
  /\ (exists db',
         crud.delete_payment db payment_id = Ok (true, db')
         /\ crud.get_payment db' payment_id = None
         /\ invoices db' = invoices db
         /\ (forall invoice_id,
                crud.get_invoice db' invoice_id
                = crud.get_invoice db invoice_id)).
Proof.
  intros Hp. destruct (find_pk _ _ _ _ Hp) as [Hid _].
  split; [|split].
  - intros payment_update db'. unfold db'.
    assert (H := update_payment_invoices db payment_id payment_update).
    split; [exact H|]. intros k. unfold crud.get_invoice. now rewrite H.
  - intros amount method status.
    destruct (Float_or_else amount (Payment.amount db_payment))
      as [amount'|] eqn:Hamount.
    + destruct (update_payment_ok db payment_id db_payment amount method
                  status amount' Hp Hamount) as [Hcall Hget].
      eexists. split; [exact Hcall|]. split; [exact Hget|].
      split; [reflexivity|].
      intros invoice Hinv Hpaid. exists invoice. split; [|exact Hpaid].
      queries. exact Hinv.
    + destruct amount as [a|]; cbn [Float_or_else] in Hamount;
        [|discriminate].
      unfold crud.update_payment. rewrite Hp.
      cbn [PaymentUpdate.amount PaymentUpdate.method PaymentUpdate.status].
      rewrite !setattr_supplied. step. rewrite written_supplied.
      cbn [or_else]. now rewrite Hamount.
  - unfold crud.delete_payment. rewrite Hp. rewrite Hid.
    eexists. split; [reflexivity|]. split; [|split].
    + queries. rewrite find_delete. now rewrite String.eqb_refl.
    + reflexivity.
    + intros k. reflexivity.
Qed.

(** ** Deleting an invoice *)

Lemma find_delete_all {R} (pk : R -> string) (keys : list string)
      (table : list R) (key : string) :
  find (fun r => pk r =? key) (delete_all pk table keys) =
  if existsb (String.eqb key) keys then None
  else find (fun r => pk r =? key) table.
Proof.
  unfold delete_all. revert table.
  induction keys as [|k keys IH]; intros table; simpl; [reflexivity|].
  rewrite IH, find_delete.
  destruct (key =? k); simpl; [|reflexivity].
  destruct (existsb _ keys); reflexivity.
Qed.

Lemma in_delete_all {R} (pk : R -> string) (keys : list string)
      (table : list R) (r : R) :
  In r (delete_all pk table keys) -> In r table /\ ~ In (pk r) keys.
Proof.
  unfold delete_all. revert table.
  induction keys as [|k keys IH]; intros table; simpl; [tauto|].
  intros H. apply IH in H. destruct H as [H Hk].
  unfold delete in H. apply filter_In in H. destruct H as [H Hne].
  split; [exact H|]. intros [E|E]; [|contradiction].
  subst k. rewrite String.eqb_refl in Hne. discriminate.
Qed.

(** C9. A successful [delete_invoice] removes the invoice and its items:
    afterwards [get_invoice] returns [None], fetching any item that belonged
    to the invoice returns [None], and no row of the item table refers to it.
    The deletion succeeds for every invoice that has no payment. *)
Theorem delete_invoice_cascade (db : Session) (invoice_id : string) :
  (forall db',
      crud.delete_invoice db invoice_id = Ok (true, db') ->
      crud.get_invoice db' invoice_id = None
      /\ (forall item,
             In item (invoice_items db) ->
             InvoiceItem.invoice_id item = invoice_id ->
             crud.get_invoice_item db' (InvoiceItem.id item) = None)
      /\ (forall item,
             In item (invoice_items db') ->
             InvoiceItem.invoice_id item <> invoice_id))
  /\ (forall invoice,
         crud.get_invoice db invoice_id = Some invoice ->
         Invoice_payments db invoice = [] ->
         exists db', crud.delete_invoice db invoice_id = Ok (true, db')).
Proof.
  split.
  - intros db' H. unfold crud.delete_invoice in H.
    destruct (crud.get_invoice db invoice_id) as [invoice|] eqn:Hinv;
      [|discriminate].
    destruct (find_pk _ _ _ _ Hinv) as [Hid _].
    destruct (Invoice_payments db invoice); [|discriminate].
    inversion H; subst db'; clear H.
    assert (Hmem : forall item,
               In item (invoice_items db) ->
               InvoiceItem.invoice_id item = invoice_id ->
               In (InvoiceItem.id item)
                  (map InvoiceItem.id (Invoice_items db invoice))).
    { intros item Hin Hitem. apply in_map. apply filter_In.
      split; [exact Hin|]. cbv beta. rewrite Hitem, Hid.
      apply String.eqb_refl. }
    split; [|split].
    + queries. rewrite find_delete, Hid. now rewrite String.eqb_refl.
    + intros item Hin Hitem. specialize (Hmem item Hin Hitem).
      unfold crud.get_invoice_item. tables. rewrite find_delete_all.
      replace (existsb _ _) with true; [reflexivity|].
      symmetry. apply existsb_exists. exists (InvoiceItem.id item).
      split; [exact Hmem|apply String.eqb_refl].
    + intros item Hin Hitem. revert Hin. tables. intros Hin.
      apply in_delete_all in Hin.
      destruct Hin as [Hin Hk]. apply Hk. now apply Hmem.
  - intros invoice Hinv Hpay. unfold crud.delete_invoice.
    rewrite Hinv, Hpay. eexists. reflexivity.
Qed.

(** ** Registration *)

Lemma email_free (db : Session) (user : User.t) :
  crud.get_user_by_email db (User.email user) = None ->
  crud.email_taken db user = false.
Proof.
  unfold crud.get_user_by_email, crud.email_taken.
  induction (users db) as [|u l IH]; simpl; [reflexivity|].
  destruct (User.email u =? User.email user); [discriminate|].
  simpl. exact IH.
Qed.

(** C10. [register] takes no caller (no authentication dependency) and copies
    [is_super_admin] from the request: for a request with an unused email and
    [is_super_admin = true] it creates and returns a user whose
    [is_super_admin] is true, and that row passes the super-admin check. *)
Theorem register_honors_is_super_admin
  (get_password_hash : string -> string) (db : Session) (user : UserCreate.t)
  (uuid : string) :
  crud.get_user_by_email db (UserCreate.email user) = None ->
  crud.get_user db uuid = None ->
  UserCreate.is_super_admin user = true ->
  exists db_user db',
    auth_router.register get_password_hash db user uuid = Ok (db_user, db')
    /\ User.is_super_admin db_user = Some true
    /\ User.email db_user = UserCreate.email user
    /\ User.name db_user = UserCreate.name user
    /\ crud.get_user db' uuid = Some db_user
    /\ crud.get_user_by_email db' (UserCreate.email user) = Some db_user
    /\ auth.get_current_super_admin db_user = Ok db_user.
Proof.
  intros Hemail Hid Hadmin.
  unfold auth_router.register. rewrite Hemail.
  unfold crud.create_user. rewrite email_free by exact Hemail.
  rewrite insert_fresh by exact Hid. cbn [bind]. rewrite Hadmin.
  eexists. eexists. split; [reflexivity|].
  split; [reflexivity|]. split; [reflexivity|]. split; [reflexivity|].
  split; [|split].
  - queries. rewrite find_app, Hid. cbn [find User.id].
    now rewrite String.eqb_refl.
  - queries. rewrite find_app, Hemail. cbn [find User.email].
    now rewrite String.eqb_refl.
  - reflexivity.
Qed.

(** ** Listing *)

Lemma filter_if_owner {R} (column : R -> string) (key : string)
      (query : list R) :
  key <> "" ->
  filter_if column (Some key) query = filter (fun r => column r =? key) query.
Proof.
  intros H. unfold filter_if, truthy_str.
  destruct (String.eqb_spec key ""); [contradiction|reflexivity].
Qed.

Lemma in_page {R} (skip limit : nat) (l : list R) (r : R) :
  In r (firstn limit (skipn skip l)) -> In r l.
Proof.
  intros H.
  rewrite <- (firstn_skipn skip l). apply in_or_app. right.
  rewrite <- (firstn_skipn limit (skipn skip l)). apply in_or_app. now left.
Qed.

Lemma in_filter_if {R} (column : R -> string) (key : option string)
      (query : list R) (r : R) :
  In r (filter_if column key query) -> In r query.
Proof.
  unfold filter_if. destruct key as [k|]; [|tauto].
  destruct (truthy_str (Some k)); [|tauto].
  intros H. now apply filter_In in H.
Qed.

(** C7 (amended). Listing returns the [skip]/[limit] page of the selected
    rows.  For a super-admin the selection is the whole table (for payments,
    after the optional [invoice_id] filter).  For a caller who is not a
    super-admin (and whose id is not the empty string) it is the rows whose
    [user_id] is the caller's id: every listed row is the caller's own, and
    with [skip = 0] and [limit] at least the number of own invoices the listing
    is exactly the caller's invoices. *)
Theorem listing_pages (db : Session) (skip limit : nat)
        (current_user : User.t) :
  (truthy (User.is_super_admin current_user) = true ->
   invoices_router.read_invoices db skip limit current_user
   = firstn limit (skipn skip (invoices db))
   /\ forall invoice_id,
        payments_router.read_payments db invoice_id skip limit current_user
        = firstn limit
            (skipn skip
               (filter_if Payment.invoice_id invoice_id (payments db))))
  /\ (truthy (User.is_super_admin current_user) = false ->
      User.id current_user <> "" ->
      let own_invoices :=
        filter (fun i => Invoice.user_id i =? User.id current_user)
               (invoices db) in
      let own_payments :=
        filter (fun p => Payment.user_id p =? User.id current_user)
               (payments db) in
      invoices_router.read_invoices db skip limit current_user
      = firstn limit (skipn skip own_invoices)
      /\ (forall invoice_id,
             payments_router.read_payments db invoice_id skip limit
                                           current_user
             = firstn limit
                 (skipn skip
                    (filter_if Payment.invoice_id invoice_id own_payments)))
      /\ (forall i,
             In i (invoices_router.read_invoices db skip limit current_user) ->
             In i (invoices db) /\ Invoice.user_id i = User.id current_user)
      /\ (forall invoice_id p,
             In p (payments_router.read_payments db invoice_id skip limit
                                                 current_user) ->
             In p (payments db) /\ Payment.user_id p = User.id current_user)
      /\ (skip = 0%nat -> (length own_invoices <= limit)%nat ->
          forall i,
            In i (invoices_router.read_invoices db skip limit current_user)
            <-> In i (invoices db)
                /\ Invoice.user_id i = User.id current_user)).
Proof.
  unfold invoices_router.read_invoices, payments_router.read_payments,
    crud.get_invoices, crud.get_payments.
  split.
  - intros Hadmin. rewrite Hadmin. cbn [filter_if]. split; reflexivity.
  - intros Hadmin Hid. cbv zeta. rewrite Hadmin.
    rewrite !filter_if_owner by exact Hid.
    split; [reflexivity|]. split; [reflexivity|].
    split; [|split].
    + intros i H. apply in_page in H. apply filter_In in H.
      destruct H as [H E]. apply String.eqb_eq in E. auto.
    + intros invoice_id p H. apply in_page in H. apply in_filter_if in H.
      apply filter_In in H.
      destruct H as [H E]. apply String.eqb_eq in E. auto.
    + intros Hskip Hlen i. subst skip. cbn [skipn].
      rewrite firstn_all2 by exact Hlen.
      rewrite filter_In, String.eqb_eq. tauto.
Qed.

(** ** Authorization *)

Lemma not_permitted_spec (current_user : User.t) (owner_id : string) :
  not_permitted current_user owner_id = true <->
  truthy (User.is_super_admin current_user) = false
  /\ owner_id <> User.id current_user.
Proof.
  unfold not_permitted.
  destruct (truthy (User.is_super_admin current_user));
    destruct (String.eqb_spec owner_id (User.id current_user));
    cbn; intuition congruence.
Qed.

Lemma not_self_spec (current_user : User.t) (user_id : string) :
  users_router.not_self current_user user_id = true <->
  truthy (User.is_super_admin current_user) = false
  /\ user_id <> User.id current_user.
Proof.
  unfold users_router.not_self.
  destruct (truthy (User.is_super_admin current_user));
    destruct (String.eqb_spec user_id (User.id current_user));
    cbn; intuition congruence.
Qed.

Ltac case_split :=
  unfold bind, not_null, operand, written, setattr, insert, Float, Integer;
  repeat match goal with
         | |- context [match ?x with _ => _ end] =>
             lazymatch x with
             | context [match _ with _ => _ end] => fail
             | _ => destruct x
             end
         end;
  try reflexivity.

(** The CRUD layer raises no [HTTPException]. *)
Lemma crud_update_invoice_403 db invoice_id invoice_update :
  is_forbidden (crud.update_invoice db invoice_id invoice_update) = false.
Proof. unfold crud.update_invoice, bind. case_split. Qed.

Lemma crud_delete_invoice_403 db invoice_id :
  is_forbidden (crud.delete_invoice db invoice_id) = false.
Proof. unfold crud.delete_invoice. case_split. Qed.

Lemma crud_update_payment_403 db payment_id payment_update :
  is_forbidden (crud.update_payment db payment_id payment_update) = false.
Proof. unfold crud.update_payment, bind. case_split. Qed.

Lemma crud_delete_payment_403 db payment_id :
  is_forbidden (crud.delete_payment db payment_id) = false.
Proof. unfold crud.delete_payment. case_split. Qed.

Lemma crud_update_user_403 db user_id user_update :
  is_forbidden (crud.update_user db user_id user_update) = false.
Proof. unfold crud.update_user, bind. case_split. Qed.

Lemma crud_delete_user_403 db user_id :
  is_forbidden (crud.delete_user db user_id) = false.
Proof. unfold crud.delete_user. case_split. Qed.

(** Wrapping a CRUD call that does not raise 403 in the handlers' 404 test. *)
Lemma bind_404 {A C} (r : result A) (k : A -> result C) :
  is_forbidden r = false ->
  (forall x, is_forbidden (k x) = false) ->
  is_forbidden (bind r k) = false.
Proof.
  intros Hr Hk. destruct r as [x|e]; cbn [bind]; [apply Hk|exact Hr].
Qed.

Lemma not_stranger (current_user : User.t) (owner_id : string) :
  truthy (User.is_super_admin current_user) = true
  \/ owner_id = User.id current_user ->
  not_permitted current_user owner_id = false.
Proof.
  intros H. destruct (not_permitted current_user owner_id) eqn:E;
    [|reflexivity].
  apply not_permitted_spec in E. destruct E as [E1 E2].
  destruct H as [H|H]; congruence.
Qed.

Lemma stranger_dec (current_user : User.t) (owner_id : string) :
  (not_permitted current_user owner_id = true
   /\ stranger current_user owner_id)
  \/ (not_permitted current_user owner_id = false
      /\ ~ stranger current_user owner_id).
Proof.
  destruct (not_permitted current_user owner_id) eqn:E.
  - left. split; [reflexivity|]. now apply not_permitted_spec.
  - right. split; [reflexivity|]. intros H.
    apply not_permitted_spec in H. congruence.
Qed.

Lemma decide_true (b : bool) (P : Prop) :
  b = true -> P -> (b = true <-> P).
Proof. tauto. Qed.

Lemma decide_false (b : bool) (P : Prop) :
  b = false -> ~ P -> (b = true <-> P).
Proof. intros H HP. split; [congruence|tauto]. Qed.

(** [update_invoice] on an update that supplies values: the row and the
    database it commits. *)
Lemma update_invoice_ok
  (db : Session) (invoice_id : string) (invoice : Invoice.t)
  (customer_id : option string) (status : option InvoiceStatus)
  (is_paid : option bool) :
  crud.get_invoice db invoice_id = Some invoice ->
  let db_invoice :=
    Invoice.mk invoice_id (Invoice.user_id invoice)
               (or_else customer_id (Invoice.customer_id invoice))
               (match status with
                | Some s => Some s
                | None => Invoice.status invoice
                end)
               (Invoice.total_amount invoice)
               (match is_paid with
                | Some b => Some b
                | None => Invoice.is_paid invoice
                end) in
  crud.update_invoice db invoice_id
    (InvoiceUpdate.mk (supplied customer_id) (supplied status)
                      (supplied is_paid))
  = Ok (Some db_invoice,
        set_invoices db (update Invoice.id (invoices db) db_invoice))
  /\ crud.get_invoice
       (set_invoices db (update Invoice.id (invoices db) db_invoice))
       invoice_id = Some db_invoice.
Proof.
  intros Hinv db_invoice.
  destruct (find_pk _ _ _ _ Hinv) as [Hid _].
  split.
  - unfold crud.update_invoice. rewrite Hinv.
    cbn [InvoiceUpdate.customer_id InvoiceUpdate.status InvoiceUpdate.is_paid].
    rewrite setattr_supplied, !setattr_supplied'. step. rewrite Hid.
    reflexivity.
  - queries. rewrite find_update. cbn [db_invoice Invoice.id].
    now rewrite String.eqb_refl, Hinv.
Qed.

(** What the handler's test of the customer lets through. *)
Lemma update_invoice_permitted
  (db : Session) (invoice_id : string) (invoice : Invoice.t)
  (invoice_update : InvoiceUpdate.t) (current_user : User.t) :
  crud.get_invoice db invoice_id = Some invoice ->
  truthy (User.is_super_admin current_user) = true
  \/ Invoice.user_id invoice = User.id current_user ->
  (forall customer_id,
      value (InvoiceUpdate.customer_id invoice_update) = Some customer_id ->
      crud.get_customer db customer_id = None ->
      invoices_router.update_invoice db invoice_id invoice_update
                                     current_user
      = not_found "Customer not found")
  /\ ((forall customer_id,
          value (InvoiceUpdate.customer_id invoice_update)
          = Some customer_id ->
          crud.get_customer db customer_id <> None) ->
      invoices_router.update_invoice db invoice_id invoice_update
                                     current_user
      = crud.update_invoice db invoice_id invoice_update).
Proof.
  intros Hinv Hperm. unfold invoices_router.update_invoice.
  rewrite Hinv, (not_stranger _ _ Hperm). split.
  - intros customer_id -> ->. reflexivity.
  - intros H. destruct (value _) as [c|]; [|reflexivity].
    specialize (H c eq_refl).
    destruct (crud.get_customer db c); [reflexivity|now contradiction H].
Qed.

(** C8 (amended). For an existing invoice or payment, read, update and delete
    raise Forbidden exactly when the caller is neither a super-admin nor the
    owner.  An owner or a super-admin reads the row; their update is the
    CRUD call, which stores the supplied values and the row is read back
    with them (for an invoice, unless the update names a customer that does
    not exist, which is answered 404; for a payment, unless the amount is
    NaN); their delete removes the row (an invoice that has payments is not
    deleted: the call raises [IntegrityError]).  For a user record: read
    raises Forbidden exactly when the caller is neither a super-admin nor the
    record's subject; update raises Forbidden exactly when the caller is not
    a super-admin and either is not the subject or supplies a non-null
    [is_super_admin]; delete raises Forbidden exactly when the caller is not
    a super-admin; a request that is not refused is handed to the CRUD
    layer. *)
Theorem forbidden_iff (db : Session) (current_user : User.t) :
  (forall invoice_id invoice,
      crud.get_invoice db invoice_id = Some invoice ->
      let owner := Invoice.user_id invoice in
      (is_forbidden (invoices_router.read_invoice db invoice_id current_user)
       = true <-> stranger current_user owner)
      /\ (forall invoice_update,
             is_forbidden (invoices_router.update_invoice
                             db invoice_id invoice_update current_user)
             = true <-> stranger current_user owner)
      /\ (is_forbidden (invoices_router.delete_invoice
                          db invoice_id current_user)
          = true <-> stranger current_user owner)
      /\ (truthy (User.is_super_admin current_user) = true
          \/ owner = User.id current_user ->
          invoices_router.read_invoice db invoice_id current_user
          = Ok invoice
          /\ (forall invoice_update,
                 (forall customer_id,
                     value (InvoiceUpdate.customer_id invoice_update)
                     = Some customer_id ->
                     crud.get_customer db customer_id <> None) ->
                 invoices_router.update_invoice db invoice_id invoice_update
                                                current_user
                 = crud.update_invoice db invoice_id invoice_update)
          /\ (forall customer_id status is_paid,
                 (forall c, customer_id = Some c ->
                            crud.get_customer db c <> None) ->
                 let db_invoice :=
                   Invoice.mk invoice_id (Invoice.user_id invoice)
                     (or_else customer_id (Invoice.customer_id invoice))
                     (match status with
                      | Some s => Some s
                      | None => Invoice.status invoice
                      end)
                     (Invoice.total_amount invoice)
                     (match is_paid with
                      | Some b => Some b
                      | None => Invoice.is_paid invoice
                      end) in
                 exists db',
                   invoices_router.update_invoice db invoice_id
                     (InvoiceUpdate.mk (supplied customer_id)
                                       (supplied status) (supplied is_paid))
                     current_user
                   = Ok (Some db_invoice, db')
                   /\ crud.get_invoice db' invoice_id = Some db_invoice)
          /\ invoices_router.delete_invoice db invoice_id current_user
             = deleted "Invoice not found" tt
                       (crud.delete_invoice db invoice_id)
          /\ (Invoice_payments db invoice = [] ->
              exists db',
                invoices_router.delete_invoice db invoice_id current_user
                = Ok (tt, db')
                /\ crud.get_invoice db' invoice_id = None)
          /\ (Invoice_payments db invoice <> [] ->
              invoices_router.delete_invoice db invoice_id current_user
              = Raise IntegrityError)))
  /\ (forall payment_id payment,
         crud.get_payment db payment_id = Some payment ->
         let owner := Payment.user_id payment in
         (is_forbidden (payments_router.read_payment
                          db payment_id current_user)
          = true <-> stranger current_user owner)
         /\ (forall payment_update,
                is_forbidden (payments_router.update_payment
                                db payment_id payment_update current_user)
                = true <-> stranger current_user owner)
         /\ (is_forbidden (payments_router.delete_payment
                             db payment_id current_user)
             = true <-> stranger current_user owner)
         /\ (truthy (User.is_super_admin current_user) = true
             \/ owner = User.id current_user ->
             payments_router.read_payment db payment_id current_user
             = Ok payment
             /\ (forall payment_update,
                    payments_router.update_payment
                      db payment_id payment_update current_user
                    = crud.update_payment db payment_id payment_update)
             /\ (forall amount method status amount',
                    Float_or_else amount (Payment.amount payment)
                    = Some amount' ->
                    let db_payment :=
                      Payment.mk payment_id (Payment.user_id payment)
                        (Payment.invoice_id payment) amount'
                        (or_else method (Payment.method payment))
                        (match status with
                         | Some s => Some s
                         | None => Payment.status payment
                         end) in
                    exists db',
                      payments_router.update_payment db payment_id
                        (PaymentUpdate.mk (supplied amount) (supplied method)
                                          (supplied status)) current_user
                      = Ok (Some db_payment, db')
                      /\ crud.get_payment db' payment_id = Some db_payment)
             /\ exists db',
                 payments_router.delete_payment db payment_id current_user
                 = Ok ("Payment deleted successfully", db')
                 /\ crud.get_payment db' payment_id = None))
  /\ (forall user_id,
         (is_forbidden (users_router.read_user db user_id current_user)
          = true <-> stranger current_user user_id)
         /\ (forall user_update,
                is_forbidden (users_router.update_user
                                db user_id user_update current_user)
                = true <->
                truthy (User.is_super_admin current_user) = false
                /\ (user_id <> User.id current_user
                    \/ value (UserUpdate.is_super_admin user_update) <> None))
         /\ (is_forbidden (users_router.delete_user db user_id current_user)
             = true <-> truthy (User.is_super_admin current_user) = false)
         /\ (forall db_user,
                crud.get_user db user_id = Some db_user ->
                truthy (User.is_super_admin current_user) = true
                \/ user_id = User.id current_user ->
                users_router.read_user db user_id current_user = Ok db_user)
         /\ (forall user_update,
                truthy (User.is_super_admin current_user) = true
                \/ (user_id = User.id current_user
                    /\ value (UserUpdate.is_super_admin user_update)
                       = None) ->
                users_router.update_user db user_id user_update current_user
                = found "User not found"
                        (crud.update_user db user_id user_update))
         /\ (truthy (User.is_super_admin current_user) = true ->
             users_router.delete_user db user_id current_user
             = deleted "User not found" tt (crud.delete_user db user_id))).
Proof.
  split; [|split].
  - intros invoice_id invoice Hinv owner. unfold owner.
    destruct (find_pk _ _ _ _ Hinv) as [Hid _].
    assert (Hdel : forall user,
               not_permitted user (Invoice.user_id invoice) = false ->
               invoices_router.delete_invoice db invoice_id user
               = deleted "Invoice not found" tt
                         (crud.delete_invoice db invoice_id)).
    { intros user E. unfold invoices_router.delete_invoice.
      rewrite Hinv, E.
      destruct (crud.delete_invoice db invoice_id) as [[[] db']|e];
        reflexivity. }
    unfold invoices_router.read_invoice. rewrite Hinv.
    destruct (stranger_dec current_user (Invoice.user_id invoice))
      as [[E Hs]|[E Hs]]; rewrite E.
    + unfold invoices_router.update_invoice, invoices_router.delete_invoice.
      rewrite Hinv, E.
      split; [now apply decide_true|].
      split; [intros; now apply decide_true|].
      split; [now apply decide_true|].
      intros H. apply not_stranger in H. congruence.
    + split; [now apply decide_false|].
      split; [|split].
      * intros invoice_update. apply decide_false; [|exact Hs].
        unfold invoices_router.update_invoice. rewrite Hinv, E.
        apply bind_404.
        -- destruct (value _) as [c|]; [|reflexivity].
           destruct (crud.get_customer db c); reflexivity.
        -- intros _. apply crud_update_invoice_403.
      * apply decide_false; [|exact Hs]. rewrite (Hdel _ E).
        assert (H := crud_delete_invoice_403 db invoice_id).
        destruct (crud.delete_invoice db invoice_id) as [[[] db']|e];
          [reflexivity|reflexivity|exact H].
      * intros Hperm.
        split; [reflexivity|]. split.
        { intros invoice_update.
          apply (update_invoice_permitted db invoice_id invoice);
            assumption. }
        split.
        { intros customer_id status is_paid Hc.
          destruct (update_invoice_ok db invoice_id invoice customer_id
                      status is_paid Hinv) as [Hu Hg].
          eexists. split; [|exact Hg].
          destruct (update_invoice_permitted db invoice_id invoice
                      (InvoiceUpdate.mk (supplied customer_id)
                         (supplied status) (supplied is_paid))
                      current_user Hinv Hperm) as [_ ->]; [exact Hu|].
          cbn [InvoiceUpdate.customer_id]. intros c Hv. apply Hc.
          destruct customer_id; [exact Hv|discriminate]. }
        split; [exact (Hdel _ E)|]. split.
        { intros Hpay. rewrite (Hdel _ E). unfold crud.delete_invoice.
          rewrite Hinv, Hpay. cbn [deleted]. eexists.
          split; [reflexivity|].
          queries. rewrite find_delete, Hid. now rewrite String.eqb_refl. }
        { intros Hpay. rewrite (Hdel _ E). unfold crud.delete_invoice.
          rewrite Hinv. destruct (Invoice_payments db invoice);
            [now contradiction Hpay|reflexivity]. }
  - intros payment_id payment Hp owner. unfold owner.
    unfold payments_router.read_payment, payments_router.update_payment,
      payments_router.delete_payment. rewrite Hp.
    destruct (stranger_dec current_user (Payment.user_id payment))
      as [[E Hs]|[E Hs]]; rewrite E.
    + split; [now apply decide_true|].
      split; [intros; now apply decide_true|].
      split; [now apply decide_true|].
      intros H. apply not_stranger in H. congruence.
    + split; [now apply decide_false|].
      split; [|split].
      * intros payment_update. apply decide_false; [|exact Hs].
        apply crud_update_payment_403.
      * apply decide_false; [|exact Hs].
        apply bind_404; [apply crud_delete_payment_403|].
        intros [[] db']; reflexivity.
      * intros _. split; [reflexivity|]. split; [reflexivity|]. split.
        { intros amount method status amount' Hamount.
          destruct (update_payment_ok db payment_id payment amount method
                      status amount' Hp Hamount) as [Hu Hg].
          eexists. split; [exact Hu|exact Hg]. }
        unfold crud.delete_payment. rewrite Hp. cbn [bind negb].
        eexists. split; [reflexivity|].
        destruct (find_pk _ _ _ _ Hp) as [Hid _].
        queries. rewrite find_delete, Hid. now rewrite String.eqb_refl.
  - intros user_id.
    unfold users_router.read_user, users_router.update_user,
      users_router.delete_user, auth.get_current_super_admin.
    destruct (users_router.not_self current_user user_id) eqn:E.
    + apply not_self_spec in E. destruct E as [E1 E2]. rewrite E1.
      cbn [negb bind]. split; [now apply decide_true|].
      split; [intros; apply decide_true; [reflexivity|tauto]|].
      split; [now apply decide_true|].
      split; [intros db_user _ [H|H]; congruence|].
      split; [intros user_update [H|[H _]]; congruence|].
      discriminate.
    + assert (Hns : ~ stranger current_user user_id).
      { intros H. apply not_self_spec in H. congruence. }
      split; [|split; [|split; [|split; [|split]]]].
      * apply decide_false; [|exact Hns].
        destruct (crud.get_user db user_id); reflexivity.
      * intros user_update.
        destruct (value (UserUpdate.is_super_admin user_update)) as [b|].
        -- destruct (truthy (User.is_super_admin current_user)) eqn:Ea.
           ++ cbn [negb]. apply decide_false; [|intros [H _]; discriminate].
              apply bind_404; [apply crud_update_user_403|].
              intros [[] db']; reflexivity.
           ++ cbn [negb]. apply decide_true; [reflexivity|].
              split; [reflexivity|]. right. discriminate.
        -- apply decide_false.
           ++ apply bind_404; [apply crud_update_user_403|].
              intros [[] db']; reflexivity.
           ++ intros [H1 [H2|H2]]; [|congruence].
              apply Hns. split; assumption.
      * destruct (truthy (User.is_super_admin current_user)) eqn:Ea.
        -- cbn [negb bind]. apply decide_false; [|discriminate].
           apply bind_404; [apply crud_delete_user_403|].
           intros [[] db']; reflexivity.
        -- cbn [negb bind]. now apply decide_true.
      * intros db_user Hu _. now rewrite Hu.
      * intros user_update H.
        assert (Hc : match value (UserUpdate.is_super_admin user_update) with
                     | Some _ =>
                         negb (truthy (User.is_super_admin current_user))
                     | None => false
                     end = false).
        { destruct H as [H|[_ H]]; rewrite H; [|reflexivity].
          now destruct (value _). }
        rewrite Hc.
        destruct (crud.update_user db user_id user_update) as [[[] db']|e];
          reflexivity.
      * intros H. rewrite H. cbn [negb bind].
        destruct (crud.delete_user db user_id) as [[[] db']|e];
          reflexivity.
Qed.

(** ** The item operations, whenever they return *)

Lemma create_invoice_item_inv
  (db : Session) (item : InvoiceItemCreate.t) (invoice_id uuid : string)
  (db_item : InvoiceItem.t) (db' : Session) :
  crud.create_invoice_item db item invoice_id uuid = Ok (db_item, db') ->
  exists T invoices',
    int_mul (InvoiceItemCreate.quantity item)
            (InvoiceItemCreate.unit_price item) = Ok T
    /\ InvoiceItem.id db_item = uuid
    /\ holds invoice_id item db_item
    /\ item_ok db_item
    /\ crud.get_invoice_item db uuid = None
    /\ db' = set_invoice_items (set_invoices db invoices')
                               (invoice_items db ++ [db_item])
    /\ match crud.get_invoice db invoice_id with
       | Some invoice =>
           exists total_amount,
             Invoice.total_amount invoice = Some total_amount
             /\ invoices' =
                update Invoice.id (invoices db)
                       (crud.set_total_amount invoice
                          (Float (total_amount + T)%float))
       | None => invoices' = invoices db
       end.
Proof.
  unfold crud.create_invoice_item.
  destruct (int_mul _ _) as [T|] eqn:Hmul; step; [|discriminate].
  destruct (match crud.get_invoice db invoice_id with
            | Some _ => _ | None => _ end) as [invoices'|] eqn:Hinv; step;
    [|discriminate].
  destruct (crud.bound _) as [row|] eqn:Hb; step; [|discriminate].
  destruct (bound_inv _ _ Hb) as [-> Hint].
  destruct (crud.stored _) as [row|] eqn:Hs; step; [|discriminate].
  destruct (stored_inv _ _ Hs) as (p & t & Hp & Ht & ->).
  cbn [InvoiceItem.unit_price InvoiceItem.total InvoiceItem.id
       InvoiceItem.invoice_id InvoiceItem.description InvoiceItem.quantity]
    in *.
  destruct (insert InvoiceItem.id _ _) as [items'|] eqn:Hi; step;
    [|discriminate].
  destruct (insert_inv _ _ _ _ Hi) as [-> Hfresh].
  intros H. inversion H; subst. clear H.
  exists T, invoices'. split; [reflexivity|]. split; [reflexivity|].
  split.
  { unfold holds. step. repeat split; try assumption. now exists T. }
  split.
  { now apply (stored_item_ok uuid invoice_id _ _
                 (InvoiceItemCreate.unit_price item) T). }
  split; [exact Hfresh|]. split; [reflexivity|].
  destruct (crud.get_invoice db invoice_id) as [invoice|];
    [|now inversion Hinv].
  destruct (Invoice.total_amount invoice) as [total_amount|];
    cbn [operand bind] in Hinv; [|discriminate].
  exists total_amount. split; [reflexivity|]. now inversion Hinv.
Qed.

Lemma update_invoice_item_inv
  (db : Session) (item_id : string) (item_update : InvoiceItemUpdate.t)
  (db_item : InvoiceItem.t) (r : option InvoiceItem.t) (db' : Session) :
  crud.get_invoice_item db item_id = Some db_item ->
  crud.update_invoice_item db item_id item_update = Ok (r, db') ->
  exists db_item' total invoices',
    r = Some db_item'
    /\ InvoiceItem.id db_item' = InvoiceItem.id db_item
    /\ InvoiceItem.invoice_id db_item' = InvoiceItem.invoice_id db_item
    /\ item_ok db_item'
    /\ Float total = Some (InvoiceItem.total db_item')
    /\ db' = set_invoice_items (set_invoices db invoices')
               (update InvoiceItem.id (invoice_items db) db_item')
    /\ match crud.get_invoice db (InvoiceItem.invoice_id db_item) with
       | Some invoice =>
           exists total_amount,
             Invoice.total_amount invoice = Some total_amount
             /\ invoices' =
                update Invoice.id (invoices db)
                       (crud.set_total_amount invoice
                          (Float (total_amount - InvoiceItem.total db_item
                                  + total)%float))
       | None => invoices' = invoices db
       end.
Proof.
  intros Hitem. unfold crud.update_invoice_item. rewrite Hitem.
  destruct (setattr _ (InvoiceItemUpdate.quantity item_update))
    as [quantity|]; [|discriminate].
  destruct (setattr _ (InvoiceItemUpdate.unit_price item_update))
    as [unit_price|] eqn:Hprice; [|discriminate].
  destruct (int_mul quantity unit_price) as [total|] eqn:Hmul; step;
    [|discriminate].
  destruct (match crud.get_invoice db (InvoiceItem.invoice_id db_item) with
            | Some _ => _ | None => _ end) as [invoices'|] eqn:Hinv; step;
    [|discriminate].
  destruct (written _ Integer quantity) as [quantity'|] eqn:Hq; step;
    [|discriminate].
  assert (quantity' = quantity).
  { unfold written in Hq.
    destruct (InvoiceItemUpdate.quantity item_update);
      [now inversion Hq|now apply Integer_inv]. }
  subst quantity'.
  destruct (setattr _ (InvoiceItemUpdate.description item_update))
    as [description|]; step; [|discriminate].
  destruct (written _ _ unit_price) as [unit_price'|] eqn:Hp; step;
    [|discriminate].
  destruct (Float total) as [total'|] eqn:Ht; step; [|discriminate].
  intros H. inversion H; subst. clear H.
  eexists. exists total, invoices'. split; [reflexivity|]. step.
  split; [reflexivity|]. split; [reflexivity|]. split.
  { unfold written in Hp.
    destruct (InvoiceItemUpdate.unit_price item_update).
    - inversion Hp; subst. unfold item_ok. step. now exists total.
    - destruct (Float unit_price) as [p|] eqn:Hf; step; [|discriminate].
      inversion Hp; subst.
      now apply (stored_item_ok _ _ _ _ unit_price total). }
  split; [exact Ht|]. split; [reflexivity|].
  destruct (crud.get_invoice db _) as [invoice|]; [|now inversion Hinv].
  destruct (Invoice.total_amount invoice) as [total_amount|];
    cbn [operand bind] in Hinv; [|discriminate].
  exists total_amount. split; [reflexivity|]. now inversion Hinv.
Qed.

Lemma delete_invoice_item_inv
  (db : Session) (item_id : string) (db_item : InvoiceItem.t)
  (success : bool) (db' : Session) :
  crud.get_invoice_item db item_id = Some db_item ->
  crud.delete_invoice_item db item_id = Ok (success, db') ->
  exists invoices',
    success = true
    /\ db' = set_invoice_items (set_invoices db invoices')
               (delete InvoiceItem.id (invoice_items db) item_id)
    /\ match crud.get_invoice db (InvoiceItem.invoice_id db_item) with
       | Some invoice =>
           exists total_amount,
             Invoice.total_amount invoice = Some total_amount
             /\ invoices' =
                update Invoice.id (invoices db)
                       (crud.set_total_amount invoice
                          (Float (total_amount
                                  - InvoiceItem.total db_item)%float))
       | None => invoices' = invoices db
       end.
Proof.
  intros Hitem. destruct (find_pk _ _ _ _ Hitem) as [Hid _].
  unfold crud.delete_invoice_item. rewrite Hitem, Hid.
  destruct (crud.get_invoice db _) as [invoice|]; step.
  - destruct (Invoice.total_amount invoice) as [total_amount|]; step;
      [|discriminate].
    inversion 1. eexists. split; [reflexivity|]. split; [reflexivity|].
    now exists total_amount.
  - inversion 1. eexists. split; [reflexivity|]. split; reflexivity.
Qed.

(** Each of them changes at most the [total_amount] of one invoice. *)
Lemma retotalled_update (db : Session) (key : string)
      (invoices' : list Invoice.t) (total : float -> option float) :
  match crud.get_invoice db key with
  | Some invoice =>
      exists total_amount,
        Invoice.total_amount invoice = Some total_amount
        /\ invoices' = update Invoice.id (invoices db)
                              (crud.set_total_amount invoice
                                 (total total_amount))
  | None => invoices' = invoices db
  end ->
  retotalled db invoices'.
Proof.
  destruct (crud.get_invoice db key) as [invoice|] eqn:Hinv.
  - intros (total_amount & _ & ->). right. exists invoice. eexists.
    split; [|reflexivity]. now destruct (find_pk _ _ _ _ Hinv).
  - intros ->. now left.
Qed.

(** ** Sequences of item operations *)

Lemma Forall_delete {R} (pk : R -> string) (P : R -> Prop) (table : list R)
      (key : string) :
  Forall P table -> Forall P (delete pk table key).
Proof.
  intros H. apply Forall_forall. intros r Hr. apply in_delete in Hr.
  revert r Hr. now apply Forall_forall.
Qed.

Lemma Forall_update_all {R} (pk : R -> string) (P : R -> Prop)
      (table : list R) (row : R) :
  Forall P table -> P row -> Forall P (update pk table row).
Proof.
  intros H Hrow. apply Forall_update; [|exact Hrow].
  intros r Hr _. revert r Hr. now apply Forall_forall.
Qed.

(** Each operation keeps the item equation. *)
Lemma create_invoice_items_ok db invoice user_id uuid uuids :
  Forall item_ok (invoice_items db) ->
  Forall item_ok
    (invoice_items
       (after db (crud.create_invoice db invoice user_id uuid uuids))).
Proof.
  intros H.
  destruct (crud.create_invoice db invoice user_id uuid uuids)
    as [[r db']|e] eqn:Hc; cbn [after]; [|exact H].
  destruct (create_invoice_inv _ _ _ _ _ _ _ Hc)
    as (totals & db_items & _ & _ & _ & -> & _ & _ & _ & _ & Hok).
  tables. apply Forall_app. now split.
Qed.

Lemma create_invoice_item_items_ok db item invoice_id uuid :
  Forall item_ok (invoice_items db) ->
  Forall item_ok
    (invoice_items
       (after db (crud.create_invoice_item db item invoice_id uuid))).
Proof.
  intros H.
  destruct (crud.create_invoice_item db item invoice_id uuid)
    as [[db_item db']|e] eqn:Hc; cbn [after]; [|exact H].
  destruct (create_invoice_item_inv _ _ _ _ _ _ Hc)
    as (T & invoices' & _ & _ & _ & Hok & _ & -> & _).
  tables. apply Forall_app. split; [exact H|]. now constructor.
Qed.

Lemma update_invoice_item_items_ok db item_id item_update :
  Forall item_ok (invoice_items db) ->
  Forall item_ok
    (invoice_items
       (after db (crud.update_invoice_item db item_id item_update))).
Proof.
  intros H.
  destruct (crud.get_invoice_item db item_id) as [db_item|] eqn:Hitem.
  - destruct (crud.update_invoice_item db item_id item_update)
      as [[r db']|e] eqn:Hc; cbn [after]; [|exact H].
    destruct (update_invoice_item_inv _ _ _ _ _ _ Hitem Hc)
      as (db_item' & total & invoices' & _ & _ & _ & Hok & _ & -> & _).
    tables. now apply Forall_update_all.
  - unfold crud.update_invoice_item. now rewrite Hitem.
Qed.

Lemma delete_invoice_item_items_ok db item_id :
  Forall item_ok (invoice_items db) ->
  Forall item_ok
    (invoice_items (after db (crud.delete_invoice_item db item_id))).
Proof.
  intros H.
  destruct (crud.get_invoice_item db item_id) as [db_item|] eqn:Hitem.
  - destruct (crud.delete_invoice_item db item_id)
      as [[success db']|e] eqn:Hc; cbn [after]; [|exact H].
    destruct (delete_invoice_item_inv _ _ _ _ _ Hitem Hc)
      as (invoices' & _ & -> & _).
    tables. now apply Forall_delete.
  - unfold crud.delete_invoice_item. now rewrite Hitem.
Qed.


Lemma filter_none {R} (f : R -> bool) (l : list R) :
  Forall (fun r => f r = false) l -> filter f l = [].
Proof.
  induction 1 as [|r l Hr _ IH]; simpl; [reflexivity|]. now rewrite Hr.
Qed.

Lemma filter_all {R} (f : R -> bool) (l : list R) :
  Forall (fun r => f r = true) l -> filter f l = l.
Proof.
  induction 1 as [|r l Hr _ IH]; simpl; [reflexivity|].
  now rewrite Hr, IH.
Qed.

(** The items of an invoice that [create_invoice] has just created are the
    rows it has added, when no older row refers to its identifier. *)
Lemma created_items
  (db : Session) (db_invoice : Invoice.t) (items : list InvoiceItemCreate.t)
  (db_items : list InvoiceItem.t) (invoices' : list Invoice.t) :
  Forall (fun item => InvoiceItem.invoice_id item <> Invoice.id db_invoice)
         (invoice_items db) ->
  Forall2 (holds (Invoice.id db_invoice)) items db_items ->
  Invoice_items
    (set_invoice_items (set_invoices db invoices')
                       (invoice_items db ++ db_items)) db_invoice
  = db_items.
Proof.
  intros Hold Hnew. unfold Invoice_items. tables. rewrite filter_app.
  rewrite filter_none, filter_all; [reflexivity| |].
  - clear Hold. induction Hnew as [|item row items rows Hh _ IH];
      constructor; [|exact IH].
    destruct Hh as (-> & _). apply String.eqb_refl.
  - apply Forall_forall. intros row Hr.
    apply (proj1 (Forall_forall _ _) Hold) in Hr.
    now apply String.eqb_neq.
Qed.


(** * The theorems at work on the sample database *)

Lemma ex_db_items_ok : Forall item_ok (invoice_items ex_db).
Proof.
  repeat constructor; eexists; (split; [vm_compute; reflexivity|reflexivity]).
Qed.

(** With a pending payment of 200 and a completed payment of 100 on an
    invoice of 250: a completed payment of 150 reaches the total, one of 100
    does not, and a pending payment of 500 changes nothing. *)
Lemma create_payment_paid_threshold_witness :
  crud.get_invoice ex_db "i1" = Some ex_invoice1
  /\ crud.get_payment ex_db "p3" = None
  /\ completed_payments ex_db ex_invoice1 = 100%float
  /\ (exists db',
         crud.create_payment ex_db
           (PaymentCreate.mk "i1" 150 BANK_TRANSFER COMPLETED) "u1" "p3"
         = Ok (Payment.mk "p3" "u1" "i1" 150 BANK_TRANSFER (Some COMPLETED),
               db')
         /\ crud.get_invoice db' "i1"
            = Some (Invoice.mk "i1" "u1" "c1" (Some PAID) (Some 250%float)
                               (Some true)))
  /\ (exists db',
         crud.create_payment ex_db
           (PaymentCreate.mk "i1" 100 BANK_TRANSFER COMPLETED) "u1" "p3"
         = Ok (Payment.mk "p3" "u1" "i1" 100 BANK_TRANSFER (Some COMPLETED),
               db')
         /\ crud.get_invoice db' "i1" = Some ex_invoice1)
  /\ (exists db',
         crud.create_payment ex_db
           (PaymentCreate.mk "i1" 500 BANK_TRANSFER PENDING) "u1" "p3"
         = Ok (Payment.mk "p3" "u1" "i1" 500 BANK_TRANSFER (Some PENDING),
               db')
         /\ crud.get_invoice db' "i1" = Some ex_invoice1).
Proof.
  assert (H1 : crud.get_invoice ex_db "i1" = Some ex_invoice1)
    by reflexivity.
  assert (H2 : crud.get_payment ex_db "p3" = None) by reflexivity.
  split; [exact H1|]. split; [exact H2|]. split; [reflexivity|].
  split; [|split].
  - destruct (create_payment_paid_threshold ex_db
                (PaymentCreate.mk "i1" 150 BANK_TRANSFER COMPLETED)
                "u1" "p3" ex_invoice1 H1 H2) as (Hnumbers & _).
    destruct (Hnumbers 250%float 150%float eq_refl eq_refl)
      as (db' & Hcall & _ & Hpaid & _).
    exists db'. split; [exact Hcall|]. exact (Hpaid eq_refl eq_refl).
  - destruct (create_payment_paid_threshold ex_db
                (PaymentCreate.mk "i1" 100 BANK_TRANSFER COMPLETED)
                "u1" "p3" ex_invoice1 H1 H2) as (Hnumbers & _).
    destruct (Hnumbers 250%float 100%float eq_refl eq_refl)
      as (db' & Hcall & _ & _ & Hbelow & _).
    exists db'. split; [exact Hcall|]. exact (proj2 (Hbelow eq_refl eq_refl)).
  - destruct (create_payment_paid_threshold ex_db
                (PaymentCreate.mk "i1" 500 BANK_TRANSFER PENDING)
                "u1" "p3" ex_invoice1 H1 H2) as (Hnumbers & _).
    destruct (Hnumbers 250%float 500%float eq_refl eq_refl)
      as (db' & Hcall & _ & _ & _ & _ & Hpending).
    exists db'. split; [exact Hcall|].
    apply Hpending. discriminate.
Defined.

(** The threshold is the one of binary64: on an invoice of 0.1 + 0.2 a
    completed payment of 0.1 followed by one of 0.2 pays the invoice, the sum
    of the payments being rounded as the total was. *)
Lemma create_payment_rounded_threshold :
  option_map Invoice.total_amount (crud.get_invoice ex_db_threshold "i8")
  = Some (Some 0.30000000000000004%float)
  /\ option_map Invoice.is_paid (crud.get_invoice ex_db_threshold "i8")
     = Some (Some false)
  /\ completed_payments ex_db_threshold
       (Invoice.mk "i8" "u2" "c1" (Some DRAFT) (Some 0.30000000000000004%float)
                   (Some false)) = 0.1%float
  /\ option_map Invoice.is_paid
       (crud.get_invoice
          (after ex_db_threshold
             (crud.create_payment ex_db_threshold
                (PaymentCreate.mk "i8" 0.2 CASH COMPLETED) "u2" "p9")) "i8")
     = Some (Some true).
Proof. vm_compute. repeat split. Qed.

Lemma ex_uuids_fresh : fresh_uuids ex_db "i4" ex_uuids 2.
Proof.
  split; [reflexivity|]. split.
  - cbn. repeat constructor; cbn; intuition discriminate.
  - intros [|[|k]] Hk; [reflexivity|reflexivity|lia].
Qed.


(** An invoice of 0.1, 0.2 and 0.3: the total is the binary64 sum from left
    to right, 0.6000000000000001. *)
Lemma create_invoice_rounded_total :
  exists db_invoice db',
    crud.create_invoice ex_db ex_tenths "u2" "i5" ex_uuids'
    = Ok (Some db_invoice, db')
    /\ Invoice.total_amount db_invoice = Some 0.6000000000000001%float.
Proof. eexists. eexists. split; vm_compute; reflexivity. Qed.

(** Three units of item "t1" instead of two: its total goes from 200 to 300
    and the invoice from 250 to (250 - 200) + 300 = 350. *)
Lemma update_invoice_item_delta_witness :
  crud.get_invoice_item ex_db "t1" = Some ex_item1
  /\ crud.get_invoice ex_db "i1" = Some ex_invoice1
  /\ (exists db',
         crud.update_invoice_item ex_db "t1"
           (partial_update None (Some 3%Z) None)
         = Ok (Some (InvoiceItem.mk "t1" "i1" "Design" 3 100 300), db')
         /\ crud.get_invoice db' "i1"
            = Some (Invoice.mk "i1" "u1" "c1" (Some SENT) (Some 350%float)
                               (Some false)))
  /\ crud.update_invoice_item ex_db "t9"
       (partial_update None (Some 3%Z) None) = Ok (None, ex_db)
  /\ crud.update_invoice_item ex_db "t1"
       (InvoiceItemUpdate.mk Unset (Given None) Unset) = Raise TypeError.
Proof.
  assert (H1 : crud.get_invoice_item ex_db "t1" = Some ex_item1)
    by reflexivity.
  assert (H2 : crud.get_invoice ex_db "i1" = Some ex_invoice1)
    by reflexivity.
  split; [exact H1|]. split; [exact H2|].
  destruct (update_invoice_item_delta ex_db "t1")
    as (Hfound & _ & Hnull).
  destruct (update_invoice_item_delta ex_db "t9") as (_ & Hmissing & _).
  split; [|split; [apply Hmissing; reflexivity|]].
  - destruct (Hfound None (Some 3%Z) None ex_item1 ex_invoice1
                250%float 300%float 100%float 300%float H1 H2 eq_refl)
      as ((db_item' & db' & Hcall & Hitem & _ & _ & Hget & _) & _).
    + intros q Hq. inversion Hq. reflexivity.
    + reflexivity.
    + vm_compute. reflexivity.
    + reflexivity.
    + exists db'. subst db_item'. split; [exact Hcall|exact Hget].
  - apply (Hnull _ ex_item1 H1). now left.
Defined.

(** C3, as stated, fails: on the invoice of 0.1, 0.2 and 0.3, whose
    [total_amount] is 0.6000000000000001, a second unit of the first item
    raises the item's total from 0.1 to 0.2 and [total_amount] to
    0.7000000000000002, which is 0.10000000000000009 more; and on an invoice
    of 1e16 whose second item is 1 x 1, a second unit moves [total_amount] by
    2, not by the difference 1 of the item's totals: (1e16 - 1) + 2 is
    1e16 + 2 in binary64. *)
Lemma update_invoice_item_delta_counterexample :
  (crud.get_invoice (run ex_db [CreateInvoice ex_tenths "u2" "i5" ex_uuids'])
                    "i5"
   = Some (Invoice.mk "i5" "u2" "c1" (Some DRAFT)
                      (Some 0.6000000000000001%float) (Some false))
   /\ crud.get_invoice_item
        (run ex_db [CreateInvoice ex_tenths "u2" "i5" ex_uuids']) "t10"
      = Some (InvoiceItem.mk "t10" "i5" "One tenth" 1 0.1 0.1)
   /\ exists db',
        crud.update_invoice_item
          (run ex_db [CreateInvoice ex_tenths "u2" "i5" ex_uuids']) "t10"
          (partial_update None (Some 2%Z) None)
        = Ok (Some (InvoiceItem.mk "t10" "i5" "One tenth" 2 0.1 0.2), db')
        /\ crud.get_invoice db' "i5"
           = Some (Invoice.mk "i5" "u2" "c1" (Some DRAFT)
                              (Some 0.7000000000000002%float) (Some false))
        /\ (0.7000000000000002 - 0.6000000000000001
            = 0.10000000000000009)%float
        /\ (0.2 - 0.1 = 0.1)%float
        /\ (0.10000000000000009 =? 0.1)%float = false)
  /\ crud.get_invoice ex_db_large "i6"
     = Some (Invoice.mk "i6" "u2" "c1" (Some DRAFT) (Some 1e16%float)
                        (Some false))
  /\ crud.get_invoice_item ex_db_large "t14"
     = Some (InvoiceItem.mk "t14" "i6" "Bolt" 1 1 1)
  /\ exists db',
       crud.update_invoice_item ex_db_large "t14"
         (partial_update None (Some 2%Z) None)
       = Ok (Some (InvoiceItem.mk "t14" "i6" "Bolt" 2 1 2), db')
       /\ crud.get_invoice db' "i6"
          = Some (Invoice.mk "i6" "u2" "c1" (Some DRAFT)
                             (Some 10000000000000002%float) (Some false))
       /\ (10000000000000002 - 1e16 = 2)%float
       /\ (2 - 1 = 1)%float.
Proof.
  split.
  { split; [reflexivity|]. split; [reflexivity|].
    eexists. split; [vm_compute; reflexivity|].
    split; [reflexivity|]. repeat split. }
  split; [reflexivity|]. split; [reflexivity|].
  eexists. split; [vm_compute; reflexivity|].
  split; [reflexivity|]. split; reflexivity.
Qed.

(** A negative quantity is accepted and lowers the total: 250 - 40 = 210. *)
Lemma create_invoice_item_adds_total_witness :
  crud.get_invoice ex_db "i1" = Some ex_invoice1
  /\ crud.get_invoice_item ex_db "t8" = None
  /\ (exists db',
         crud.create_invoice_item ex_db
           (InvoiceItemCreate.mk "Credit" (-1) 40) "i1" "t8"
         = Ok (InvoiceItem.mk "t8" "i1" "Credit" (-1) 40 (-40), db')
         /\ crud.get_invoice db' "i1"
            = Some (Invoice.mk "i1" "u1" "c1" (Some SENT) (Some 210%float)
                               (Some false)))
  /\ crud.create_invoice_item ex_db
       (InvoiceItemCreate.mk "Credit" (2 ^ 63) 40) "i1" "t8"
     = Raise OverflowError.
Proof.
  assert (H1 : crud.get_invoice ex_db "i1" = Some ex_invoice1)
    by reflexivity.
  assert (H2 : crud.get_invoice_item ex_db "t8" = None) by reflexivity.
  split; [exact H1|]. split; [exact H2|]. split.
  - destruct (create_invoice_item_adds_total ex_db
                (InvoiceItemCreate.mk "Credit" (-1) 40) "i1" "t8"
                ex_invoice1 250%float H1 eq_refl H2) as (Hstored & _).
    destruct Hstored as (T & db_item & db' & HT & Hcall & _ & _ & _ & _ & _
                         & _ & _ & Hget); [vm_compute; reflexivity|].
    exists db'. vm_compute in HT. inversion HT; subst T. split; [|exact Hget].
    rewrite Hcall. vm_compute in Hcall. inversion Hcall. reflexivity.
  - destruct (create_invoice_item_adds_total ex_db
                (InvoiceItemCreate.mk "Credit" (2 ^ 63) 40) "i1" "t8"
                ex_invoice1 250%float H1 eq_refl H2) as (_ & _ & Hoverflow).
    apply Hoverflow. reflexivity.
Defined.

(** C4, as stated, fails: adding an item of total 1 to an invoice of 1e16
    leaves [total_amount] as it was, 1e16 + 1 being rounded to 1e16; and
    adding an item of 0.01 to an invoice of 19.99 gives 20, which is
    0.010000000000001563 above 19.99. *)
Lemma create_invoice_item_adds_total_counterexample :
  (crud.get_invoice ex_db_large "i6"
   = Some (Invoice.mk "i6" "u2" "c1" (Some DRAFT) (Some 1e16%float)
                      (Some false))
   /\ exists db',
        crud.create_invoice_item ex_db_large
          (InvoiceItemCreate.mk "Washer" 1 1) "i6" "t15"
        = Ok (InvoiceItem.mk "t15" "i6" "Washer" 1 1 1, db')
        /\ crud.get_invoice db' "i6"
           = Some (Invoice.mk "i6" "u2" "c1" (Some DRAFT) (Some 1e16%float)
                              (Some false)))
  /\ (crud.get_invoice ex_db_cents "i7"
      = Some (Invoice.mk "i7" "u2" "c1" (Some DRAFT) (Some 19.99%float)
                         (Some false))
      /\ exists db',
           crud.create_invoice_item ex_db_cents
             (InvoiceItemCreate.mk "Cap" 1 0.01) "i7" "t15"
           = Ok (InvoiceItem.mk "t15" "i7" "Cap" 1 0.01 0.01, db')
           /\ crud.get_invoice db' "i7"
              = Some (Invoice.mk "i7" "u2" "c1" (Some DRAFT) (Some 20%float)
                                 (Some false))
           /\ (20 - 19.99 = 0.010000000000001563)%float
           /\ (0.010000000000001563 =? 0.01)%float = false).
Proof.
  split; (split; [reflexivity|]); eexists;
    (split; [vm_compute; reflexivity|]); repeat split.
Qed.



(** Refunding the completed payment of a paid invoice, and deleting it, leave
    the invoice paid; an amount that is not a number is refused. *)
Lemma payment_update_delete_keep_invoice_witness :
  crud.get_payment ex_db "p2" = Some ex_payment2
  /\ crud.get_invoice ex_db "i2" = Some ex_invoice2
  /\ Invoice.is_paid ex_invoice2 = Some true
  /\ (exists db_payment db',
         crud.update_payment ex_db "p2"
           (PaymentUpdate.mk Unset Unset (Given (Some REFUNDED)))
         = Ok (Some db_payment, db')
         /\ Payment.status db_payment = Some REFUNDED
         /\ crud.get_payment db' "p2"
            = Some (Payment.mk "p2" "u1" "i2" 80 PAYPAL (Some REFUNDED))
         /\ crud.get_invoice db' "i2" = Some ex_invoice2)
  /\ crud.update_payment ex_db "p2"
       (PaymentUpdate.mk (Given (Some nan)) Unset Unset)
     = Raise IntegrityError
  /\ (exists db',
         crud.delete_payment ex_db "p2" = Ok (true, db')
         /\ crud.get_invoice db' "i2" = Some ex_invoice2).
Proof.
  assert (H1 : crud.get_payment ex_db "p2" = Some ex_payment2)
    by reflexivity.
  destruct (payment_update_delete_keep_invoice ex_db "p2" ex_payment2 H1)
    as (_ & Hupdate & Hdelete).
  split; [exact H1|]. split; [reflexivity|]. split; [reflexivity|].
  split; [|split].
  - destruct (Hupdate None None (Some REFUNDED))
      as (db' & Hcall & Hget & Hinv & _).
    eexists. exists db'. split; [exact Hcall|]. split; [reflexivity|].
    split; [exact Hget|].
    unfold crud.get_invoice. rewrite Hinv. reflexivity.
  - exact (Hupdate (Some nan) None None).
  - destruct Hdelete as (db' & Hcall & _ & Hinv & _).
    exists db'. split; [exact Hcall|].
    unfold crud.get_invoice. rewrite Hinv. reflexivity.
Defined.

Lemma delete_invoice_cascade_witness :
  crud.get_invoice ex_db "i3" = Some ex_invoice3
  /\ Invoice_payments ex_db ex_invoice3 = []
  /\ In ex_item4 (invoice_items ex_db)
  /\ exists db',
       crud.delete_invoice ex_db "i3" = Ok (true, db')
       /\ crud.get_invoice db' "i3" = None
       /\ crud.get_invoice_item db' "t4" = None.
Proof.
  assert (H1 : crud.get_invoice ex_db "i3" = Some ex_invoice3)
    by reflexivity.
  assert (H2 : Invoice_payments ex_db ex_invoice3 = []) by reflexivity.
  assert (H3 : In ex_item4 (invoice_items ex_db))
    by (cbn; auto).
  split; [exact H1|]. split; [exact H2|]. split; [exact H3|].
  destruct (delete_invoice_cascade ex_db "i3") as [Hgone Hsucceeds].
  destruct (Hsucceeds ex_invoice3 H1 H2) as (db' & Hcall).
  destruct (Hgone db' Hcall) as (Hinv & Hitems & _).
  exists db'. split; [exact Hcall|]. split; [exact Hinv|].
  exact (Hitems ex_item4 H3 eq_refl).
Defined.

Lemma register_honors_is_super_admin_witness :
  crud.get_user_by_email ex_db "mallory@example.com" = None
  /\ crud.get_user ex_db "u9" = None
  /\ exists db_user db',
       auth_router.register (fun password => password) ex_db
         (UserCreate.mk "Mallory" "mallory@example.com" true "secret") "u9"
       = Ok (db_user, db')
       /\ User.is_super_admin db_user = Some true
       /\ crud.get_user db' "u9" = Some db_user.
Proof.
  assert (H1 : crud.get_user_by_email ex_db "mallory@example.com" = None)
    by reflexivity.
  assert (H2 : crud.get_user ex_db "u9" = None) by reflexivity.
  split; [exact H1|]. split; [exact H2|].
  destruct (register_honors_is_super_admin (fun password => password) ex_db
              (UserCreate.mk "Mallory" "mallory@example.com" true "secret")
              "u9" H1 H2 eq_refl)
    as (db_user & db' & Hcall & Hadmin & _ & _ & Hget & _).
  exists db_user, db'. auto.
Defined.

(** ** What is refused

    A description set to [null] violates [nullable=False], and an invoice
    with payments cannot be deleted: nothing is committed. *)

Lemma update_invoice_item_null_description :
  crud.update_invoice_item ex_db "t1"
    (InvoiceItemUpdate.mk (Given None) (Given (Some 5%Z)) Unset)
  = Raise IntegrityError.
Proof. reflexivity. Qed.

Lemma delete_invoice_with_payments :
  crud.delete_invoice ex_db "i1" = Raise IntegrityError.
Proof. reflexivity. Qed.

(** ** Listing: what the page does to "exactly the caller's entities" *)

(** C7, as stated, fails: Alice, who is not a super-admin, owns two invoices;
    with [limit = 1] the listing leaves the second one out. *)
Lemma read_invoices_page_counterexample :
  truthy (User.is_super_admin ex_alice) = false
  /\ In ex_invoice2 (invoices ex_db)
  /\ Invoice.user_id ex_invoice2 = User.id ex_alice
  /\ invoices_router.read_invoices ex_db 0 1 ex_alice = [ex_invoice1]
  /\ ~ In ex_invoice2 (invoices_router.read_invoices ex_db 0 1 ex_alice).
Proof.
  split; [reflexivity|]. split; [cbn; auto|]. split; [reflexivity|].
  split; [reflexivity|].
  cbn. intros [H|[]]. discriminate H.
Qed.

Lemma listing_pages_witness :
  truthy (User.is_super_admin ex_alice) = false
  /\ User.id ex_alice <> ""
  /\ truthy (User.is_super_admin ex_root) = true
  /\ invoices_router.read_invoices ex_db 1 5 ex_alice = [ex_invoice2]
  /\ invoices_router.read_invoices ex_db 1 5 ex_root
     = [ex_invoice2; ex_invoice3]
  /\ (forall i,
         In i (invoices_router.read_invoices ex_db 0 2 ex_alice)
         <-> In i (invoices ex_db)
             /\ Invoice.user_id i = User.id ex_alice).
Proof.
  assert (H1 : truthy (User.is_super_admin ex_alice) = false)
    by reflexivity.
  assert (H2 : User.id ex_alice <> "") by discriminate.
  assert (H3 : truthy (User.is_super_admin ex_root) = true) by reflexivity.
  split; [exact H1|]. split; [exact H2|]. split; [exact H3|].
  split; [|split].
  - destruct (listing_pages ex_db 1 5 ex_alice) as [_ Hown].
    destruct (Hown H1 H2) as (Heq & _). rewrite Heq. reflexivity.
  - destruct (listing_pages ex_db 1 5 ex_root) as [Hall _].
    destruct (Hall H3) as (Heq & _). rewrite Heq. reflexivity.
  - destruct (listing_pages ex_db 0 2 ex_alice) as [_ Hown].
    destruct (Hown H1 H2) as (_ & _ & _ & _ & Hexact).
    apply Hexact; [reflexivity|]. cbn. lia.
Defined.

(** ** Authorization: the user record *)

(** C8, as stated, fails for the update of a user record: Alice, updating her
    own record with [is_super_admin] supplied, is refused although she is the
    record's subject. *)
Lemma update_own_admin_flag_counterexample :
  crud.get_user ex_db "u1" = Some ex_alice
  /\ "u1" = User.id ex_alice
  /\ is_forbidden
       (users_router.update_user ex_db "u1"
          (UserUpdate.mk Unset Unset (Given (Some true))) ex_alice) = true.
Proof. repeat split. Qed.

Lemma forbidden_iff_witness :
  crud.get_invoice ex_db "i1" = Some ex_invoice1
  /\ crud.get_invoice ex_db "i3" = Some ex_invoice3
  /\ crud.get_payment ex_db "p1" = Some ex_payment1
  /\ stranger ex_bob (Invoice.user_id ex_invoice1)
  /\ is_forbidden (invoices_router.read_invoice ex_db "i1" ex_bob) = true
  /\ is_forbidden (payments_router.delete_payment ex_db "p1" ex_bob) = true
  /\ invoices_router.read_invoice ex_db "i1" ex_alice = Ok ex_invoice1
  /\ invoices_router.read_invoice ex_db "i1" ex_root = Ok ex_invoice1
  /\ (exists db',
         invoices_router.update_invoice ex_db "i1"
           (InvoiceUpdate.mk Unset (Given (Some CANCELLED)) Unset) ex_alice
         = Ok (Some (Invoice.mk "i1" "u1" "c1" (Some CANCELLED)
                                (Some 250%float) (Some false)), db')
         /\ crud.get_invoice db' "i1"
            = Some (Invoice.mk "i1" "u1" "c1" (Some CANCELLED)
                               (Some 250%float) (Some false)))
  /\ invoices_router.delete_invoice ex_db "i1" ex_alice
     = Raise IntegrityError
  /\ (exists db',
         invoices_router.delete_invoice ex_db "i3" ex_root = Ok (tt, db')
         /\ crud.get_invoice db' "i3" = None)
  /\ (exists db',
         payments_router.update_payment ex_db "p1"
           (PaymentUpdate.mk (Given (Some 120%float)) Unset Unset) ex_alice
         = Ok (Some (Payment.mk "p1" "u1" "i1" 120 CASH (Some COMPLETED)),
               db')
         /\ crud.get_payment db' "p1"
            = Some (Payment.mk "p1" "u1" "i1" 120 CASH (Some COMPLETED)))
  /\ is_forbidden (users_router.delete_user ex_db "u1" ex_alice) = true.
Proof.
  assert (H1 : crud.get_invoice ex_db "i1" = Some ex_invoice1)
    by reflexivity.
  assert (H1' : crud.get_invoice ex_db "i3" = Some ex_invoice3)
    by reflexivity.
  assert (H2 : crud.get_payment ex_db "p1" = Some ex_payment1)
    by reflexivity.
  assert (H3 : stranger ex_bob (Invoice.user_id ex_invoice1))
    by (split; [reflexivity|discriminate]).
  split; [exact H1|]. split; [exact H1'|]. split; [exact H2|].
  split; [exact H3|].
  destruct (forbidden_iff ex_db ex_bob) as (Hinv & Hpay & _).
  destruct (Hinv "i1" ex_invoice1 H1) as (Hread & _).
  destruct (Hpay "p1" ex_payment1 H2) as (_ & _ & Hdelete & _).
  split; [now apply Hread|]. split; [now apply Hdelete|].
  destruct (forbidden_iff ex_db ex_alice) as (Hinv_a & Hpay_a & Huser).
  destruct (Hpay_a "p1" ex_payment1 H2) as (_ & _ & _ & Hok_p).
  destruct (Hok_p (or_intror eq_refl)) as (_ & _ & Hupdate_p & _).
  destruct (Hinv_a "i1" ex_invoice1 H1) as (_ & _ & _ & Hok_a).
  destruct (forbidden_iff ex_db ex_root) as (Hinv_r & _ & _).
  destruct (Hinv_r "i1" ex_invoice1 H1) as (_ & _ & _ & Hok_r).
  destruct (Hinv_r "i3" ex_invoice3 H1') as (_ & _ & _ & Hok_r').
  destruct (Hok_a (or_intror eq_refl))
    as (Hread_a & _ & Hupdate_a & _ & _ & Hpayments_a).
  destruct (Hok_r (or_introl eq_refl)) as (Hread_r & _).
  destruct (Hok_r' (or_introl eq_refl)) as (_ & _ & _ & _ & Hdelete_r & _).
  split; [exact Hread_a|]. split; [exact Hread_r|].
  split.
  { apply (Hupdate_a None (Some CANCELLED) None). discriminate. }
  split; [apply Hpayments_a; discriminate|].
  split; [apply Hdelete_r; reflexivity|].
  split; [exact (Hupdate_p (Some 120%float) None None 120%float eq_refl)|].
  destruct (Huser "u1") as (_ & _ & Hdel & _). now apply Hdel.
Defined.

(** * Further properties of the CRUD layer *)

(** ** Deleting an item *)

Lemma set_total_amount_same (invoice : Invoice.t) (total : option float) :
  total = Invoice.total_amount invoice ->
  crud.set_total_amount invoice total = invoice.
Proof. intros ->. now destruct invoice. Qed.

(** X1. For an existing item of an existing invoice whose [total_amount] is
    a number, [delete_invoice_item] returns [True], the item can no longer be
    fetched, the item table is the old one without the rows of that
    identifier, and the invoice's [total_amount] becomes the binary64
    difference of the old value and the item's total, its other columns
    kept.  When the [total_amount] is NULL the call raises [TypeError]; for
    an unknown identifier it returns [False] and changes nothing. *)
Theorem delete_invoice_item_subtracts (db : Session) (item_id : string) :
  (forall db_item invoice,
      crud.get_invoice_item db item_id = Some db_item ->
      crud.get_invoice db (InvoiceItem.invoice_id db_item) = Some invoice ->
      match Invoice.total_amount invoice with
      | Some total_amount =>
          exists db',
            crud.delete_invoice_item db item_id = Ok (true, db')
            /\ crud.get_invoice_item db' item_id = None
            /\ invoice_items db' =
               filter (fun i => negb (InvoiceItem.id i =? item_id))
                      (invoice_items db)
            /\ crud.get_invoice db' (InvoiceItem.invoice_id db_item) =
               Some (crud.set_total_amount invoice
                       (Float (total_amount
                               - InvoiceItem.total db_item)%float))
            /\ payments db' = payments db
      | None => crud.delete_invoice_item db item_id = Raise TypeError
      end)
  /\ (crud.get_invoice_item db item_id = None ->
      crud.delete_invoice_item db item_id = Ok (false, db)).
Proof.
  split.
  - intros db_item invoice Hitem Hinv.
    destruct (find_pk _ _ _ _ Hitem) as [Hid _].
    destruct (find_pk _ _ _ _ Hinv) as [Hiid _].
    unfold crud.delete_invoice_item. rewrite Hitem, Hinv, Hid.
    destruct (Invoice.total_amount invoice) as [total_amount|]; step;
      [|reflexivity].
    eexists. split; [reflexivity|]. split; [|split; [reflexivity|split]].
    + queries. rewrite find_delete. now rewrite String.eqb_refl.
    + queries. rewrite find_update. cbn [crud.set_total_amount Invoice.id].
      rewrite Hiid, String.eqb_refl, Hinv. reflexivity.
    + reflexivity.
  - intros H. unfold crud.delete_invoice_item. now rewrite H.
Qed.

(** Deleting the item of 50 from the invoice of 250 leaves 200; from the
    invoice of 0.1, 0.2 and 0.3, deleting the item of 0.1 leaves
    0.5000000000000001. *)
Lemma delete_invoice_item_subtracts_witness :
  crud.get_invoice_item ex_db "t2" = Some ex_item2
  /\ crud.get_invoice ex_db "i1" = Some ex_invoice1
  /\ (exists db',
         crud.delete_invoice_item ex_db "t2" = Ok (true, db')
         /\ crud.get_invoice db' "i1"
            = Some (Invoice.mk "i1" "u1" "c1" (Some SENT) (Some 200%float)
                               (Some false)))
  /\ crud.delete_invoice_item ex_db "t9" = Ok (false, ex_db).
Proof.
  assert (H1 : crud.get_invoice_item ex_db "t2" = Some ex_item2)
    by reflexivity.
  assert (H2 : crud.get_invoice ex_db "i1" = Some ex_invoice1)
    by reflexivity.
  destruct (delete_invoice_item_subtracts ex_db "t2") as [Hfound _].
  destruct (delete_invoice_item_subtracts ex_db "t9") as [_ Hmissing].
  split; [exact H1|]. split; [exact H2|].
  split; [|apply Hmissing; reflexivity].
  destruct (Hfound ex_item2 ex_invoice1 H1 H2)
    as (db' & Hcall & _ & _ & Hget & _).
  exists db'. split; [exact Hcall|exact Hget].
Defined.

(** ** Deleting twice *)

(** X2. Each [delete_*] of crud.py that has returned [True] returns [False]
    when called again with the same identifier, and then changes nothing. *)
Theorem delete_twice (db db' : Session) (key : string) :
  (crud.delete_invoice_item db key = Ok (true, db') ->
   crud.delete_invoice_item db' key = Ok (false, db'))
  /\ (crud.delete_payment db key = Ok (true, db') ->
      crud.delete_payment db' key = Ok (false, db'))
  /\ (crud.delete_invoice db key = Ok (true, db') ->
      crud.delete_invoice db' key = Ok (false, db'))
  /\ (crud.delete_customer db key = Ok (true, db') ->
      crud.delete_customer db' key = Ok (false, db'))
  /\ (crud.delete_user db key = Ok (true, db') ->
      crud.delete_user db' key = Ok (false, db')).
Proof.
  split; [|split; [|split; [|split]]].
  - destruct (crud.get_invoice_item db key) as [r|] eqn:E.
    + intros H.
      destruct (delete_invoice_item_inv _ _ _ _ _ E H)
        as (invoices' & _ & -> & _).
      unfold crud.delete_invoice_item, crud.get_invoice_item. tables.
      rewrite find_delete. now rewrite String.eqb_refl.
    + unfold crud.delete_invoice_item. rewrite E. discriminate.
  - unfold crud.delete_payment at 1.
    destruct (crud.get_payment db key) as [r|] eqn:E; [|discriminate].
    destruct (find_pk _ _ _ _ E) as [Hid _]. rewrite Hid.
    intros H. inversion H; subst db'; clear H.
    unfold crud.delete_payment, crud.get_payment. tables.
    rewrite find_delete. now rewrite String.eqb_refl.
  - unfold crud.delete_invoice at 1.
    destruct (crud.get_invoice db key) as [r|] eqn:E; [|discriminate].
    destruct (find_pk _ _ _ _ E) as [Hid _]. rewrite Hid.
    destruct (Invoice_payments db r); [|discriminate].
    intros H. inversion H; subst db'; clear H.
    unfold crud.delete_invoice, crud.get_invoice. tables.
    rewrite find_delete. now rewrite String.eqb_refl.
  - unfold crud.delete_customer at 1.
    destruct (crud.get_customer db key) as [r|] eqn:E; [|discriminate].
    destruct (find_pk _ _ _ _ E) as [Hid _]. rewrite Hid.
    destruct (Customer_invoices db r); [|discriminate].
    intros H. inversion H; subst db'; clear H.
    unfold crud.delete_customer, crud.get_customer. tables.
    rewrite find_delete. now rewrite String.eqb_refl.
  - unfold crud.delete_user at 1.
    destruct (crud.get_user db key) as [r|] eqn:E; [|discriminate].
    destruct (User_invoices db r); [|discriminate].
    destruct (User_payments db r); [|discriminate].
    intros H. inversion H; subst db'; clear H.
    unfold crud.delete_user, crud.get_user. tables.
    rewrite find_delete. now rewrite String.eqb_refl.
Qed.

Lemma delete_twice_witness :
  exists db',
    crud.delete_invoice_item ex_db "t2" = Ok (true, db')
    /\ crud.delete_invoice_item db' "t2" = Ok (false, db').
Proof.
  eexists. split; [reflexivity|].
  apply (proj1 (delete_twice ex_db _ "t2")). reflexivity.
Defined.

(** ** Round trips *)

Lemma delete_last {R} (pk : R -> string) (table : list R) (row : R) :
  find (fun r => pk r =? pk row) table = None ->
  delete pk (table ++ [row]) (pk row) = table.
Proof.
  intros H. apply find_none_iff in H. unfold delete.
  rewrite filter_app. fold (delete pk table (pk row)).
  rewrite delete_absent by exact H. cbn [filter].
  rewrite String.eqb_refl. cbn [negb]. apply app_nil_r.
Qed.

Lemma filter_filter {R} (f g : R -> bool) (l : list R) :
  filter f (filter g l) = filter (fun x => g x && f x) l.
Proof.
  induction l as [|x l IH]; simpl; [reflexivity|].
  destruct (g x); simpl; [|exact IH].
  destruct (f x); now rewrite IH.
Qed.
Lemma delete_all_filter {R} (pk : R -> string) (keys : list string)
      (table : list R) :
  delete_all pk table keys =
  filter (fun r => negb (existsb (String.eqb (pk r)) keys)) table.
Proof.
  unfold delete_all. revert table.
  induction keys as [|k keys IH]; intros table; cbn [fold_left existsb].
  - symmetry. apply filter_all. apply Forall_forall. reflexivity.
  - rewrite IH. unfold delete. rewrite filter_filter.
    apply filter_ext. intros r. now rewrite negb_orb.
Qed.

Lemma session_eta (db : Session) :
  mkSession (users db) (customers db) (invoices db) (invoice_items db)
            (payments db) = db.
Proof. now destruct db. Qed.

(** X3. Adding an item that can be stored to an existing invoice and deleting
    that item again gives back the item table and leaves the payments and
    the other invoices alone.  The invoice's [total_amount] is first raised
    by the item's total and then lowered by it, each time rounded to
    binary64. *)
Theorem add_then_delete_item
  (db : Session) (item : InvoiceItemCreate.t) (invoice_id uuid : string)
  (invoice : Invoice.t) (total_amount T T' raised : float) :
  crud.get_invoice db invoice_id = Some invoice ->
  Invoice.total_amount invoice = Some total_amount ->
  crud.get_invoice_item db uuid = None ->
  storable (InvoiceItemCreate.quantity item)
           (InvoiceItemCreate.unit_price item) = true ->
  int_mul (InvoiceItemCreate.quantity item) (InvoiceItemCreate.unit_price item)
  = Ok T ->
  Float T = Some T' ->
  Float (total_amount + T)%float = Some raised ->
  exists db_item db1 db2,
    crud.create_invoice_item db item invoice_id uuid = Ok (db_item, db1)
    /\ crud.get_invoice db1 invoice_id
       = Some (crud.set_total_amount invoice (Some raised))
    /\ crud.delete_invoice_item db1 uuid = Ok (true, db2)
    /\ invoice_items db2 = invoice_items db
    /\ payments db2 = payments db
    /\ crud.get_invoice db2 invoice_id
       = Some (crud.set_total_amount invoice (Float (raised - T')%float))
    /\ forall key,
         key <> invoice_id ->
         crud.get_invoice db2 key = crud.get_invoice db key.
Proof.
  intros Hinv Htotal Hfresh Hs Hmul HT Hraised.
  destruct (find_pk _ _ _ _ Hinv) as [Hid _].
  destruct (storable_inv _ _ Hs) as (T0 & p' & T0' & Hmul' & Hint & Hp & _).
  rewrite (create_invoice_item_ok db item invoice_id uuid invoice
             total_amount T p' T' Hinv Htotal Hfresh Hmul Hint Hp HT).
  rewrite Hraised.
  set (db_item := InvoiceItem.mk uuid invoice_id _ _ _ T').
  set (invoice1 := crud.set_total_amount invoice (Some raised)).
  set (db1 := set_invoice_items _ _).
  assert (H1 : crud.get_invoice_item db1 uuid = Some db_item).
  { unfold db1. queries. rewrite find_app.
    unfold crud.get_invoice_item in Hfresh. rewrite Hfresh.
    cbn [find db_item InvoiceItem.id]. now rewrite String.eqb_refl. }
  assert (H2 : crud.get_invoice db1 invoice_id = Some invoice1).
  { unfold db1. queries. rewrite find_update.
    cbn [invoice1 crud.set_total_amount Invoice.id].
    rewrite Hid, String.eqb_refl, Hinv. reflexivity. }
  exists db_item, db1. eexists. split; [reflexivity|]. split; [exact H2|].
  unfold crud.delete_invoice_item. rewrite H1.
  cbn [db_item InvoiceItem.invoice_id InvoiceItem.id InvoiceItem.total].
  rewrite H2. cbn [invoice1 crud.set_total_amount Invoice.total_amount].
  step. split; [reflexivity|]. unfold db1. tables.
  split; [|split; [reflexivity|split]].
  - apply (delete_last InvoiceItem.id (invoice_items db) db_item).
    exact Hfresh.
  - unfold crud.get_invoice. tables. rewrite !find_update.
    cbn [invoice1 crud.set_total_amount Invoice.id].
    unfold crud.get_invoice in Hinv.
    now rewrite Hid, String.eqb_refl, Hinv.
  - intros key Hkey. unfold crud.get_invoice. tables. rewrite !find_update.
    cbn [invoice1 crud.set_total_amount Invoice.id]. rewrite Hid.
    destruct (String.eqb_spec invoice_id key) as [E|_]; [|reflexivity].
    now contradiction Hkey.
Qed.

(** On the invoice of 250, a credit of 40 added and deleted again gives back
    250. *)
Lemma add_then_delete_item_witness :
  crud.get_invoice ex_db "i1" = Some ex_invoice1
  /\ crud.get_invoice_item ex_db "t8" = None
  /\ exists db_item db1 db2,
       crud.create_invoice_item ex_db
         (InvoiceItemCreate.mk "Credit" (-1) 40) "i1" "t8"
       = Ok (db_item, db1)
       /\ crud.delete_invoice_item db1 "t8" = Ok (true, db2)
       /\ invoice_items db2 = invoice_items ex_db
       /\ crud.get_invoice db2 "i1" = Some ex_invoice1.
Proof.
  assert (H1 : crud.get_invoice ex_db "i1" = Some ex_invoice1)
    by reflexivity.
  assert (H2 : crud.get_invoice_item ex_db "t8" = None) by reflexivity.
  split; [exact H1|]. split; [exact H2|].
  destruct (add_then_delete_item ex_db
              (InvoiceItemCreate.mk "Credit" (-1) 40) "i1" "t8"
              ex_invoice1 250%float (-40)%float (-40)%float 210%float
              H1 eq_refl H2)
    as (db_item & db1 & db2 & Hc & _ & Hd & Hitems & _ & Hget & _);
    try (vm_compute; reflexivity).
  exists db_item, db1, db2. split; [exact Hc|]. split; [exact Hd|].
  split; [exact Hitems|exact Hget].
Defined.

(** An item of 0.2 added to an invoice of 0.1 and deleted again leaves a
    total of 0.10000000000000003. *)
Lemma add_then_delete_rounded :
  option_map Invoice.total_amount
    (crud.get_invoice
       (run ex_db
          [CreateInvoice
             (InvoiceCreate.mk "c1" DRAFT
                [InvoiceItemCreate.mk "One tenth" 1 0.1])
             "u2" "i9" (fun _ => "t19")]) "i9")
  = Some (Some 0.1%float)
  /\ option_map Invoice.total_amount
       (crud.get_invoice
          (run ex_db
             [CreateInvoice
                (InvoiceCreate.mk "c1" DRAFT
                   [InvoiceItemCreate.mk "One tenth" 1 0.1])
                "u2" "i9" (fun _ => "t19");
              AddItem (InvoiceItemCreate.mk "Two tenths" 1 0.2) "i9" "t20";
              DeleteItem "t20"]) "i9")
     = Some (Some 0.10000000000000003%float).
Proof. split; vm_compute; reflexivity. Qed.

(** X4. Creating an invoice with items and deleting it again gives back the
    database, when the drawn identifiers are new and no item or payment row
    refers to the new invoice identifier: the creation returns when the
    items can be stored, and whenever it returns the deletion undoes it. *)
Theorem create_then_delete_invoice
  (db : Session) (invoice : InvoiceCreate.t) (user_id uuid : string)
  (uuids : nat -> string) :
  fresh_uuids db uuid uuids (length (InvoiceCreate.items invoice)) ->
  Forall (fun i => InvoiceItem.invoice_id i <> uuid) (invoice_items db) ->
  Forall (fun p => Payment.invoice_id p <> uuid) (payments db) ->
  (Forall (fun item => storable (InvoiceItemCreate.quantity item)
                                (InvoiceItemCreate.unit_price item) = true)
          (InvoiceCreate.items invoice) ->
   exists db_invoice db1,
     crud.create_invoice db invoice user_id uuid uuids
     = Ok (Some db_invoice, db1)
     /\ crud.delete_invoice db1 uuid = Ok (true, db))
  /\ (forall r db1,
         crud.create_invoice db invoice user_id uuid uuids = Ok (r, db1) ->
         crud.delete_invoice db1 uuid = Ok (true, db)).
Proof.
  intros Hfresh Hforeign Hpay.
  assert (Hundo : forall r db1,
             crud.create_invoice db invoice user_id uuid uuids = Ok (r, db1) ->
             crud.delete_invoice db1 uuid = Ok (true, db)).
  { intros r db1 Hc. destruct Hfresh as (Hinv & Hnd & Hitems).
    destruct (create_invoice_inv _ _ _ _ _ _ _ Hc)
      as (totals & db_items & _ & _ & _ & -> & _ & Hids & Hh & _).
    set (db_invoice := Invoice.mk uuid user_id _ _ _ _).
    set (db1 := set_invoice_items _ _).
    assert (Hget : crud.get_invoice db1 uuid = Some db_invoice).
    { unfold db1. queries. rewrite find_app.
      unfold crud.get_invoice in Hinv. rewrite Hinv.
      cbn [find db_invoice Invoice.id]. now rewrite String.eqb_refl. }
    unfold crud.delete_invoice. rewrite Hget.
    assert (Hp : Invoice_payments db1 db_invoice = []).
    { unfold Invoice_payments, db1. tables. apply filter_none.
      revert Hpay. apply Forall_impl. intros p Hp.
      cbn [db_invoice Invoice.id]. now apply String.eqb_neq. }
    rewrite Hp.
    assert (Hmine : Invoice_items db1 db_invoice = db_items).
    { unfold db1.
      apply (created_items db db_invoice (InvoiceCreate.items invoice));
        assumption. }
    rewrite Hmine. unfold db1. tables.
    assert (E1 : delete Invoice.id (invoices db ++ [db_invoice])
                        (Invoice.id db_invoice) = invoices db).
    { apply (delete_last Invoice.id (invoices db) db_invoice). exact Hinv. }
    assert (E2 : delete_all InvoiceItem.id (invoice_items db ++ db_items)
                            (map InvoiceItem.id db_items) = invoice_items db);
      [|rewrite E1, E2; now rewrite session_eta].
    rewrite delete_all_filter, filter_app.
    rewrite (filter_all _ (invoice_items db)), (filter_none _ db_items).
    + apply app_nil_r.
    + apply Forall_forall. intros r' Hr. apply negb_false_iff.
      apply existsb_exists. exists (InvoiceItem.id r').
      split; [now apply in_map|apply String.eqb_refl].
    + apply Forall_forall. intros r' Hr. apply negb_true_iff.
      destruct (existsb _ _) eqn:E; [|reflexivity]. exfalso.
      apply existsb_exists in E. destruct E as (key & Hkey & E).
      apply String.eqb_eq in E. subst key. rewrite Hids in Hkey.
      apply in_map_iff in Hkey. destruct Hkey as (k & Hk & Hin).
      apply in_seq in Hin.
      assert (Hf := Hitems k ltac:(lia)). unfold crud.get_invoice_item in Hf.
      apply find_none_iff in Hf. apply Hf. rewrite Hk. now apply in_map. }
  split; [|exact Hundo].
  intros Hs.
  destruct (create_invoice_returns db invoice user_id uuid uuids Hfresh Hs)
    as (r & db1 & Hc).
  destruct (create_invoice_inv _ _ _ _ _ _ _ Hc)
    as (totals & db_items & _ & _ & Hr & _).
  subst r. eexists. exists db1. split; [exact Hc|]. exact (Hundo _ _ Hc).
Qed.

Lemma create_then_delete_invoice_witness :
  fresh_uuids ex_db "i4" ex_uuids 2
  /\ Forall (fun i => InvoiceItem.invoice_id i <> "i4") (invoice_items ex_db)
  /\ Forall (fun p => Payment.invoice_id p <> "i4") (payments ex_db)
  /\ exists db_invoice db1,
       crud.create_invoice ex_db ex_new_invoice "u2" "i4" ex_uuids
       = Ok (Some db_invoice, db1)
       /\ crud.delete_invoice db1 "i4" = Ok (true, ex_db).
Proof.
  assert (H1 : Forall (fun i => InvoiceItem.invoice_id i <> "i4")
                      (invoice_items ex_db))
    by (repeat constructor; discriminate).
  assert (H2 : Forall (fun p => Payment.invoice_id p <> "i4")
                      (payments ex_db))
    by (repeat constructor; discriminate).
  split; [exact ex_uuids_fresh|]. split; [exact H1|]. split; [exact H2|].
  apply (create_then_delete_invoice ex_db ex_new_invoice "u2" "i4" ex_uuids
           ex_uuids_fresh H1 H2).
  repeat constructor.
Defined.

(** ** What the accounting operations leave alone *)

Lemma create_invoice_item_effect db item invoice_id uuid :
  let db' := after db (crud.create_invoice_item db item invoice_id uuid) in
  users db' = users db /\ customers db' = customers db
  /\ payments db' = payments db /\ retotalled db (invoices db').
Proof.
  cbv zeta.
  destruct (crud.create_invoice_item db item invoice_id uuid)
    as [[db_item db']|e] eqn:Hc; cbn [after];
    [|repeat split; now left].
  destruct (create_invoice_item_inv _ _ _ _ _ _ Hc)
    as (T & invoices' & _ & _ & _ & _ & _ & -> & Hinv).
  repeat split. tables.
  now apply (retotalled_update db invoice_id invoices'
               (fun total_amount => Float (total_amount + T)%float)).
Qed.

Lemma update_invoice_item_effect db item_id item_update :
  let db' := after db (crud.update_invoice_item db item_id item_update) in
  users db' = users db /\ customers db' = customers db
  /\ payments db' = payments db /\ retotalled db (invoices db').
Proof.
  cbv zeta.
  destruct (crud.get_invoice_item db item_id) as [db_item|] eqn:Hitem.
  - destruct (crud.update_invoice_item db item_id item_update)
      as [[r db']|e] eqn:Hc; cbn [after]; [|repeat split; now left].
    destruct (update_invoice_item_inv _ _ _ _ _ _ Hitem Hc)
      as (db_item' & total & invoices' & _ & _ & _ & _ & _ & -> & Hinv).
    repeat split. tables.
    now apply (retotalled_update db (InvoiceItem.invoice_id db_item) invoices'
                 (fun total_amount =>
                    Float (total_amount - InvoiceItem.total db_item
                           + total)%float)).
  - unfold crud.update_invoice_item. rewrite Hitem. repeat split. now left.
Qed.

Lemma delete_invoice_item_effect db item_id :
  let db' := after db (crud.delete_invoice_item db item_id) in
  users db' = users db /\ customers db' = customers db
  /\ payments db' = payments db /\ retotalled db (invoices db').
Proof.
  cbv zeta.
  destruct (crud.get_invoice_item db item_id) as [db_item|] eqn:Hitem.
  - destruct (crud.delete_invoice_item db item_id)
      as [[r db']|e] eqn:Hc; cbn [after]; [|repeat split; now left].
    destruct (delete_invoice_item_inv _ _ _ _ _ Hitem Hc)
      as (invoices' & _ & -> & Hinv).
    repeat split. tables.
    now apply (retotalled_update db (InvoiceItem.invoice_id db_item) invoices'
                 (fun total_amount =>
                    Float (total_amount
                           - InvoiceItem.total db_item)%float)).
  - unfold crud.delete_invoice_item. rewrite Hitem. repeat split. now left.
Qed.

Lemma create_invoice_effect db invoice user_id uuid uuids :
  let db' := after db (crud.create_invoice db invoice user_id uuid uuids) in
  users db' = users db /\ customers db' = customers db
  /\ payments db' = payments db
  /\ (invoices db' = invoices db
      \/ exists total_amount,
           invoices db' =
           invoices db
           ++ [Invoice.mk uuid user_id (InvoiceCreate.customer_id invoice)
                          (Some (InvoiceCreate.status invoice)) total_amount
                          (Some false)]).
Proof.
  cbv zeta.
  destruct (crud.create_invoice db invoice user_id uuid uuids)
    as [[r db']|e] eqn:Hc; cbn [after]; [|repeat split; now left].
  destruct (create_invoice_inv _ _ _ _ _ _ _ Hc)
    as (totals & db_items & _ & _ & _ & -> & _).
  repeat split. right. eexists. reflexivity.
Qed.

(** [create_payment] changes at most the status and [is_paid] of the invoice
    it names. *)
Lemma create_payment_effect db payment user_id uuid :
  let db' := after db (crud.create_payment db payment user_id uuid) in
  users db' = users db /\ customers db' = customers db
  /\ invoice_items db' = invoice_items db
  /\ (invoices db' = invoices db
      \/ exists invoice,
           crud.get_invoice db (PaymentCreate.invoice_id payment)
           = Some invoice
           /\ invoices db' =
              update Invoice.id (invoices db)
                     (Invoice.mk (Invoice.id invoice) (Invoice.user_id invoice)
                                 (Invoice.customer_id invoice) (Some PAID)
                                 (Invoice.total_amount invoice) (Some true))).
Proof.
  cbv zeta. unfold crud.create_payment.
  destruct (PaymentStatus_eqb _ _); step.
  - destruct (crud.get_invoice db _) as [invoice|] eqn:Hinv; step.
    + destruct (Invoice.total_amount invoice) as [total_amount|] eqn:Ht;
        step; [|repeat split; now left].
      destruct (_ <=? _)%float; step;
        (destruct (Float _); step; [|repeat split; now left]);
        (destruct (insert _ _ _); step; cbn [after];
         [|repeat split; now left]);
        repeat split; [right|now left].
      exists invoice. rewrite Ht. split; reflexivity.
    + destruct (Float _); step; [|repeat split; now left].
      destruct (insert _ _ _); step; cbn [after]; repeat split; now left.
  - destruct (Float _); step; [|repeat split; now left].
    destruct (insert _ _ _); step; cbn [after]; repeat split; now left.
Qed.

(** ** Requests and the calls they commit *)

(** A handler that passes the answer of the CRUD layer on commits what the
    call has committed, or nothing. *)
Lemma after_found {A} (db : Session) (r : result (option A * Session))
      (detail : string) :
  after db ('(a, db') <- r ;;
            match a with
            | None => not_found detail
            | Some a => Ok (a, db')
            end) = db
  \/ after db ('(a, db') <- r ;;
               match a with
               | None => not_found detail
               | Some a => Ok (a, db')
               end) = after db r.
Proof. destruct r as [[[a|] db']|e]; cbn [bind after not_found]; auto. Qed.

Lemma after_deleted {B} (db : Session) (r : result (bool * Session))
      (detail : string) (b : B) :
  after db ('(success, db') <- r ;;
            if negb success then not_found detail else Ok (b, db')) = db
  \/ after db ('(success, db') <- r ;;
               if negb success then not_found detail else Ok (b, db'))
     = after db r.
Proof.
  destruct r as [[[|] db']|e]; cbn [bind after not_found negb]; auto.
Qed.

Section Invariant.

Variable get_password_hash : string -> string.
Variable P : Session -> Prop.

Hypothesis create_invoice_P :
  forall db invoice user_id uuid uuids,
    crud.get_customer db (InvoiceCreate.customer_id invoice) <> None ->
    P db -> P (after db (crud.create_invoice db invoice user_id uuid uuids)).
Hypothesis create_invoice_item_P :
  forall db item invoice_id uuid,
    P db -> P (after db (crud.create_invoice_item db item invoice_id uuid)).
Hypothesis update_invoice_item_P :
  forall db item_id item_update,
    P db -> P (after db (crud.update_invoice_item db item_id item_update)).
Hypothesis delete_invoice_item_P :
  forall db item_id,
    P db -> P (after db (crud.delete_invoice_item db item_id)).
Hypothesis update_invoice_P :
  forall db invoice_id invoice_update,
    (forall customer_id,
        value (InvoiceUpdate.customer_id invoice_update) = Some customer_id ->
        crud.get_customer db customer_id <> None) ->
    P db -> P (after db (crud.update_invoice db invoice_id invoice_update)).
Hypothesis delete_invoice_P :
  forall db invoice_id,
    P db -> P (after db (crud.delete_invoice db invoice_id)).
Hypothesis create_payment_P :
  forall db payment user_id uuid,
    P db -> P (after db (crud.create_payment db payment user_id uuid)).
Hypothesis update_payment_P :
  forall db payment_id payment_update,
    P db -> P (after db (crud.update_payment db payment_id payment_update)).
Hypothesis delete_payment_P :
  forall db payment_id,
    P db -> P (after db (crud.delete_payment db payment_id)).
Hypothesis create_customer_P :
  forall db customer uuid,
    P db -> P (after db (crud.create_customer db customer uuid)).
Hypothesis update_customer_P :
  forall db customer_id customer_update,
    P db ->
    P (after db (crud.update_customer db customer_id customer_update)).
Hypothesis delete_customer_P :
  forall db customer_id,
    P db -> P (after db (crud.delete_customer db customer_id)).
Hypothesis create_user_P :
  forall db user uuid,
    P db -> P (after db (crud.create_user get_password_hash db user uuid)).
Hypothesis update_user_P :
  forall db user_id user_update,
    P db -> P (after db (crud.update_user db user_id user_update)).
Hypothesis delete_user_P :
  forall db user_id,
    P db -> P (after db (crud.delete_user db user_id)).

(** A property that every call of the CRUD layer keeps is kept by every
    request: a request that is refused commits nothing, the others commit
    one call. *)
Lemma handle_invariant (db : Session) (request : User.t * item_request) :
  P db -> P (handle db request).
Proof.
  intros H. destruct request as [current_user request].
  destruct request as [invoice uuid uuids|invoice_id item uuid
                      |item_id item_update|item_id]; cbn [handle].
  - unfold invoices_router.create_invoice.
    destruct (crud.get_customer db _) eqn:E; [|exact H].
    apply create_invoice_P; [|exact H]. now rewrite E.
  - unfold invoices_router.create_invoice_item.
    destruct (crud.get_invoice db invoice_id); [|exact H].
    destruct (not_permitted _ _); [exact H|].
    now apply create_invoice_item_P.
  - unfold invoices_router.update_invoice_item.
    destruct (crud.get_invoice_item db item_id); [|exact H].
    destruct (invoices_router.item_permission _ _ _); [|exact H].
    cbn [bind].
    destruct (after_found db (crud.update_invoice_item db item_id item_update)
                "Invoice item not found") as [-> | ->];
      [exact H|now apply update_invoice_item_P].
  - unfold invoices_router.delete_invoice_item.
    destruct (crud.get_invoice_item db item_id); [|exact H].
    destruct (invoices_router.item_permission _ _ _); [|exact H].
    cbn [bind].
    destruct (after_deleted db (crud.delete_invoice_item db item_id)
                "Invoice item not found" tt) as [-> | ->];
      [exact H|now apply delete_invoice_item_P].
Qed.

Lemma respond_invariant (db : Session) (request : User.t * api_request) :
  P db -> P (respond get_password_hash db request).
Proof.
  intros H. destruct request as [current_user request].
  destruct request; cbn [respond].
  - now apply handle_invariant.
  - unfold invoices_router.update_invoice.
    destruct (crud.get_invoice db invoice_id); [|exact H].
    destruct (not_permitted _ _); [exact H|].
    destruct (value _) as [c|] eqn:Hv.
    + destruct (crud.get_customer db c) eqn:Hc; cbn [bind not_found after];
        [|exact H].
      apply update_invoice_P; [|exact H].
      intros c' Hc'. rewrite Hv in Hc'. inversion Hc'; subst c'.
      now rewrite Hc.
    + cbn [bind]. apply update_invoice_P; [|exact H].
      intros c' Hc'. rewrite Hv in Hc'. discriminate.
  - unfold invoices_router.delete_invoice.
    destruct (crud.get_invoice db invoice_id); [|exact H].
    destruct (not_permitted _ _); [exact H|].
    destruct (after_deleted db (crud.delete_invoice db invoice_id)
                "Invoice not found" tt) as [-> | ->];
      [exact H|now apply delete_invoice_P].
  - unfold payments_router.create_payment.
    destruct (crud.get_invoice db _); [|exact H].
    destruct (not_permitted _ _); [exact H|].
    now apply create_payment_P.
  - unfold payments_router.update_payment.
    destruct (crud.get_payment db payment_id); [|exact H].
    destruct (not_permitted _ _); [exact H|].
    now apply update_payment_P.
  - unfold payments_router.delete_payment.
    destruct (crud.get_payment db payment_id); [|exact H].
    destruct (not_permitted _ _); [exact H|].
    destruct (after_deleted db (crud.delete_payment db payment_id)
                "Payment not found" "Payment deleted successfully")
      as [-> | ->]; [exact H|now apply delete_payment_P].
  - unfold customers_router.create_customer. now apply create_customer_P.
  - unfold customers_router.update_customer.
    destruct (after_found db
                (crud.update_customer db customer_id customer_update)
                "Customer not found") as [-> | ->];
      [exact H|now apply update_customer_P].
  - unfold customers_router.delete_customer.
    destruct (after_deleted db (crud.delete_customer db customer_id)
                "Customer not found" "Customer deleted successfully")
      as [-> | ->]; [exact H|now apply delete_customer_P].
  - unfold auth_router.register.
    destruct (crud.get_user_by_email db _); [exact H|].
    now apply create_user_P.
  - unfold users_router.update_user.
    destruct (users_router.not_self _ _); [exact H|].
    destruct (match value _ with Some _ => _ | None => _ end); [exact H|].
    destruct (after_found db (crud.update_user db user_id user_update)
                "User not found") as [-> | ->];
      [exact H|now apply update_user_P].
  - unfold users_router.delete_user.
    destruct (auth.get_current_super_admin current_user); [|exact H].
    cbn [bind].
    destruct (after_deleted db (crud.delete_user db user_id)
                "User not found" tt) as [-> | ->];
      [exact H|now apply delete_user_P].
Qed.

Lemma requests_invariant (db : Session)
      (requests : list (User.t * api_request)) :
  P db -> P (fold_left (respond get_password_hash) requests db).
Proof.
  revert db. induction requests as [|request requests IH]; intros db H;
    [exact H|].
  cbn [fold_left]. apply IH. now apply respond_invariant.
Qed.

End Invariant.

(** ** The item equation under the requests of the API *)

Lemma Forall_delete_all {R} (pk : R -> string) (P : R -> Prop)
      (table : list R) (keys : list string) :
  Forall P table -> Forall P (delete_all pk table keys).
Proof.
  intros H. apply Forall_forall. intros r Hr. apply in_delete_all in Hr.
  destruct Hr as [Hr _]. revert r Hr. now apply Forall_forall.
Qed.

(** Deleting an invoice takes items away; no other call outside the item
    operations touches the item table. *)
Lemma delete_invoice_items_ok db invoice_id :
  Forall item_ok (invoice_items db) ->
  Forall item_ok (invoice_items (after db (crud.delete_invoice db invoice_id))).
Proof.
  intros H. unfold crud.delete_invoice.
  destruct (crud.get_invoice db invoice_id); [|exact H].
  destruct (Invoice_payments db _); [|exact H].
  cbn [after]. tables. now apply Forall_delete_all.
Qed.

Lemma update_invoice_items db invoice_id invoice_update :
  invoice_items (after db (crud.update_invoice db invoice_id invoice_update))
  = invoice_items db.
Proof. unfold crud.update_invoice. case_split. Qed.

Lemma create_payment_items db payment user_id uuid :
  invoice_items (after db (crud.create_payment db payment user_id uuid))
  = invoice_items db.
Proof. apply create_payment_effect. Qed.

Lemma update_payment_items db payment_id payment_update :
  invoice_items (after db (crud.update_payment db payment_id payment_update))
  = invoice_items db.
Proof. unfold crud.update_payment. case_split. Qed.

Lemma delete_payment_items db payment_id :
  invoice_items (after db (crud.delete_payment db payment_id))
  = invoice_items db.
Proof. unfold crud.delete_payment. case_split. Qed.

Lemma create_customer_items db customer uuid :
  invoice_items (after db (crud.create_customer db customer uuid))
  = invoice_items db.
Proof. unfold crud.create_customer. case_split. Qed.

Lemma update_customer_items db customer_id customer_update :
  invoice_items
    (after db (crud.update_customer db customer_id customer_update))
  = invoice_items db.
Proof. unfold crud.update_customer. case_split. Qed.

Lemma delete_customer_items db customer_id :
  invoice_items (after db (crud.delete_customer db customer_id))
  = invoice_items db.
Proof. unfold crud.delete_customer. case_split. Qed.

Lemma create_user_items get_password_hash db user uuid :
  invoice_items (after db (crud.create_user get_password_hash db user uuid))
  = invoice_items db.
Proof. unfold crud.create_user. case_split. Qed.

Lemma update_user_items db user_id user_update :
  invoice_items (after db (crud.update_user db user_id user_update))
  = invoice_items db.
Proof. unfold crud.update_user. case_split. Qed.

Lemma delete_user_items db user_id :
  invoice_items (after db (crud.delete_user db user_id)) = invoice_items db.
Proof. unfold crud.delete_user. case_split. Qed.

(** X5. No sequence of writing requests to the API, by whatever callers,
    breaks the item equation: if the total of every item is what its column
    keeps of quantity * unit_price, the same holds after the requests. *)
Theorem api_keeps_totals (get_password_hash : string -> string)
        (db : Session) (requests : list (User.t * api_request)) :
  Forall item_ok (invoice_items db) ->
  let db' := fold_left (respond get_password_hash) requests db in
  forall item,
    In item (invoice_items db') ->
    exists product,
      int_mul (InvoiceItem.quantity item) (InvoiceItem.unit_price item)
      = Ok product
      /\ Float product = Some (InvoiceItem.total item).
Proof.
  intros H db'. apply Forall_forall. subst db'. revert H.
  apply (requests_invariant get_password_hash
           (fun db => Forall item_ok (invoice_items db))); intros.
  - now apply create_invoice_items_ok.
  - now apply create_invoice_item_items_ok.
  - now apply update_invoice_item_items_ok.
  - now apply delete_invoice_item_items_ok.
  - now rewrite update_invoice_items.
  - now apply delete_invoice_items_ok.
  - now rewrite create_payment_items.
  - now rewrite update_payment_items.
  - now rewrite delete_payment_items.
  - now rewrite create_customer_items.
  - now rewrite update_customer_items.
  - now rewrite delete_customer_items.
  - now rewrite create_user_items.
  - now rewrite update_user_items.
  - now rewrite delete_user_items.
Qed.

Lemma api_keeps_totals_witness :
  Forall item_ok (invoice_items ex_db)
  /\ (forall item,
         In item (invoice_items (fold_left (respond (fun password => password))
                                           ex_requests ex_db)) ->
         exists product,
           int_mul (InvoiceItem.quantity item) (InvoiceItem.unit_price item)
           = Ok product
           /\ Float product = Some (InvoiceItem.total item))
  /\ map (fun item => (InvoiceItem.id item, InvoiceItem.quantity item,
                       InvoiceItem.total item))
         (invoice_items (fold_left (respond (fun password => password))
                                   ex_requests ex_db))
     = [("t1", 3%Z, 300%float); ("t2", 1%Z, 50%float); ("t3", 1%Z, 80%float)].
Proof.
  split; [exact ex_db_items_ok|]. split.
  - exact (api_keeps_totals (fun password => password) ex_db ex_requests
             ex_db_items_ok).
  - vm_compute. reflexivity.
Defined.

(** * Further properties of the handlers *)

(** ** Missing entities *)

(** X6. A request on an invoice, payment, item or customer that does not
    exist is answered 404 whoever the caller is, before any ownership test;
    so is a payment or an item for an invoice that does not exist, and an
    invoice for a customer that does not exist.  For a user record the order
    is the other way round: a caller who is neither a super-admin nor the
    subject gets 403 for an identifier that does not exist, a super-admin
    gets 404. *)
Theorem missing_entity_responses (db : Session) (current_user : User.t) :
  (forall invoice_id,
      crud.get_invoice db invoice_id = None ->
      raises_status HTTP_404_NOT_FOUND
        (invoices_router.read_invoice db invoice_id current_user) = true
      /\ (forall invoice_update,
             raises_status HTTP_404_NOT_FOUND
               (invoices_router.update_invoice db invoice_id invoice_update
                                               current_user) = true)
      /\ raises_status HTTP_404_NOT_FOUND
           (invoices_router.delete_invoice db invoice_id current_user) = true
      /\ (forall item uuid,
             raises_status HTTP_404_NOT_FOUND
               (invoices_router.create_invoice_item db invoice_id item
                                                    current_user uuid) = true)
      /\ (forall payment uuid,
             PaymentCreate.invoice_id payment = invoice_id ->
             raises_status HTTP_404_NOT_FOUND
               (payments_router.create_payment db payment current_user uuid)
             = true))
  /\ (forall payment_id,
         crud.get_payment db payment_id = None ->
         raises_status HTTP_404_NOT_FOUND
           (payments_router.read_payment db payment_id current_user) = true
         /\ (forall payment_update,
                raises_status HTTP_404_NOT_FOUND
                  (payments_router.update_payment db payment_id payment_update
                                                  current_user) = true)
         /\ raises_status HTTP_404_NOT_FOUND
              (payments_router.delete_payment db payment_id current_user)
            = true)
  /\ (forall item_id,
         crud.get_invoice_item db item_id = None ->
         (forall item_update,
             raises_status HTTP_404_NOT_FOUND
               (invoices_router.update_invoice_item db item_id item_update
                                                    current_user) = true)
         /\ raises_status HTTP_404_NOT_FOUND
              (invoices_router.delete_invoice_item db item_id current_user)
            = true)
  /\ (forall customer_id,
         crud.get_customer db customer_id = None ->
         raises_status HTTP_404_NOT_FOUND
           (customers_router.read_customer db customer_id current_user) = true
         /\ (forall customer_update,
                raises_status HTTP_404_NOT_FOUND
                  (customers_router.update_customer db customer_id
                     customer_update current_user) = true)
         /\ raises_status HTTP_404_NOT_FOUND
              (customers_router.delete_customer db customer_id current_user)
            = true
         /\ (forall invoice uuid uuids,
                InvoiceCreate.customer_id invoice = customer_id ->
                raises_status HTTP_404_NOT_FOUND
                  (invoices_router.create_invoice db invoice current_user
                                                  uuid uuids) = true))
  /\ (forall user_id,
         crud.get_user db user_id = None ->
         (stranger current_user user_id ->
          raises_status HTTP_403_FORBIDDEN
            (users_router.read_user db user_id current_user) = true
          /\ forall user_update,
               raises_status HTTP_403_FORBIDDEN
                 (users_router.update_user db user_id user_update
                                           current_user) = true)
         /\ (truthy (User.is_super_admin current_user) = true ->
             raises_status HTTP_404_NOT_FOUND
               (users_router.read_user db user_id current_user) = true
             /\ (forall user_update,
                    raises_status HTTP_404_NOT_FOUND
                      (users_router.update_user db user_id user_update
                                                current_user) = true)
             /\ raises_status HTTP_404_NOT_FOUND
                  (users_router.delete_user db user_id current_user)
                = true)).
Proof.
  split; [|split; [|split; [|split]]].
  - intros invoice_id H.
    unfold invoices_router.read_invoice, invoices_router.update_invoice,
      invoices_router.delete_invoice, invoices_router.create_invoice_item,
      payments_router.create_payment.
    rewrite H. repeat split; try reflexivity.
    intros payment uuid ->. now rewrite H.
  - intros payment_id H.
    unfold payments_router.read_payment, payments_router.update_payment,
      payments_router.delete_payment.
    rewrite H. repeat split; reflexivity.
  - intros item_id H.
    unfold invoices_router.update_invoice_item,
      invoices_router.delete_invoice_item.
    rewrite H. repeat split; reflexivity.
  - intros customer_id H.
    unfold customers_router.read_customer, customers_router.update_customer,
      customers_router.delete_customer, invoices_router.create_invoice,
      crud.update_customer, crud.delete_customer.
    rewrite H. repeat split; try reflexivity.
    intros invoice uuid uuids ->. now rewrite H.
  - intros user_id H.
    unfold users_router.read_user, users_router.update_user,
      users_router.delete_user, auth.get_current_super_admin,
      crud.update_user, crud.delete_user.
    rewrite H. split.
    + intros Hs. apply not_self_spec in Hs. rewrite Hs.
      split; reflexivity.
    + intros Ha. unfold users_router.not_self. rewrite Ha.
      rewrite andb_false_r. cbn [negb]. repeat split; try reflexivity.
      intros user_update.
      destruct (value (UserUpdate.is_super_admin user_update)); reflexivity.
Qed.

Lemma missing_entity_responses_witness :
  crud.get_invoice ex_db "i9" = None
  /\ stranger ex_bob "u9"
  /\ crud.get_user ex_db "u9" = None
  /\ raises_status HTTP_404_NOT_FOUND
       (invoices_router.read_invoice ex_db "i9" ex_bob) = true
  /\ raises_status HTTP_403_FORBIDDEN
       (users_router.read_user ex_db "u9" ex_bob) = true
  /\ raises_status HTTP_404_NOT_FOUND
       (users_router.read_user ex_db "u9" ex_root) = true.
Proof.
  assert (H1 : crud.get_invoice ex_db "i9" = None) by reflexivity.
  assert (H2 : stranger ex_bob "u9") by (split; [reflexivity|discriminate]).
  assert (H3 : crud.get_user ex_db "u9" = None) by reflexivity.
  split; [exact H1|]. split; [exact H2|]. split; [exact H3|].
  destruct (missing_entity_responses ex_db ex_bob)
    as (Hinv & _ & _ & _ & Huser).
  destruct (missing_entity_responses ex_db ex_root)
    as (_ & _ & _ & _ & Huser_r).
  split; [exact (proj1 (Hinv "i9" H1))|].
  split; [exact (proj1 (proj1 (Huser "u9" H3) H2))|].
  exact (proj1 (proj2 (Huser_r "u9" H3) eq_refl)).
Defined.

(** ** Items: who may change them *)

Lemma crud_create_invoice_item_403 db item invoice_id uuid :
  is_forbidden (crud.create_invoice_item db item invoice_id uuid) = false.
Proof.
  unfold crud.create_invoice_item, int_mul, of_int, crud.bound, crud.stored,
    bind.
  case_split.
Qed.

Lemma crud_update_invoice_item_403 db item_id item_update :
  is_forbidden (crud.update_invoice_item db item_id item_update) = false.
Proof.
  unfold crud.update_invoice_item, int_mul, of_int, bind. case_split.
Qed.

Lemma crud_delete_invoice_item_403 db item_id :
  is_forbidden (crud.delete_invoice_item db item_id) = false.
Proof. unfold crud.delete_invoice_item. case_split. Qed.

Lemma item_permission_spec (db : Session) (db_item : InvoiceItem.t)
      (invoice : Invoice.t) (current_user : User.t) :
  crud.get_invoice db (InvoiceItem.invoice_id db_item) = Some invoice ->
  invoices_router.item_permission db db_item current_user =
  if not_permitted current_user (Invoice.user_id invoice)
  then forbidden "Not enough permissions" else Ok tt.
Proof.
  intros H. unfold invoices_router.item_permission, not_permitted.
  rewrite H. destruct (truthy _); cbn [negb andb]; [reflexivity|].
  destruct (Invoice.user_id invoice =? User.id current_user); reflexivity.
Qed.

(** X7. Adding an item to an existing invoice, and updating or deleting an
    item of an existing invoice, raise Forbidden exactly when the caller is
    neither a super-admin nor the owner of that invoice; the owner's or a
    super-admin's addition is the CRUD call.  When every item belongs to an
    invoice of the table, the two item handlers never fail with
    [AttributeError] on a missing invoice. *)
Theorem item_handlers_authorization (db : Session) (current_user : User.t) :
  (forall invoice_id invoice item uuid,
      crud.get_invoice db invoice_id = Some invoice ->
      (is_forbidden (invoices_router.create_invoice_item
                       db invoice_id item current_user uuid) = true
       <-> stranger current_user (Invoice.user_id invoice))
      /\ (truthy (User.is_super_admin current_user) = true
          \/ Invoice.user_id invoice = User.id current_user ->
          invoices_router.create_invoice_item db invoice_id item
                                              current_user uuid
          = crud.create_invoice_item db item invoice_id uuid))
  /\ (forall item_id db_item invoice,
         crud.get_invoice_item db item_id = Some db_item ->
         crud.get_invoice db (InvoiceItem.invoice_id db_item) = Some invoice ->
         (forall item_update,
             is_forbidden (invoices_router.update_invoice_item
                             db item_id item_update current_user) = true
             <-> stranger current_user (Invoice.user_id invoice))
         /\ (is_forbidden (invoices_router.delete_invoice_item
                             db item_id current_user) = true
             <-> stranger current_user (Invoice.user_id invoice)))
  /\ (Forall (fun item =>
                 crud.get_invoice db (InvoiceItem.invoice_id item) <> None)
              (invoice_items db) ->
      forall item_id,
        (forall item_update,
            invoices_router.update_invoice_item db item_id item_update
                                                current_user
            <> Raise AttributeError)
        /\ invoices_router.delete_invoice_item db item_id current_user
           <> Raise AttributeError).
Proof.
  split; [|split].
  - intros invoice_id invoice item uuid Hinv.
    unfold invoices_router.create_invoice_item. rewrite Hinv.
    destruct (stranger_dec current_user (Invoice.user_id invoice))
      as [[E Hs]|[E Hs]]; rewrite E.
    + split; [now apply decide_true|].
      intros H. apply not_stranger in H. congruence.
    + split; [|reflexivity]. apply decide_false; [|exact Hs].
      apply crud_create_invoice_item_403.
  - intros item_id db_item invoice Hitem Hinv.
    unfold invoices_router.update_invoice_item,
      invoices_router.delete_invoice_item.
    rewrite Hitem, (item_permission_spec db db_item invoice _ Hinv).
    destruct (stranger_dec current_user (Invoice.user_id invoice))
      as [[E Hs]|[E Hs]]; rewrite E; cbn [bind forbidden].
    + split; [intros; now apply decide_true|now apply decide_true].
    + split; [intros item_update|]; (apply decide_false; [|exact Hs]).
      * apply bind_404; [apply crud_update_invoice_item_403|].
        intros [[] db']; reflexivity.
      * apply bind_404; [apply crud_delete_invoice_item_403|].
        intros [[] db']; reflexivity.
  - intros Hown item_id. rewrite Forall_forall in Hown.
    unfold invoices_router.update_invoice_item,
      invoices_router.delete_invoice_item.
    destruct (crud.get_invoice_item db item_id) as [db_item|] eqn:Hitem;
      [|split; [intros|]; discriminate].
    destruct (find_pk _ _ _ _ Hitem) as [_ Hin].
    specialize (Hown db_item Hin).
    destruct (crud.get_invoice db (InvoiceItem.invoice_id db_item))
      as [invoice|] eqn:Hinv; [|contradiction].
    rewrite (item_permission_spec db db_item invoice _ Hinv).
    destruct (not_permitted _ _); cbn [bind forbidden];
      [split; [intros|]; discriminate|].
    split; [intros item_update|].
    + unfold crud.update_invoice_item, int_mul, of_int. rewrite Hitem, Hinv.
      case_split; discriminate.
    + unfold crud.delete_invoice_item. rewrite Hitem, Hinv. case_split;
        discriminate.
Qed.

Lemma item_handlers_authorization_witness :
  crud.get_invoice_item ex_db "t1" = Some ex_item1
  /\ crud.get_invoice ex_db "i1" = Some ex_invoice1
  /\ stranger ex_bob (Invoice.user_id ex_invoice1)
  /\ Forall (fun item =>
               crud.get_invoice ex_db (InvoiceItem.invoice_id item) <> None)
            (invoice_items ex_db)
  /\ is_forbidden (invoices_router.delete_invoice_item ex_db "t1" ex_bob)
     = true
  /\ invoices_router.delete_invoice_item ex_db "t1" ex_alice
     <> Raise AttributeError.
Proof.
  assert (H1 : crud.get_invoice_item ex_db "t1" = Some ex_item1)
    by reflexivity.
  assert (H2 : crud.get_invoice ex_db "i1" = Some ex_invoice1)
    by reflexivity.
  assert (H3 : stranger ex_bob (Invoice.user_id ex_invoice1))
    by (split; [reflexivity|discriminate]).
  assert (H4 : Forall (fun item =>
                         crud.get_invoice ex_db (InvoiceItem.invoice_id item)
                         <> None) (invoice_items ex_db))
    by (repeat constructor; discriminate).
  split; [exact H1|]. split; [exact H2|]. split; [exact H3|].
  split; [exact H4|].
  destruct (item_handlers_authorization ex_db ex_bob) as (_ & Hb & _).
  destruct (item_handlers_authorization ex_db ex_alice) as (_ & _ & Ha).
  split.
  - apply (proj2 (Hb "t1" ex_item1 ex_invoice1 H1 H2)). exact H3.
  - exact (proj2 (Ha H4 "t1")).
Defined.

(** ** Payments: who recorded them *)

(** [create_payment] returns when the amount is a number and, for a
    completed payment, the invoice has a [total_amount]. *)
Lemma create_payment_returns
  (db : Session) (payment : PaymentCreate.t) (user_id uuid : string)
  (invoice : Invoice.t) (amount : float) :
  crud.get_invoice db (PaymentCreate.invoice_id payment) = Some invoice ->
  crud.get_payment db uuid = None ->
  Float (PaymentCreate.amount payment) = Some amount ->
  (PaymentCreate.status payment = COMPLETED ->
   Invoice.total_amount invoice <> None) ->
  exists invoices',
    crud.create_payment db payment user_id uuid
    = Ok (Payment.mk uuid user_id (PaymentCreate.invoice_id payment) amount
                     (PaymentCreate.method payment)
                     (Some (PaymentCreate.status payment)),
          set_payments (set_invoices db invoices')
            (payments db
             ++ [Payment.mk uuid user_id (PaymentCreate.invoice_id payment)
                            amount (PaymentCreate.method payment)
                            (Some (PaymentCreate.status payment))])).
Proof.
  intros Hinv Hfresh Hamount Htotal.
  destruct (Invoice.total_amount invoice) as [total_amount|] eqn:Ht.
  - eexists.
    exact (create_payment_ok db payment user_id uuid invoice total_amount
             amount Hinv Ht Hfresh Hamount).
  - assert (E : PaymentStatus_eqb (PaymentCreate.status payment) COMPLETED
                = false).
    { apply not_completed. intros H. now apply Htotal in H. }
    exists (invoices db). unfold crud.create_payment.
    rewrite E, Hamount. step.
    rewrite insert_fresh by exact Hfresh. reflexivity.
Qed.

(** X8. A payment recorded through the API belongs to the caller who recorded
    it, not to the owner of the invoice: when the call returns (the amount is
    a number and, for a completed payment, the invoice has a total), the
    recorder reads the payment back, while any other caller who is not a
    super-admin, the owner of the invoice included, is refused when reading
    it and never finds it in a listing. *)
Theorem payment_belongs_to_recorder
  (db : Session) (payment : PaymentCreate.t) (current_user : User.t)
  (uuid : string) (invoice : Invoice.t) (amount : float) :
  crud.get_invoice db (PaymentCreate.invoice_id payment) = Some invoice ->
  crud.get_payment db uuid = None ->
  truthy (User.is_super_admin current_user) = true
  \/ Invoice.user_id invoice = User.id current_user ->
  Float (PaymentCreate.amount payment) = Some amount ->
  (PaymentCreate.status payment = COMPLETED ->
   Invoice.total_amount invoice <> None) ->
  exists db_payment db',
    payments_router.create_payment db payment current_user uuid
    = Ok (db_payment, db')
    /\ Payment.user_id db_payment = User.id current_user
    /\ Payment.amount db_payment = amount
    /\ payments_router.read_payment db' uuid current_user = Ok db_payment
    /\ forall other,
         truthy (User.is_super_admin other) = false ->
         User.id other <> User.id current_user ->
         is_forbidden (payments_router.read_payment db' uuid other) = true
         /\ (User.id other <> "" ->
             forall invoice_id skip limit,
               ~ In db_payment
                    (payments_router.read_payments db' invoice_id skip limit
                                                   other)).
Proof.
  intros Hinv Hfresh Hperm Hamount Htotal.
  unfold payments_router.create_payment. rewrite Hinv.
  rewrite (not_stranger _ _ Hperm).
  destruct (create_payment_returns db payment (User.id current_user) uuid
              invoice amount Hinv Hfresh Hamount Htotal) as [invoices' ->].
  set (db_payment := Payment.mk uuid (User.id current_user) _ _ _ _).
  exists db_payment. eexists. split; [reflexivity|].
  split; [reflexivity|]. split; [reflexivity|].
  assert (Hget : crud.get_payment
                   (set_payments (set_invoices db invoices')
                                 (payments db ++ [db_payment])) uuid
                 = Some db_payment).
  { queries. rewrite find_app, Hfresh. cbn [find db_payment Payment.id].
    now rewrite String.eqb_refl. }
  split.
  - unfold payments_router.read_payment. rewrite Hget.
    rewrite not_stranger; [reflexivity|]. now right.
  - intros other Hreg Hother. split.
    + unfold payments_router.read_payment. rewrite Hget.
      assert (E : not_permitted other (Payment.user_id db_payment) = true).
      { apply not_permitted_spec. split; [exact Hreg|].
        cbn [db_payment Payment.user_id]. congruence. }
      now rewrite E.
    + intros Hne invoice_id skip limit Hin.
      unfold payments_router.read_payments, crud.get_payments in Hin.
      rewrite Hreg in Hin. apply in_page, in_filter_if in Hin.
      rewrite filter_if_owner in Hin by exact Hne.
      apply filter_In in Hin. destruct Hin as [_ E].
      apply String.eqb_eq in E. cbn [db_payment Payment.user_id] in E.
      congruence.
Qed.

Lemma payment_belongs_to_recorder_witness :
  crud.get_invoice ex_db "i1" = Some ex_invoice1
  /\ crud.get_payment ex_db "p3" = None
  /\ truthy (User.is_super_admin ex_root) = true
  /\ Float 150 = Some 150%float
  /\ Invoice.total_amount ex_invoice1 <> None
  /\ exists db_payment db',
       payments_router.create_payment ex_db
         (PaymentCreate.mk "i1" 150 CASH COMPLETED) ex_root "p3"
       = Ok (db_payment, db')
       /\ Payment.user_id db_payment = "u0"
       /\ Payment.amount db_payment = 150%float
       /\ Invoice.user_id ex_invoice1 = User.id ex_alice
       /\ is_forbidden (payments_router.read_payment db' "p3" ex_alice)
          = true.
Proof.
  assert (H1 : crud.get_invoice ex_db "i1" = Some ex_invoice1)
    by reflexivity.
  assert (H2 : crud.get_payment ex_db "p3" = None) by reflexivity.
  assert (H3 : Float 150 = Some 150%float) by reflexivity.
  assert (H4 : Invoice.total_amount ex_invoice1 <> None) by discriminate.
  split; [exact H1|]. split; [exact H2|]. split; [reflexivity|].
  split; [exact H3|]. split; [exact H4|].
  destruct (payment_belongs_to_recorder ex_db
              (PaymentCreate.mk "i1" 150 CASH COMPLETED) ex_root
              "p3" ex_invoice1 150 H1 H2 (or_introl eq_refl) H3
              (fun _ => H4))
    as (db_payment & db' & Hcall & Huser & Hamount & _ & Hother).
  exists db_payment, db'. split; [exact Hcall|]. split; [exact Huser|].
  split; [exact Hamount|]. split; [reflexivity|].
  apply (Hother ex_alice); [reflexivity|discriminate].
Defined.

(** ** Users: the super-admin flag *)

(** X9. A caller who is not a super-admin cannot turn anyone into a
    super-admin through [update_user]: whatever the target and the update
    (an explicit null included), every user record is a super-admin after the
    request exactly when it was before. *)
Theorem update_user_no_escalation
  (db : Session) (user_id : string) (user_update : UserUpdate.t)
  (current_user : User.t) :
  crud.get_user db (User.id current_user) = Some current_user ->
  truthy (User.is_super_admin current_user) = false ->
  let db' :=
    after db (users_router.update_user db user_id user_update current_user) in
  forall key,
    option_map (fun u => truthy (User.is_super_admin u))
               (crud.get_user db' key)
    = option_map (fun u => truthy (User.is_super_admin u))
                 (crud.get_user db key).
Proof.
  intros Hme Hreg db' key. unfold db'. clear db'.
  unfold users_router.update_user, users_router.not_self. rewrite Hreg.
  cbn [negb]. rewrite andb_true_r.
  destruct (String.eqb_spec user_id (User.id current_user)) as [->|Hne];
    cbn [negb]; [|reflexivity].
  destruct (UserUpdate.is_super_admin user_update) as [|[b|]] eqn:Hfield;
    cbn [value]; try reflexivity.
  - unfold crud.update_user. rewrite Hme, Hfield. cbn [setattr].
    destruct (setattr (Some (User.name current_user)) _) as [name|];
      cbn [not_null bind after]; [|reflexivity].
    destruct (setattr (Some (User.email current_user)) _) as [email|];
      cbn [not_null bind after]; [|reflexivity].
    destruct (crud.email_taken db _); cbn [bind after]; [reflexivity|].
    unfold crud.get_user. tables. rewrite find_update. cbn [User.id].
    destruct (String.eqb_spec (User.id current_user) key) as [<-|];
      [|reflexivity].
    unfold crud.get_user in Hme. now rewrite Hme.
  - unfold crud.update_user. rewrite Hme, Hfield. cbn [setattr].
    destruct (setattr (Some (User.name current_user)) _) as [name|];
      cbn [not_null bind after]; [|reflexivity].
    destruct (setattr (Some (User.email current_user)) _) as [email|];
      cbn [not_null bind after]; [|reflexivity].
    destruct (crud.email_taken db _); cbn [bind after]; [reflexivity|].
    unfold crud.get_user. tables. rewrite find_update. cbn [User.id].
    destruct (String.eqb_spec (User.id current_user) key) as [<-|];
      [|reflexivity].
    unfold crud.get_user in Hme. rewrite Hme. cbn [option_map].
    now rewrite Hreg.
Qed.

Lemma update_user_no_escalation_witness :
  crud.get_user ex_db (User.id ex_alice) = Some ex_alice
  /\ truthy (User.is_super_admin ex_alice) = false
  /\ option_map (fun u => truthy (User.is_super_admin u))
       (crud.get_user
          (after ex_db
             (users_router.update_user ex_db "u1"
                (UserUpdate.mk (Given (Some "Alicia")) Unset (Given None))
                ex_alice)) "u1")
     = Some false
  /\ option_map User.name
       (crud.get_user
          (after ex_db
             (users_router.update_user ex_db "u1"
                (UserUpdate.mk (Given (Some "Alicia")) Unset (Given None))
                ex_alice)) "u1")
     = Some "Alicia".
Proof.
  assert (H1 : crud.get_user ex_db (User.id ex_alice) = Some ex_alice)
    by reflexivity.
  split; [exact H1|]. split; [reflexivity|]. split; [|reflexivity].
  rewrite (update_user_no_escalation ex_db "u1"
             (UserUpdate.mk (Given (Some "Alicia")) Unset (Given None))
             ex_alice H1 eq_refl "u1").
  reflexivity.
Defined.

(** ** Registration: the email *)

(** X10. [register] refuses an email that is already used with status 400;
    after a successful registration a second one with the same email is
    refused for every name, password and identifier, and the stored
    credential is [get_password_hash] of the password. *)
Theorem register_refuses_used_email
  (get_password_hash : string -> string) (db : Session) (user : UserCreate.t)
  (uuid : string) :
  (forall existing,
      crud.get_user_by_email db (UserCreate.email user) = Some existing ->
      auth_router.register get_password_hash db user uuid
      = Raise (HTTPException HTTP_400_BAD_REQUEST "Email already registered"))
  /\ (forall db_user db',
         auth_router.register get_password_hash db user uuid
         = Ok (db_user, db') ->
         User.password_hash db_user
         = get_password_hash (UserCreate.password user)
         /\ forall user2 uuid2,
              UserCreate.email user2 = UserCreate.email user ->
              auth_router.register get_password_hash db' user2 uuid2
              = Raise (HTTPException HTTP_400_BAD_REQUEST
                                     "Email already registered")).
Proof.
  split.
  - intros existing H. unfold auth_router.register. now rewrite H.
  - intros db_user db'. unfold auth_router.register.
    destruct (crud.get_user_by_email db (UserCreate.email user)) eqn:Hemail;
      [discriminate|].
    unfold crud.create_user.
    destruct (crud.email_taken db _); [discriminate|].
    destruct (insert User.id (users db) _) as [users'|] eqn:Hins;
      [|discriminate].
    apply insert_inv in Hins. destruct Hins as [-> _]. cbn [bind].
    intros H. inversion H; subst db_user db'; clear H.
    split; [reflexivity|]. intros user2 uuid2 E.
    unfold crud.get_user_by_email. tables. rewrite E, find_app.
    unfold crud.get_user_by_email in Hemail. rewrite Hemail.
    cbn [find User.email]. now rewrite String.eqb_refl.
Qed.

Lemma register_refuses_used_email_witness :
  crud.get_user_by_email ex_db "alice@example.com" = Some ex_alice
  /\ auth_router.register (fun password => password) ex_db
       (UserCreate.mk "Eve" "alice@example.com" true "secret") "u9"
     = Raise (HTTPException HTTP_400_BAD_REQUEST "Email already registered").
Proof.
  assert (H1 : crud.get_user_by_email ex_db "alice@example.com"
               = Some ex_alice) by reflexivity.
  split; [exact H1|].
  exact (proj1 (register_refuses_used_email (fun password => password) ex_db
                  (UserCreate.mk "Eve" "alice@example.com" true "secret")
                  "u9") ex_alice H1).
Defined.

(** ** Invoices: creation and update through the API *)

(** X11. [POST /invoices] for an existing customer, new identifiers and items
    that can be stored creates an invoice that belongs to the caller, is not
    paid, has the requested status and customer, and can at once be read back
    by the caller; it appears in the caller's listing. *)
Theorem create_invoice_for_caller
  (db : Session) (invoice : InvoiceCreate.t) (current_user : User.t)
  (uuid : string) (uuids : nat -> string) (customer : Customer.t) :
  crud.get_customer db (InvoiceCreate.customer_id invoice) = Some customer ->
  fresh_uuids db uuid uuids (length (InvoiceCreate.items invoice)) ->
  Forall (fun item => storable (InvoiceItemCreate.quantity item)
                               (InvoiceItemCreate.unit_price item) = true)
         (InvoiceCreate.items invoice) ->
  exists db_invoice db',
    invoices_router.create_invoice db invoice current_user uuid uuids
    = Ok (Some db_invoice, db')
    /\ Invoice.id db_invoice = uuid
    /\ Invoice.user_id db_invoice = User.id current_user
    /\ Invoice.customer_id db_invoice = InvoiceCreate.customer_id invoice
    /\ Invoice.status db_invoice = Some (InvoiceCreate.status invoice)
    /\ Invoice.is_paid db_invoice = Some false
    /\ invoices_router.read_invoice db' uuid current_user = Ok db_invoice
    /\ In db_invoice
          (invoices_router.read_invoices db' 0 (length (invoices db'))
                                         current_user).
Proof.
  intros Hcustomer Hfresh Hstorable.
  unfold invoices_router.create_invoice. rewrite Hcustomer.
  destruct (create_invoice_returns db invoice (User.id current_user) uuid
              uuids Hfresh Hstorable) as (r & db' & Hcall).
  destruct (create_invoice_inv _ _ _ _ _ _ _ Hcall)
    as (totals & db_items & _ & Hnew & -> & -> & _).
  eexists. eexists. split; [exact Hcall|].
  split; [reflexivity|]. split; [reflexivity|]. split; [reflexivity|].
  split; [reflexivity|]. split; [reflexivity|]. split.
  - unfold invoices_router.read_invoice.
    match goal with
    | |- context [crud.get_invoice ?d uuid] =>
        assert (Hget : crud.get_invoice d uuid
                       = Some (Invoice.mk uuid (User.id current_user)
                                 (InvoiceCreate.customer_id invoice)
                                 (Some (InvoiceCreate.status invoice))
                                 (Float (sum totals)) (Some false)))
    end.
    { queries. rewrite find_app, Hnew. cbn [find Invoice.id].
      now rewrite String.eqb_refl. }
    rewrite Hget. rewrite not_stranger; [reflexivity|]. now right.
  - unfold invoices_router.read_invoices, crud.get_invoices.
    cbn [skipn]. rewrite firstn_all2.
    + unfold filter_if, truthy_str.
      destruct (truthy _); [|destruct (negb _)].
      * tables. apply in_or_app. right. now left.
      * tables. apply filter_In. split.
        -- apply in_or_app. right. now left.
        -- apply String.eqb_refl.
      * tables. apply in_or_app. right. now left.
    + unfold filter_if.
      destruct (truthy _); [reflexivity|].
      destruct (truthy_str _); [|reflexivity].
      apply filter_length_le.
Qed.

Lemma create_invoice_for_caller_witness :
  crud.get_customer ex_db "c1" = Some ex_acme
  /\ fresh_uuids ex_db "i4" ex_uuids 2
  /\ Forall (fun item => storable (InvoiceItemCreate.quantity item)
                                  (InvoiceItemCreate.unit_price item) = true)
            (InvoiceCreate.items ex_new_invoice)
  /\ exists db_invoice db',
       invoices_router.create_invoice ex_db ex_new_invoice ex_bob "i4"
                                      ex_uuids
       = Ok (Some db_invoice, db')
       /\ Invoice.user_id db_invoice = "u2"
       /\ invoices_router.read_invoice db' "i4" ex_bob = Ok db_invoice.
Proof.
  assert (H1 : crud.get_customer ex_db "c1" = Some ex_acme) by reflexivity.
  assert (H2 : Forall (fun item =>
                         storable (InvoiceItemCreate.quantity item)
                                  (InvoiceItemCreate.unit_price item) = true)
                      (InvoiceCreate.items ex_new_invoice))
    by (repeat constructor).
  split; [exact H1|]. split; [exact ex_uuids_fresh|]. split; [exact H2|].
  destruct (create_invoice_for_caller ex_db ex_new_invoice ex_bob "i4"
              ex_uuids ex_acme H1 ex_uuids_fresh H2)
    as (db_invoice & db' & Hcall & _ & Huser & _ & _ & _ & Hread & _).
  exists db_invoice, db'. auto.
Defined.

(** X12. [update_invoice] never touches the accounts: whatever the update, no
    invoice changes its owner or its [total_amount], and the user, customer,
    item and payment tables stay as they are.  An update that supplies values
    is carried out on exactly the supplied columns: the invoice is read back
    with them, the other rows of the invoice table and its order are as
    before; in particular [is_paid] is set as the client says, whatever has
    been paid.  Through the API an owner's or super-admin's update that names
    a customer which does not exist is answered 404, any other one is the
    CRUD call. *)
Theorem update_invoice_keeps_accounts (db : Session) (invoice_id : string) :
  (forall invoice_update,
      let db' := after db (crud.update_invoice db invoice_id invoice_update) in
      users db' = users db
      /\ customers db' = customers db
      /\ invoice_items db' = invoice_items db
      /\ payments db' = payments db
      /\ forall key,
           option_map (fun i => (Invoice.user_id i, Invoice.total_amount i))
                      (crud.get_invoice db' key)
           = option_map (fun i => (Invoice.user_id i, Invoice.total_amount i))
                        (crud.get_invoice db key))
  /\ (forall invoice customer_id status is_paid,
         crud.get_invoice db invoice_id = Some invoice ->
         let db_invoice :=
           Invoice.mk invoice_id (Invoice.user_id invoice)
                      (or_else customer_id (Invoice.customer_id invoice))
                      (match status with
                       | Some s => Some s
                       | None => Invoice.status invoice
                       end)
                      (Invoice.total_amount invoice)
                      (match is_paid with
                       | Some b => Some b
                       | None => Invoice.is_paid invoice
                       end) in
         exists db',
           crud.update_invoice db invoice_id
             (InvoiceUpdate.mk (supplied customer_id) (supplied status)
                               (supplied is_paid))
           = Ok (Some db_invoice, db')
           /\ crud.get_invoice db' invoice_id = Some db_invoice
           /\ map Invoice.id (invoices db') = map Invoice.id (invoices db)
           /\ filter (fun i => negb (Invoice.id i =? invoice_id))
                     (invoices db')
              = filter (fun i => negb (Invoice.id i =? invoice_id))
                       (invoices db))
  /\ (forall invoice invoice_update current_user,
         crud.get_invoice db invoice_id = Some invoice ->
         truthy (User.is_super_admin current_user) = true
         \/ Invoice.user_id invoice = User.id current_user ->
         (forall customer_id,
             value (InvoiceUpdate.customer_id invoice_update)
             = Some customer_id ->
             crud.get_customer db customer_id = None ->
             invoices_router.update_invoice db invoice_id invoice_update
                                            current_user
             = not_found "Customer not found")
         /\ ((forall customer_id,
                 value (InvoiceUpdate.customer_id invoice_update)
                 = Some customer_id ->
                 crud.get_customer db customer_id <> None) ->
             invoices_router.update_invoice db invoice_id invoice_update
                                            current_user
             = crud.update_invoice db invoice_id invoice_update)).
Proof.
  split; [|split].
  - intros invoice_update db'. unfold db'. clear db'.
    unfold crud.update_invoice.
    destruct (crud.get_invoice db invoice_id) as [invoice|] eqn:Hinv;
      [|repeat split].
    destruct (find_pk _ _ _ _ Hinv) as [Hid _].
    destruct (setattr (Some (Invoice.customer_id invoice)) _);
      cbn [not_null bind after]; [|repeat split].
    split; [reflexivity|]. split; [reflexivity|].
    split; [reflexivity|]. split; [reflexivity|]. intros key.
    unfold crud.get_invoice. tables. rewrite find_update. cbn [Invoice.id].
    rewrite Hid.
    destruct (String.eqb_spec invoice_id key) as [<-|]; [|reflexivity].
    unfold crud.get_invoice in Hinv. now rewrite Hinv.
  - intros invoice customer_id status is_paid Hinv db_invoice.
    destruct (update_invoice_ok db invoice_id invoice customer_id status
                is_paid Hinv) as [Hcall Hget].
    eexists. split; [exact Hcall|]. split; [exact Hget|].
    tables. split; [apply map_pk_update|].
    apply (update_others Invoice.id (invoices db) db_invoice).
  - intros invoice invoice_update current_user Hinv Hperm.
    now apply update_invoice_permitted with (invoice := invoice).
Qed.

Lemma update_invoice_keeps_accounts_witness :
  crud.get_invoice ex_db "i1" = Some ex_invoice1
  /\ Invoice_payments ex_db ex_invoice1 = [ex_payment0; ex_payment1]
  /\ (exists db',
         crud.update_invoice ex_db "i1"
           (InvoiceUpdate.mk Unset Unset (Given (Some true)))
         = Ok (Some (Invoice.mk "i1" "u1" "c1" (Some SENT) (Some 250%float)
                                (Some true)), db')
         /\ crud.get_invoice db' "i1"
            = Some (Invoice.mk "i1" "u1" "c1" (Some SENT) (Some 250%float)
                               (Some true)))
  /\ crud.get_customer ex_db "c9" = None
  /\ invoices_router.update_invoice ex_db "i1"
       (InvoiceUpdate.mk (Given (Some "c9")) Unset Unset) ex_alice
     = not_found "Customer not found".
Proof.
  assert (H1 : crud.get_invoice ex_db "i1" = Some ex_invoice1)
    by reflexivity.
  assert (H2 : crud.get_customer ex_db "c9" = None) by reflexivity.
  destruct (update_invoice_keeps_accounts ex_db "i1") as (_ & Hdone & Hapi).
  split; [exact H1|]. split; [reflexivity|]. split; [|split; [exact H2|]].
  - destruct (Hdone ex_invoice1 None None (Some true) H1)
      as (db' & Hcall & Hget & _).
    exists db'. split; [exact Hcall|exact Hget].
  - apply (proj1 (Hapi ex_invoice1
                    (InvoiceUpdate.mk (Given (Some "c9")) Unset Unset)
                    ex_alice H1 (or_intror eq_refl)) "c9");
      [reflexivity|exact H2].
Defined.

(** * Further properties of the listings *)

(** X14. The optional filters of the listings are tested for truth, not for
    presence: an empty string filters nothing, like no filter at all.  A
    non-empty [user_id] and a non-empty [invoice_id] given together select
    the payments that match both. *)
Theorem listing_filters (db : Session) (skip limit : nat) :
  crud.get_invoices db (Some "") skip limit
  = crud.get_invoices db None skip limit
  /\ (forall user_id invoice_id,
         crud.get_payments db (Some "") invoice_id skip limit
         = crud.get_payments db None invoice_id skip limit
         /\ crud.get_payments db user_id (Some "") skip limit
            = crud.get_payments db user_id None skip limit)
  /\ (forall user_id invoice_id,
         user_id <> "" -> invoice_id <> "" ->
         crud.get_payments db (Some user_id) (Some invoice_id) skip limit
         = firstn limit
             (skipn skip
                (filter (fun p => (Payment.user_id p =? user_id)
                                  && (Payment.invoice_id p =? invoice_id))
                        (payments db)))).
Proof.
  split; [reflexivity|]. split; [split; reflexivity|].
  intros user_id invoice_id Hu Hi. unfold crud.get_payments.
  rewrite !filter_if_owner by assumption. now rewrite filter_filter.
Qed.

Lemma listing_filters_witness :
  "u1" <> "" /\ "i2" <> ""
  /\ crud.get_payments ex_db (Some "u1") (Some "i2") 0 10 = [ex_payment2]
  /\ crud.get_payments ex_db (Some "") (Some "") 0 10
     = [ex_payment0; ex_payment1; ex_payment2].
Proof.
  assert (H1 : "u1" <> "") by discriminate.
  assert (H2 : "i2" <> "") by discriminate.
  split; [exact H1|]. split; [exact H2|].
  destruct (listing_filters ex_db 0 10) as (_ & Hempty & Hboth).
  split.
  - rewrite (Hboth "u1" "i2" H1 H2). reflexivity.
  - rewrite (proj1 (Hempty (Some "") (Some ""))). reflexivity.
Defined.

(** * Further properties of the payments *)

(** X15. [create_payment] never takes anything back: whatever the payment,
    every invoice is still there afterwards with the same owner, customer and
    [total_amount]; an invoice that was paid is still paid; and no invoice
    other than the one the payment names is changed at all. *)
Theorem create_payment_never_unpays
  (db : Session) (payment : PaymentCreate.t) (user_id uuid : string) :
  let db' := after db (crud.create_payment db payment user_id uuid) in
  invoice_items db' = invoice_items db
  /\ forall key invoice,
       crud.get_invoice db key = Some invoice ->
       exists invoice',
         crud.get_invoice db' key = Some invoice'
         /\ Invoice.user_id invoice' = Invoice.user_id invoice
         /\ Invoice.customer_id invoice' = Invoice.customer_id invoice
         /\ Invoice.total_amount invoice' = Invoice.total_amount invoice
         /\ (Invoice.is_paid invoice = Some true ->
             Invoice.is_paid invoice' = Some true)
         /\ (key <> PaymentCreate.invoice_id payment -> invoice' = invoice).
Proof.
  intros db'. unfold db'. clear db'.
  destruct (create_payment_effect db payment user_id uuid)
    as (_ & _ & Hitems & Hinvoices).
  split; [exact Hitems|]. intros key invoice Hkey.
  unfold crud.get_invoice at 1.
  destruct Hinvoices as [-> | (target & Htarget & ->)];
    [exists invoice; repeat split; auto|].
  destruct (find_pk _ _ _ _ Htarget) as [Hid _].
  rewrite find_update. cbn [Invoice.id]. rewrite Hid.
  unfold crud.get_invoice in Hkey, Htarget.
  destruct (String.eqb_spec (PaymentCreate.invoice_id payment) key)
    as [E|E].
  - subst key. rewrite Hkey in Htarget. inversion Htarget; subst target.
    rewrite Hkey. eexists. split; [reflexivity|].
    repeat split; try reflexivity. intros H. now contradiction H.
  - rewrite Hkey. exists invoice. repeat split; auto.
Qed.

Lemma create_payment_never_unpays_witness :
  crud.get_invoice ex_db "i2" = Some ex_invoice2
  /\ Invoice.is_paid ex_invoice2 = Some true
  /\ exists invoice',
       crud.get_invoice
         (after ex_db
            (crud.create_payment ex_db
               (PaymentCreate.mk "i2" (-80) CASH COMPLETED)
               "u1" "p3")) "i2" = Some invoice'
       /\ Invoice.is_paid invoice' = Some true.
Proof.
  assert (H1 : crud.get_invoice ex_db "i2" = Some ex_invoice2)
    by reflexivity.
  split; [exact H1|]. split; [reflexivity|].
  destruct (create_payment_never_unpays ex_db
              (PaymentCreate.mk "i2" (-80) CASH COMPLETED)
              "u1" "p3") as [_ H].
  destruct (H "i2" ex_invoice2 H1) as (invoice' & Hget & _ & _ & _ & Hp & _).
  exists invoice'. split; [exact Hget|]. now apply Hp.
Defined.

(** A payment that is not completed is recorded without a look at the
    invoice. *)
Lemma create_payment_pending
  (db : Session) (payment : PaymentCreate.t) (user_id uuid : string)
  (amount : float) :
  crud.get_payment db uuid = None ->
  PaymentCreate.status payment <> COMPLETED ->
  Float (PaymentCreate.amount payment) = Some amount ->
  let db_payment :=
    Payment.mk uuid user_id (PaymentCreate.invoice_id payment) amount
               (PaymentCreate.method payment)
               (Some (PaymentCreate.status payment)) in
  crud.create_payment db payment user_id uuid
  = Ok (db_payment, set_payments db (payments db ++ [db_payment])).
Proof.
  intros Hfresh Hpending Hamount db_payment. unfold crud.create_payment.
  rewrite (not_completed _ Hpending), Hamount. step.
  fold db_payment. rewrite insert_fresh by exact Hfresh. reflexivity.
Qed.

(** The completed payments of an invoice after one more row. *)
Lemma completed_amounts_app (db : Session) (payments' : list Payment.t)
      (p : Payment.t) (invoice : Invoice.t) :
  completed_amounts (set_payments db (payments' ++ [p])) invoice
  = completed_amounts (set_payments db payments') invoice
    ++ (if Payment.invoice_id p =? Invoice.id invoice then
          match Payment.status p with
          | Some COMPLETED => [Payment.amount p]
          | _ => []
          end
        else []).
Proof.
  unfold completed_amounts. tables. rewrite flat_map_app.
  cbn [flat_map]. now rewrite app_nil_r.
Qed.

Lemma completed_amounts_frame (db : Session) (invoices' : list Invoice.t)
      (invoice : Invoice.t) :
  completed_amounts (set_invoices db invoices') invoice
  = completed_amounts db invoice.
Proof. reflexivity. Qed.

(** X16. The threshold is tested when a payment is created and at no other
    time.  A payment recorded with a status other than completed does not
    count: the invoice table is as it was and a completed payment recorded
    next is tested against the same sum as before.  Updating the payment to
    completed leaves the invoice table as it was, however large its amount;
    but it counts from then on: a completed payment recorded next is tested
    against the sum of the completed payments raised by its amount. *)
Theorem pending_then_completed
  (db : Session) (payment : PaymentCreate.t) (user_id uuid : string)
  (invoice : Invoice.t) (amount : float) :
  crud.get_invoice db (PaymentCreate.invoice_id payment) = Some invoice ->
  crud.get_payment db uuid = None ->
  PaymentCreate.status payment <> COMPLETED ->
  Float (PaymentCreate.amount payment) = Some amount ->
  exists db_payment db1 db_payment' db2,
    crud.create_payment db payment user_id uuid = Ok (db_payment, db1)
    /\ invoices db1 = invoices db
    /\ completed_amounts db1 invoice = completed_amounts db invoice
    /\ crud.update_payment db1 uuid
         (PaymentUpdate.mk Unset Unset (Given (Some COMPLETED)))
       = Ok (Some db_payment', db2)
    /\ Payment.status db_payment' = Some COMPLETED
    /\ Payment.amount db_payment' = amount
    /\ invoices db2 = invoices db
    /\ completed_amounts db2 invoice = completed_amounts db invoice ++ [amount]
    /\ completed_payments db2 invoice
       = (completed_payments db invoice + amount)%float
    /\ forall next user_id' uuid' total_amount amount',
         PaymentCreate.invoice_id next = PaymentCreate.invoice_id payment ->
         PaymentCreate.status next = COMPLETED ->
         Invoice.total_amount invoice = Some total_amount ->
         Float (PaymentCreate.amount next) = Some amount' ->
         crud.get_payment db uuid' = None ->
         uuid' <> uuid ->
         let paid :=
           Invoice.mk (Invoice.id invoice) (Invoice.user_id invoice)
                      (Invoice.customer_id invoice) (Some PAID)
                      (Invoice.total_amount invoice) (Some true) in
         crud.get_invoice
           (after db1 (crud.create_payment db1 next user_id' uuid'))
           (PaymentCreate.invoice_id payment)
         = Some (if (total_amount
                     <=? completed_payments db invoice
                         + PaymentCreate.amount next)%float
                 then paid else invoice)
         /\ crud.get_invoice
              (after db2 (crud.create_payment db2 next user_id' uuid'))
              (PaymentCreate.invoice_id payment)
            = Some (if (total_amount
                        <=? completed_payments db invoice + amount
                            + PaymentCreate.amount next)%float
                    then paid else invoice).
Proof.
  intros Hinv Hfresh Hpending Hamount.
  destruct (find_pk _ _ _ _ Hinv) as [Hid _].
  pose proof (create_payment_pending db payment user_id uuid amount Hfresh
                Hpending Hamount) as Hcall.
  cbv zeta in Hcall.
  set (db_payment := Payment.mk uuid user_id _ amount _ _) in *.
  set (db1 := set_payments db (payments db ++ [db_payment])) in *.
  assert (Hget : crud.get_payment db1 uuid = Some db_payment).
  { unfold db1. queries. rewrite find_app, Hfresh.
    cbn [find db_payment Payment.id]. now rewrite String.eqb_refl. }
  set (db_payment' :=
         Payment.mk uuid user_id (PaymentCreate.invoice_id payment) amount
                    (PaymentCreate.method payment) (Some COMPLETED)).
  set (db2 := set_payments db (payments db ++ [db_payment'])).
  assert (Hup : update Payment.id (payments db ++ [db_payment]) db_payment'
                = payments db ++ [db_payment']).
  { unfold update. rewrite map_app.
    fold (update Payment.id (payments db) db_payment').
    rewrite update_absent by exact Hfresh.
    cbn [map db_payment db_payment' Payment.id].
    now rewrite String.eqb_refl. }
  assert (Hupdate : crud.update_payment db1 uuid
                      (PaymentUpdate.mk Unset Unset (Given (Some COMPLETED)))
                    = Ok (Some db_payment', db2)).
  { unfold crud.update_payment. rewrite Hget.
    cbn [PaymentUpdate.amount PaymentUpdate.method PaymentUpdate.status
         setattr written not_null bind db_payment Payment.id Payment.user_id
         Payment.invoice_id Payment.amount Payment.method Payment.status].
    fold db_payment'. unfold db1 at 2. tables. rewrite Hup. reflexivity. }
  assert (H1 : completed_amounts db1 invoice = completed_amounts db invoice).
  { unfold db1. rewrite completed_amounts_app.
    cbn [db_payment Payment.invoice_id Payment.status Payment.amount].
    destruct (_ =? _); [|apply app_nil_r].
    destruct (PaymentCreate.status payment); try apply app_nil_r.
    now contradiction Hpending. }
  assert (H2 : completed_amounts db2 invoice
               = completed_amounts db invoice ++ [amount]).
  { unfold db2. rewrite completed_amounts_app.
    cbn [db_payment' Payment.invoice_id Payment.status Payment.amount].
    now rewrite Hid, String.eqb_refl. }
  assert (H3 : completed_payments db2 invoice
               = (completed_payments db invoice + amount)%float).
  { unfold completed_payments. rewrite H2. apply sum_snoc. }
  exists db_payment, db1, db_payment', db2.
  split; [exact Hcall|]. split; [reflexivity|]. split; [exact H1|].
  split; [exact Hupdate|]. split; [reflexivity|]. split; [reflexivity|].
  split; [reflexivity|]. split; [exact H2|]. split; [exact H3|].
  intros next user_id' uuid' total_amount amount' Hnext Hs Htotal Hamount'
         Hfresh' Hne paid.
  assert (Hf : forall p,
             Payment.id p = uuid ->
             crud.get_payment (set_payments db (payments db ++ [p])) uuid'
             = None).
  { intros p Hp. queries. rewrite find_app, Hfresh'. cbn [find].
    rewrite Hp. destruct (String.eqb_spec uuid uuid'); [|reflexivity].
    now contradiction Hne. }
  assert (Hi : forall d,
             invoices d = invoices db ->
             crud.get_payment d uuid' = None ->
             crud.get_invoice
               (after d (crud.create_payment d next user_id' uuid'))
               (PaymentCreate.invoice_id payment)
             = Some (if (total_amount
                         <=? completed_payments d invoice
                             + PaymentCreate.amount next)%float
                     then paid else invoice)).
  { intros d Hd Hfd.
    assert (Hinv' : crud.get_invoice d (PaymentCreate.invoice_id next)
                    = Some invoice).
    { rewrite Hnext. unfold crud.get_invoice. rewrite Hd. exact Hinv. }
    rewrite (create_payment_ok d next user_id' uuid' invoice total_amount
               amount' Hinv' Htotal Hfd Hamount').
    cbn [after]. rewrite Hs. cbn [PaymentStatus_eqb andb].
    unfold crud.get_invoice. tables. rewrite Hd.
    unfold crud.get_invoice in Hinv.
    destruct (_ <=? _)%float.
    - rewrite find_update. cbn [Invoice.id]. rewrite Hid, String.eqb_refl.
      rewrite Hinv. unfold paid. now rewrite Hid.
    - exact Hinv. }
  split.
  - rewrite (Hi db1 eq_refl (Hf db_payment eq_refl)).
    unfold completed_payments. now rewrite H1.
  - rewrite (Hi db2 eq_refl (Hf db_payment' eq_refl)). now rewrite H3.
Qed.

Lemma pending_then_completed_witness :
  crud.get_invoice ex_db "i1" = Some ex_invoice1
  /\ crud.get_payment ex_db "p3" = None
  /\ Float 150 = Some 150%float
  /\ exists db_payment db1 db_payment' db2,
       crud.create_payment ex_db
         (PaymentCreate.mk "i1" 150 CASH PENDING) "u1" "p3"
       = Ok (db_payment, db1)
       /\ crud.update_payment db1 "p3"
            (PaymentUpdate.mk Unset Unset (Given (Some COMPLETED)))
          = Ok (Some db_payment', db2)
       /\ crud.get_invoice db2 "i1" = Some ex_invoice1
       /\ Invoice.is_paid ex_invoice1 = Some false
       /\ completed_amounts db1 ex_invoice1 = [100%float]
       /\ completed_payments db2 ex_invoice1 = 250%float
       /\ crud.get_invoice
            (after db1
               (crud.create_payment db1
                  (PaymentCreate.mk "i1" 50 CASH COMPLETED) "u1" "p4")) "i1"
          = Some ex_invoice1
       /\ crud.get_invoice
            (after db2
               (crud.create_payment db2
                  (PaymentCreate.mk "i1" 50 CASH COMPLETED) "u1" "p4")) "i1"
          = Some (Invoice.mk "i1" "u1" "c1" (Some PAID) (Some 250%float)
                             (Some true)).
Proof.
  assert (H1 : crud.get_invoice ex_db "i1" = Some ex_invoice1)
    by reflexivity.
  assert (H2 : crud.get_payment ex_db "p3" = None) by reflexivity.
  assert (H3 : Float 150 = Some 150%float) by reflexivity.
  split; [exact H1|]. split; [exact H2|]. split; [exact H3|].
  destruct (pending_then_completed ex_db
              (PaymentCreate.mk "i1" 150 CASH PENDING) "u1" "p3"
              ex_invoice1 150 H1 H2 ltac:(discriminate) H3)
    as (p & db1 & p' & db2 & Hc & _ & Hsum1 & Hu & _ & _ & Hinvs & _ & Hsum2
        & Hnext).
  exists p, db1, p', db2. split; [exact Hc|]. split; [exact Hu|].
  split; [|split; [reflexivity|split; [|split]]].
  - unfold crud.get_invoice. rewrite Hinvs. reflexivity.
  - rewrite Hsum1. reflexivity.
  - rewrite Hsum2. reflexivity.
  - destruct (Hnext (PaymentCreate.mk "i1" 50 CASH COMPLETED) "u1" "p4"
                250%float 50%float eq_refl eq_refl eq_refl eq_refl eq_refl
                ltac:(discriminate)) as [Hb Ha].
    cbn [PaymentCreate.invoice_id] in Hb, Ha.
    split; [rewrite Hb|rewrite Ha]; reflexivity.
Defined.

(** X17. [update_payment] cannot move a payment: whatever the update, the
    payment table keeps its identifiers in their order, and the payment
    fetched under any identifier keeps its recorder and its invoice. *)
Theorem update_payment_keeps_keys
  (db : Session) (payment_id : string) (payment_update : PaymentUpdate.t) :
  let db' := after db (crud.update_payment db payment_id payment_update) in
  map Payment.id (payments db') = map Payment.id (payments db)
  /\ forall key,
       option_map (fun p => (Payment.user_id p, Payment.invoice_id p))
                  (crud.get_payment db' key)
       = option_map (fun p => (Payment.user_id p, Payment.invoice_id p))
                    (crud.get_payment db key).
Proof.
  intros db'. unfold db'. clear db'.
  unfold crud.update_payment.
  destruct (crud.get_payment db payment_id) as [p|] eqn:Hp;
    [|split; reflexivity].
  destruct (find_pk _ _ _ _ Hp) as [Hid Hin].
  destruct (setattr (Some (Payment.amount p)) _);
    cbn [not_null bind after]; [|split; reflexivity].
  destruct (written _ _ _); cbn [bind after]; [|split; reflexivity].
  destruct (setattr (Some (Payment.method p)) _);
    cbn [not_null bind after]; [|split; reflexivity].
  split.
  - tables. apply map_pk_update.
  - intros key. unfold crud.get_payment. tables.
    rewrite find_update. cbn [Payment.id]. rewrite Hid.
    destruct (String.eqb_spec payment_id key) as [<-|]; [|reflexivity].
    unfold crud.get_payment in Hp. now rewrite Hp.
Qed.


(** * Further properties of the customers *)

(** X18. Customers have no owner: a customer created by one caller is read,
    updated and deleted by any other.  The created row carries the supplied
    columns; an update changes exactly the supplied columns, the updated row
    is what every caller reads afterwards and the other customers are read
    as before; [phone] can be cleared with an explicit null, [name] cannot;
    after the deletion (of a customer no invoice refers to) the customer
    table is as it was before the creation and reading the customer is
    answered 404. *)
Theorem customer_round_trip
  (db : Session) (customer : CustomerCreate.t) (uuid : string)
  (current_user : User.t) :
  crud.get_customer db uuid = None ->
  let db_customer :=
    Customer.mk uuid (CustomerCreate.name customer)
                (CustomerCreate.email customer)
                (CustomerCreate.phone customer)
                (CustomerCreate.type customer) in
  exists db1,
    customers_router.create_customer db customer current_user uuid
    = Ok (db_customer, db1)
    /\ (forall reader,
           customers_router.read_customer db1 uuid reader = Ok db_customer)
    /\ (forall editor name email phone type,
           let db_customer' :=
             Customer.mk uuid
               (or_else name (CustomerCreate.name customer))
               (or_else email (CustomerCreate.email customer))
               (match phone with
                | Some p => Some p
                | None => CustomerCreate.phone customer
                end)
               (or_else type (CustomerCreate.type customer)) in
           exists db2,
             customers_router.update_customer db1 uuid
               (CustomerUpdate.mk (supplied name) (supplied email)
                                  (supplied phone) (supplied type)) editor
             = Ok (db_customer', db2)
             /\ (forall reader,
                    customers_router.read_customer db2 uuid reader
                    = Ok db_customer')
             /\ (forall key,
                    key <> uuid ->
                    crud.get_customer db2 key = crud.get_customer db key)
             /\ map Customer.id (customers db2)
                = map Customer.id (customers db) ++ [uuid])
    /\ (forall editor,
           (exists db2,
               customers_router.update_customer db1 uuid
                 (CustomerUpdate.mk Unset Unset (Given None) Unset) editor
               = Ok (Customer.mk uuid (CustomerCreate.name customer)
                       (CustomerCreate.email customer) None
                       (CustomerCreate.type customer), db2)
               /\ forall reader,
                    customers_router.read_customer db2 uuid reader
                    = Ok (Customer.mk uuid (CustomerCreate.name customer)
                            (CustomerCreate.email customer) None
                            (CustomerCreate.type customer)))
           /\ customers_router.update_customer db1 uuid
                (CustomerUpdate.mk (Given None) Unset Unset Unset) editor
              = Raise IntegrityError)
    /\ (forall remover,
           Forall (fun i => Invoice.customer_id i <> uuid) (invoices db) ->
           exists db2,
             customers_router.delete_customer db1 uuid remover
             = Ok ("Customer deleted successfully", db2)
             /\ customers db2 = customers db
             /\ forall reader,
                  customers_router.read_customer db2 uuid reader
                  = not_found "Customer not found").
Proof.
  intros Hfresh db_customer.
  unfold customers_router.create_customer, crud.create_customer.
  fold db_customer. rewrite insert_fresh by exact Hfresh. cbn [bind].
  set (db1 := set_customers db _).
  assert (Hget : crud.get_customer db1 uuid = Some db_customer).
  { unfold db1. queries. rewrite find_app, Hfresh.
    cbn [find db_customer Customer.id]. now rewrite String.eqb_refl. }
  assert (Hread : forall row reader,
             Customer.id row = uuid ->
             customers_router.read_customer
               (set_customers db1 (update Customer.id (customers db1) row))
               uuid reader = Ok row).
  { intros row reader Hrow. unfold customers_router.read_customer.
    unfold crud.get_customer in *. tables. rewrite find_update.
    now rewrite Hrow, String.eqb_refl, Hget. }
  exists db1. split; [reflexivity|]. split; [|split; [|split]].
  - intros reader. unfold customers_router.read_customer. now rewrite Hget.
  - intros editor name email phone type.
    set (db_customer' := Customer.mk uuid (or_else name _) _ _ _).
    unfold customers_router.update_customer, crud.update_customer.
    rewrite Hget.
    cbn [CustomerUpdate.name CustomerUpdate.email CustomerUpdate.phone
         CustomerUpdate.type db_customer Customer.name Customer.email
         Customer.phone Customer.type Customer.id].
    rewrite !setattr_supplied. cbn [not_null bind].
    assert (E : setattr (CustomerCreate.phone customer) (supplied phone)
                = match phone with
                  | Some p => Some p
                  | None => CustomerCreate.phone customer
                  end) by (destruct phone; reflexivity).
    rewrite E. fold db_customer'.
    eexists. split; [reflexivity|]. split; [|split].
    + intros reader. now apply Hread.
    + intros key Hkey. unfold crud.get_customer. tables.
      rewrite find_update. cbn [db_customer' Customer.id].
      destruct (String.eqb_spec uuid key) as [E'|_]; [congruence|].
      unfold db1. tables. rewrite find_app.
      destruct (find _ (customers db)); [reflexivity|].
      cbn [find db_customer Customer.id].
      destruct (String.eqb_spec uuid key); [congruence|reflexivity].
    + tables. rewrite map_pk_update. unfold db1. tables.
      now rewrite map_app.
  - intros editor.
    unfold customers_router.update_customer, crud.update_customer.
    rewrite Hget. split; [|reflexivity].
    cbn [CustomerUpdate.name CustomerUpdate.email CustomerUpdate.phone
         CustomerUpdate.type db_customer Customer.name Customer.email
         Customer.phone Customer.type Customer.id setattr not_null bind].
    eexists. split; [reflexivity|]. intros reader. now apply Hread.
  - intros remover Hfree.
    unfold customers_router.delete_customer, crud.delete_customer.
    rewrite Hget.
    assert (E : Customer_invoices db1 db_customer = []).
    { unfold Customer_invoices, db1. tables. apply filter_none.
      revert Hfree. apply Forall_impl. intros i Hi.
      cbn [db_customer Customer.id]. now apply String.eqb_neq. }
    rewrite E. cbn [bind negb]. eexists. split; [reflexivity|]. split.
    + tables. unfold db1. tables.
      apply (delete_last Customer.id (customers db) db_customer).
      exact Hfresh.
    + intros reader. unfold customers_router.read_customer, crud.get_customer.
      tables. rewrite find_delete. cbn [db_customer Customer.id].
      now rewrite String.eqb_refl.
Qed.

Lemma customer_round_trip_witness :
  crud.get_customer ex_db "c2" = None
  /\ exists db1,
       customers_router.create_customer ex_db
         (CustomerCreate.mk "Bolt" "bolt@example.com" None CLIENT)
         ex_alice "c2"
       = Ok (Customer.mk "c2" "Bolt" "bolt@example.com" None CLIENT, db1)
       /\ customers_router.read_customer db1 "c2" ex_bob
          = Ok (Customer.mk "c2" "Bolt" "bolt@example.com" None CLIENT)
       /\ exists db2,
            customers_router.update_customer db1 "c2"
              (CustomerUpdate.mk Unset Unset (Given (Some "555-0100")) Unset)
              ex_bob
            = Ok (Customer.mk "c2" "Bolt" "bolt@example.com"
                              (Some "555-0100") CLIENT, db2)
            /\ customers_router.read_customer db2 "c2" ex_alice
               = Ok (Customer.mk "c2" "Bolt" "bolt@example.com"
                                 (Some "555-0100") CLIENT)
            /\ crud.get_customer db2 "c1" = Some ex_acme.
Proof.
  assert (H1 : crud.get_customer ex_db "c2" = None) by reflexivity.
  split; [exact H1|].
  destruct (customer_round_trip ex_db
              (CustomerCreate.mk "Bolt" "bolt@example.com" None CLIENT)
              "c2" ex_alice H1) as (db1 & Hcall & Hread & Hupdate & _).
  exists db1. split; [exact Hcall|]. split; [exact (Hread ex_bob)|].
  destruct (Hupdate ex_bob None None (Some "555-0100") None)
    as (db2 & Hu & Hr & Hothers & _).
  exists db2. split; [exact Hu|]. split; [exact (Hr ex_alice)|].
  rewrite (Hothers "c1"); [reflexivity|discriminate].
Defined.

(** ** Invoices keep their customer *)

Lemma customers_exist_frame (db db' : Session) :
  invoices db' = invoices db ->
  customers db' = customers db ->
  customers_exist db -> customers_exist db'.
Proof.
  unfold customers_exist, crud.get_customer. intros -> ->. auto.
Qed.

(** Calls that leave the invoice and customer tables alone. *)
Ltac customer_frame_cases Hc :=
  unfold bind, not_null, written, setattr, insert, Float;
  repeat match goal with
         | |- context [match ?x with _ => _ end] =>
             lazymatch x with
             | context [match _ with _ => _ end] => fail
             | _ => destruct x
             end
         end;
  cbn [after];
  first [exact Hc
        |apply (customers_exist_frame _ _) with (3 := Hc); reflexivity].

Lemma customers_exist_rewrite (db db' : Session) (old row : Invoice.t) :
  invoices db' = update Invoice.id (invoices db) row ->
  customers db' = customers db ->
  In old (invoices db) ->
  Invoice.customer_id row = Invoice.customer_id old ->
  customers_exist db -> customers_exist db'.
Proof.
  unfold customers_exist, crud.get_customer. intros -> -> Hold E H.
  rewrite Forall_forall in H. apply Forall_update.
  - intros r Hr _. now apply H.
  - rewrite E. now apply H.
Qed.

Lemma customers_exist_retotalled (db db' : Session) :
  retotalled db (invoices db') ->
  customers db' = customers db ->
  customers_exist db -> customers_exist db'.
Proof.
  intros [H|(invoice & total_amount & Hin & H)] Hcustomers Hc.
  - now apply (customers_exist_frame db).
  - now apply (customers_exist_rewrite db db' invoice
                 (crud.set_total_amount invoice total_amount)).
Qed.

Lemma create_invoice_item_customers db item invoice_id uuid :
  customers_exist db ->
  customers_exist (after db (crud.create_invoice_item db item invoice_id uuid)).
Proof.
  destruct (create_invoice_item_effect db item invoice_id uuid)
    as (_ & Hc & _ & Hi).
  now apply customers_exist_retotalled.
Qed.

Lemma update_invoice_item_customers db item_id item_update :
  customers_exist db ->
  customers_exist (after db (crud.update_invoice_item db item_id item_update)).
Proof.
  destruct (update_invoice_item_effect db item_id item_update)
    as (_ & Hc & _ & Hi).
  now apply customers_exist_retotalled.
Qed.

Lemma delete_invoice_item_customers db item_id :
  customers_exist db ->
  customers_exist (after db (crud.delete_invoice_item db item_id)).
Proof.
  destruct (delete_invoice_item_effect db item_id) as (_ & Hc & _ & Hi).
  now apply customers_exist_retotalled.
Qed.

Lemma create_invoice_customers db invoice user_id uuid uuids :
  crud.get_customer db (InvoiceCreate.customer_id invoice) <> None ->
  customers_exist db ->
  customers_exist (after db (crud.create_invoice db invoice user_id uuid uuids)).
Proof.
  intros Hcust Hc.
  destruct (create_invoice_effect db invoice user_id uuid uuids)
    as (_ & Hcustomers & _ & [Hi|(total_amount & Hi)]).
  - now apply (customers_exist_frame db).
  - unfold customers_exist, crud.get_customer in *.
    rewrite Hi, Hcustomers. apply Forall_app. split; [exact Hc|].
    constructor; [exact Hcust|constructor].
Qed.

Lemma update_invoice_customers db invoice_id invoice_update :
  (forall customer_id,
      value (InvoiceUpdate.customer_id invoice_update) = Some customer_id ->
      crud.get_customer db customer_id <> None) ->
  customers_exist db ->
  customers_exist (after db (crud.update_invoice db invoice_id invoice_update)).
Proof.
  intros Hcust Hc. unfold crud.update_invoice.
  destruct (crud.get_invoice db invoice_id) as [invoice|] eqn:Hinv;
    [|exact Hc].
  destruct (find_pk _ _ _ _ Hinv) as [_ Hin].
  destruct (InvoiceUpdate.customer_id invoice_update) as [|[c|]];
    cbn [setattr not_null bind after value] in *; [| |exact Hc].
  - eapply (customers_exist_rewrite db _ invoice);
    [reflexivity|reflexivity|exact Hin|reflexivity|exact Hc].
  - unfold customers_exist, crud.get_customer in *. tables.
    rewrite Forall_forall in Hc. apply Forall_update.
    + intros r Hr _. now apply Hc.
    + cbn [Invoice.customer_id]. now apply Hcust.
Qed.

Lemma delete_invoice_customers db invoice_id :
  customers_exist db ->
  customers_exist (after db (crud.delete_invoice db invoice_id)).
Proof.
  intros Hc. unfold crud.delete_invoice.
  destruct (crud.get_invoice db invoice_id) as [invoice|]; [|exact Hc].
  destruct (Invoice_payments db invoice); cbn [after]; [|exact Hc].
  unfold customers_exist, crud.get_customer in *. tables.
  rewrite Forall_forall in *. intros r Hr. apply in_delete in Hr.
  now apply Hc.
Qed.

Lemma create_payment_customers db payment user_id uuid :
  customers_exist db ->
  customers_exist (after db (crud.create_payment db payment user_id uuid)).
Proof.
  intros Hc.
  destruct (create_payment_effect db payment user_id uuid)
    as (_ & Hcustomers & _ & [Hi|(invoice & Hinv & Hi)]).
  - now apply (customers_exist_frame db).
  - destruct (find_pk _ _ _ _ Hinv) as [_ Hin].
    eapply (customers_exist_rewrite db _ invoice);
      [exact Hi|exact Hcustomers|exact Hin|reflexivity|exact Hc].
Qed.

Lemma update_payment_customers db payment_id payment_update :
  customers_exist db ->
  customers_exist (after db (crud.update_payment db payment_id payment_update)).
Proof. intros Hc. unfold crud.update_payment. customer_frame_cases Hc. Qed.

Lemma delete_payment_customers db payment_id :
  customers_exist db ->
  customers_exist (after db (crud.delete_payment db payment_id)).
Proof. intros Hc. unfold crud.delete_payment. customer_frame_cases Hc. Qed.

Lemma create_customer_customers db customer uuid :
  customers_exist db ->
  customers_exist (after db (crud.create_customer db customer uuid)).
Proof.
  intros Hc. unfold crud.create_customer.
  destruct (insert Customer.id (customers db) _) as [customers'|] eqn:E;
    cbn [bind after]; [|exact Hc].
  apply insert_inv in E. destruct E as [-> _].
  unfold customers_exist, crud.get_customer in *. tables.
  revert Hc. apply Forall_impl. intros i Hi. rewrite find_app.
  destruct (find _ (customers db)); [discriminate|]. now contradiction Hi.
Qed.

Lemma update_customer_customers db customer_id customer_update :
  customers_exist db ->
  customers_exist (after db (crud.update_customer db customer_id
                                                  customer_update)).
Proof.
  intros Hc. unfold crud.update_customer.
  destruct (crud.get_customer db customer_id) as [c|]; [|exact Hc].
  destruct (setattr (Some (Customer.name c)) _); cbn [not_null bind after];
    [|exact Hc].
  destruct (setattr (Some (Customer.email c)) _); cbn [not_null bind after];
    [|exact Hc].
  destruct (setattr (Some (Customer.type c)) _); cbn [not_null bind after];
    [|exact Hc].
  unfold customers_exist, crud.get_customer in *. tables.
  revert Hc. apply Forall_impl. intros i Hi. rewrite find_update.
  destruct (_ =? Invoice.customer_id i); [|exact Hi].
  destruct (find _ (customers db)); [discriminate|]. now contradiction Hi.
Qed.

Lemma delete_customer_customers db customer_id :
  customers_exist db ->
  customers_exist (after db (crud.delete_customer db customer_id)).
Proof.
  intros Hc. unfold crud.delete_customer.
  destruct (crud.get_customer db customer_id) as [c|]; [|exact Hc].
  destruct (Customer_invoices db c) eqn:E; cbn [after]; [|exact Hc].
  unfold customers_exist, crud.get_customer in *. tables.
  rewrite Forall_forall in *. intros i Hi. rewrite find_delete.
  destruct (String.eqb_spec (Invoice.customer_id i) (Customer.id c))
    as [Eq|Ne]; [|now apply Hc].
  exfalso. assert (Hin : In i (Customer_invoices db c)).
  { apply filter_In. split; [exact Hi|]. now apply String.eqb_eq. }
  rewrite E in Hin. exact Hin.
Qed.

Lemma create_user_customers get_password_hash db user uuid :
  customers_exist db ->
  customers_exist (after db (crud.create_user get_password_hash db user uuid)).
Proof. intros Hc. unfold crud.create_user. customer_frame_cases Hc. Qed.

Lemma update_user_customers db user_id user_update :
  customers_exist db ->
  customers_exist (after db (crud.update_user db user_id user_update)).
Proof. intros Hc. unfold crud.update_user. customer_frame_cases Hc. Qed.

Lemma delete_user_customers db user_id :
  customers_exist db ->
  customers_exist (after db (crud.delete_user db user_id)).
Proof. intros Hc. unfold crud.delete_user. customer_frame_cases Hc. Qed.

(** X19. Through the API an invoice never loses its customer: if every
    invoice refers to a customer of the table, it still does after any
    sequence of writing requests.  The handlers that create and update an
    invoice test the customer, and a customer that an invoice refers to is
    not deleted. *)
Theorem api_keeps_customers (get_password_hash : string -> string)
        (db : Session) (requests : list (User.t * api_request)) :
  customers_exist db ->
  forall invoice,
    In invoice (invoices (fold_left (respond get_password_hash) requests db)) ->
    exists customer,
      crud.get_customer (fold_left (respond get_password_hash) requests db)
                        (Invoice.customer_id invoice) = Some customer.
Proof.
  intros Hc.
  assert (H : customers_exist
                (fold_left (respond get_password_hash) requests db)).
  { revert Hc.
    apply (requests_invariant get_password_hash customers_exist); intros.
    - now apply create_invoice_customers.
    - now apply create_invoice_item_customers.
    - now apply update_invoice_item_customers.
    - now apply delete_invoice_item_customers.
    - now apply update_invoice_customers.
    - now apply delete_invoice_customers.
    - now apply create_payment_customers.
    - now apply update_payment_customers.
    - now apply delete_payment_customers.
    - now apply create_customer_customers.
    - now apply update_customer_customers.
    - now apply delete_customer_customers.
    - now apply create_user_customers.
    - now apply update_user_customers.
    - now apply delete_user_customers. }
  unfold customers_exist in H. rewrite Forall_forall in H.
  intros invoice Hin. specialize (H invoice Hin).
  destruct (crud.get_customer _ _) as [customer|]; [|now contradiction H].
  now exists customer.
Qed.

Lemma ex_db_customers : customers_exist ex_db.
Proof. repeat constructor; discriminate. Qed.

Lemma api_keeps_customers_witness :
  customers_exist ex_db
  /\ crud.delete_customer ex_db "c1" = Raise IntegrityError
  /\ forall invoice,
       In invoice
          (invoices
             (fold_left (respond (fun password => password))
                [(ex_bob, DeleteCustomer "c1");
                 (ex_alice, PutInvoice "i1"
                    (InvoiceUpdate.mk (Given (Some "c9")) Unset Unset))]
                ex_db)) ->
       exists customer,
         crud.get_customer
           (fold_left (respond (fun password => password))
              [(ex_bob, DeleteCustomer "c1");
               (ex_alice, PutInvoice "i1"
                  (InvoiceUpdate.mk (Given (Some "c9")) Unset Unset))]
              ex_db)
           (Invoice.customer_id invoice) = Some customer.
Proof.
  split; [exact ex_db_customers|]. split; [reflexivity|].
  exact (api_keeps_customers (fun password => password) ex_db _
           ex_db_customers).
Defined.

(** * Further properties of the users *)

Lemma same_key_same_row {R} (pk : R -> string) (table : list R) (a b : R) :
  NoDup (map pk table) -> In a table -> In b table -> pk a = pk b -> a = b.
Proof.
  induction table as [|r table IH]; [contradiction|].
  intros Hnd Ha Hb E. inversion Hnd as [|? ? Hnin Hnd']; subst.
  destruct Ha as [->|Ha]; destruct Hb as [->|Hb]; auto.
  - exfalso. apply Hnin. rewrite E. now apply in_map.
  - exfalso. apply Hnin. rewrite <- E. now apply in_map.
Qed.

Lemma NoDup_map_filter {R} (pk : R -> string) (f : R -> bool)
      (table : list R) :
  NoDup (map pk table) -> NoDup (map pk (filter f table)).
Proof.
  induction table as [|r table IH]; simpl; [auto|].
  intros H. inversion H as [|? ? Hnin Hnd]; subst.
  destruct (f r); simpl; [|auto].
  constructor; [|auto].
  intros Hin. apply Hnin. apply in_map_iff in Hin.
  destruct Hin as (x & Hx & Hin). apply filter_In in Hin.
  rewrite <- Hx. apply in_map. tauto.
Qed.

Lemma email_taken_false (db : Session) (user : User.t) :
  crud.email_taken db user = false ->
  forall u, In u (users db) -> User.id u <> User.id user ->
            User.email u <> User.email user.
Proof.
  unfold crud.email_taken. intros H u Hu Hid E.
  assert (Hex : existsb (fun u0 => (User.email u0 =? User.email user)
                                   && negb (User.id u0 =? User.id user))
                        (users db) = true).
  { apply existsb_exists. exists u. split; [exact Hu|].
    apply andb_true_iff. split; [now apply String.eqb_eq|].
    apply negb_true_iff. now apply String.eqb_neq. }
  congruence.
Qed.

Lemma NoDup_email_update (l : list User.t) (row : User.t) :
  NoDup (map User.id l) ->
  NoDup (map User.email l) ->
  (forall u, In u l -> User.id u <> User.id row ->
             User.email u <> User.email row) ->
  NoDup (map User.email (update User.id l row)).
Proof.
  induction l as [|x l IH]; intros Hid Hemail Hfree; [constructor|].
  inversion Hid as [|? ? Hnin_id Hid']; subst.
  inversion Hemail as [|? ? Hnin_email Hemail']; subst.
  unfold update. cbn [map]. fold (update User.id l row).
  destruct (String.eqb_spec (User.id x) (User.id row)) as [E|E].
  - rewrite update_absent
      by (apply find_none_iff; now rewrite <- E).
    constructor; [|exact Hemail'].
    intros Hin. apply in_map_iff in Hin. destruct Hin as (u & Hu & Hin).
    apply (Hfree u); [now right| |exact Hu].
    intros Eu. apply Hnin_id. rewrite E, <- Eu. now apply in_map.
  - constructor.
    + intros Hin. apply in_map_iff in Hin. destruct Hin as (u & Hu & Hin).
      unfold update in Hin. apply in_map_iff in Hin.
      destruct Hin as (v & Hv & Hin).
      destruct (String.eqb_spec (User.id v) (User.id row)); subst u.
      * apply (Hfree x); [now left|exact E|now symmetry].
      * apply Hnin_email. rewrite <- Hu. now apply in_map.
    + apply IH; [exact Hid'|exact Hemail'|].
      intros u Hu. apply Hfree. now right.
Qed.

Lemma create_user_unique get_password_hash db user uuid :
  users_unique db ->
  users_unique (after db (crud.create_user get_password_hash db user uuid)).
Proof.
  intros [Hid Hemail]. unfold crud.create_user.
  set (db_user := User.mk uuid _ _ _ _).
  destruct (crud.email_taken db db_user) eqn:Hfree; [now split|].
  destruct (insert User.id (users db) db_user) as [users'|] eqn:E;
    cbn [bind after]; [|now split].
  apply insert_inv in E. destruct E as [-> Hnew].
  unfold users_unique. tables. split; [now apply NoDup_insert|].
  rewrite map_app. cbn [map].
  apply NoDup_app; [exact Hemail|constructor; [simpl; tauto|constructor]|].
  intros e He [<-|[]]. apply in_map_iff in He.
  destruct He as (u & Hu & Hin).
  apply (email_taken_false db db_user Hfree u Hin); [|exact Hu].
  intros Eu. apply find_none_iff in Hnew. apply Hnew.
  rewrite <- Eu. now apply in_map.
Qed.

Lemma update_user_unique db user_id user_update :
  users_unique db ->
  users_unique (after db (crud.update_user db user_id user_update)).
Proof.
  intros [Hid Hemail]. unfold crud.update_user.
  destruct (crud.get_user db user_id) as [old|]; [|now split].
  destruct (setattr (Some (User.name old)) _); cbn [not_null bind after];
    [|now split].
  destruct (setattr (Some (User.email old)) _); cbn [not_null bind after];
    [|now split].
  set (db_user := User.mk _ _ _ _ _).
  destruct (crud.email_taken db db_user) eqn:Hfree; cbn [after];
    [now split|].
  unfold users_unique. tables. split.
  - now rewrite map_pk_update.
  - apply NoDup_email_update; [exact Hid|exact Hemail|].
    now apply email_taken_false.
Qed.

Lemma delete_user_unique db user_id :
  users_unique db ->
  users_unique (after db (crud.delete_user db user_id)).
Proof.
  intros [Hid Hemail]. unfold crud.delete_user.
  destruct (crud.get_user db user_id) as [old|]; [|now split].
  destruct (User_invoices db old); [|now split].
  destruct (User_payments db old); cbn [after]; [|now split].
  unfold users_unique, delete. tables.
  split; now apply NoDup_map_filter.
Qed.

Lemma users_unique_frame (db db' : Session) :
  users db' = users db -> users_unique db -> users_unique db'.
Proof. unfold users_unique. now intros ->. Qed.

(** Calls that leave the user table alone. *)
Lemma update_invoice_users db invoice_id invoice_update :
  users (after db (crud.update_invoice db invoice_id invoice_update))
  = users db.
Proof. unfold crud.update_invoice. case_split. Qed.

Lemma delete_invoice_users db invoice_id :
  users (after db (crud.delete_invoice db invoice_id)) = users db.
Proof. unfold crud.delete_invoice. case_split. Qed.

Lemma update_payment_users db payment_id payment_update :
  users (after db (crud.update_payment db payment_id payment_update))
  = users db.
Proof. unfold crud.update_payment. case_split. Qed.

Lemma delete_payment_users db payment_id :
  users (after db (crud.delete_payment db payment_id)) = users db.
Proof. unfold crud.delete_payment. case_split. Qed.

Lemma create_customer_users db customer uuid :
  users (after db (crud.create_customer db customer uuid)) = users db.
Proof. unfold crud.create_customer. case_split. Qed.

Lemma update_customer_users db customer_id customer_update :
  users (after db (crud.update_customer db customer_id customer_update))
  = users db.
Proof. unfold crud.update_customer. case_split. Qed.

Lemma delete_customer_users db customer_id :
  users (after db (crud.delete_customer db customer_id)) = users db.
Proof. unfold crud.delete_customer. case_split. Qed.

(** X20. Emails stay unique: if no two users share an identifier or an email,
    the same holds after any sequence of writing requests to the API, so
    [get_user_by_email] has at most one user to find. *)
Theorem api_keeps_emails_unique (get_password_hash : string -> string)
        (db : Session) (requests : list (User.t * api_request)) :
  users_unique db ->
  let db' := fold_left (respond get_password_hash) requests db in
  users_unique db'
  /\ forall u v,
       In u (users db') -> In v (users db') ->
       User.email u = User.email v -> u = v.
Proof.
  intros Hc db'.
  assert (H : users_unique db').
  { unfold db'. clear db'. revert Hc.
    apply (requests_invariant get_password_hash users_unique); intros.
    - eapply users_unique_frame; [apply create_invoice_effect|assumption].
    - eapply users_unique_frame;
        [apply create_invoice_item_effect|assumption].
    - eapply users_unique_frame;
        [apply update_invoice_item_effect|assumption].
    - eapply users_unique_frame;
        [apply delete_invoice_item_effect|assumption].
    - eapply users_unique_frame; [apply update_invoice_users|assumption].
    - eapply users_unique_frame; [apply delete_invoice_users|assumption].
    - eapply users_unique_frame; [apply create_payment_effect|assumption].
    - eapply users_unique_frame; [apply update_payment_users|assumption].
    - eapply users_unique_frame; [apply delete_payment_users|assumption].
    - eapply users_unique_frame; [apply create_customer_users|assumption].
    - eapply users_unique_frame; [apply update_customer_users|assumption].
    - eapply users_unique_frame; [apply delete_customer_users|assumption].
    - now apply create_user_unique.
    - now apply update_user_unique.
    - now apply delete_user_unique. }
  split; [exact H|]. destruct H as [_ Hemail]. intros u v Hu Hv E.
  now apply (same_key_same_row User.email (users db')).
Qed.

Lemma ex_db_users_unique : users_unique ex_db.
Proof.
  split; cbn; repeat constructor; cbn; intuition discriminate.
Qed.

Lemma api_keeps_emails_unique_witness :
  users_unique ex_db
  /\ users_unique
       (fold_left (respond (fun password => password))
          [(ex_bob, PutUser "u2"
                      (UserUpdate.mk Unset (Given (Some "alice@example.com"))
                                     Unset));
           (ex_bob, PostRegister
                      (UserCreate.mk "Eve" "eve@example.com" false "pw")
                      "u3")]
          ex_db)
  /\ map User.email
       (users
          (fold_left (respond (fun password => password))
             [(ex_bob, PutUser "u2"
                         (UserUpdate.mk Unset
                            (Given (Some "alice@example.com")) Unset));
              (ex_bob, PostRegister
                         (UserCreate.mk "Eve" "eve@example.com" false "pw")
                         "u3")]
             ex_db))
     = ["root@example.com"; "alice@example.com"; "bob@example.com";
        "eve@example.com"].
Proof.
  split; [exact ex_db_users_unique|]. split; [|reflexivity].
  exact (proj1 (api_keeps_emails_unique (fun password => password) ex_db _
                  ex_db_users_unique)).
Defined.

(** X21. [update_user] has no hold on credentials: whatever the update, the
    user table keeps its identifiers in their order and the user fetched
    under any identifier keeps its password hash. *)
Theorem update_user_keeps_credentials
  (db : Session) (user_id : string) (user_update : UserUpdate.t) :
  let db' := after db (crud.update_user db user_id user_update) in
  map User.id (users db') = map User.id (users db)
  /\ forall key,
       option_map User.password_hash (crud.get_user db' key)
       = option_map User.password_hash (crud.get_user db key).
Proof.
  intros db'. unfold db'. clear db'. unfold crud.update_user.
  destruct (crud.get_user db user_id) as [old|] eqn:Hold;
    [|split; reflexivity].
  destruct (find_pk _ _ _ _ Hold) as [Hid _].
  destruct (setattr (Some (User.name old)) _); cbn [not_null bind after];
    [|split; reflexivity].
  destruct (setattr (Some (User.email old)) _); cbn [not_null bind after];
    [|split; reflexivity].
  destruct (crud.email_taken db _); cbn [after]; [split; reflexivity|].
  split.
  - tables. apply map_pk_update.
  - intros key. unfold crud.get_user. tables. rewrite find_update.
    cbn [User.id]. rewrite Hid.
    destruct (String.eqb_spec user_id key) as [<-|]; [|reflexivity].
    unfold crud.get_user in Hold. now rewrite Hold.
Qed.

(** * Listing and reading agree *)

Lemma find_unique {R} (pk : R -> string) (table : list R) (r : R) :
  NoDup (map pk table) -> In r table ->
  find (fun x => pk x =? pk r) table = Some r.
Proof.
  intros Hnd Hin.
  destruct (find (fun x => pk x =? pk r) table) as [x|] eqn:E.
  - destruct (find_pk _ _ _ _ E) as [Hx Hxin].
    f_equal. now apply (same_key_same_row pk table).
  - apply find_none_iff in E. exfalso. apply E. now apply in_map.
Qed.

(** X22. What a caller is shown in a listing, the caller may read: with
    unique identifiers, for a super-admin or a caller whose id is not the
    empty string, every invoice of [read_invoices] is returned by
    [read_invoice] and every payment of [read_payments] by [read_payment],
    for the same caller. *)
Theorem listed_is_readable (db : Session) (skip limit : nat)
        (current_user : User.t) :
  NoDup (map Invoice.id (invoices db)) ->
  NoDup (map Payment.id (payments db)) ->
  truthy (User.is_super_admin current_user) = true
  \/ User.id current_user <> "" ->
  (forall invoice,
      In invoice (invoices_router.read_invoices db skip limit current_user) ->
      invoices_router.read_invoice db (Invoice.id invoice) current_user
      = Ok invoice)
  /\ (forall invoice_id payment,
         In payment (payments_router.read_payments db invoice_id skip limit
                                                   current_user) ->
         payments_router.read_payment db (Payment.id payment) current_user
         = Ok payment).
Proof.
  intros Hinv Hpay Hwho. split.
  - intros invoice Hin.
    unfold invoices_router.read_invoices, crud.get_invoices in Hin.
    apply in_page in Hin.
    assert (Hrow := in_filter_if _ _ _ _ Hin).
    unfold invoices_router.read_invoice, crud.get_invoice.
    rewrite (find_unique Invoice.id _ _ Hinv Hrow).
    rewrite not_stranger; [reflexivity|].
    destruct (truthy (User.is_super_admin current_user)) eqn:Ha;
      [now left|right].
    destruct Hwho as [Hw|Hw]; [discriminate|].
    rewrite filter_if_owner in Hin by exact Hw.
    apply filter_In in Hin. now apply String.eqb_eq.
  - intros invoice_id payment Hin.
    unfold payments_router.read_payments, crud.get_payments in Hin.
    apply in_page, in_filter_if in Hin.
    assert (Hrow := in_filter_if _ _ _ _ Hin).
    unfold payments_router.read_payment, crud.get_payment.
    rewrite (find_unique Payment.id _ _ Hpay Hrow).
    rewrite not_stranger; [reflexivity|].
    destruct (truthy (User.is_super_admin current_user)) eqn:Ha;
      [now left|right].
    destruct Hwho as [Hw|Hw]; [discriminate|].
    rewrite filter_if_owner in Hin by exact Hw.
    apply filter_In in Hin. now apply String.eqb_eq.
Qed.

Lemma listed_is_readable_witness :
  NoDup (map Invoice.id (invoices ex_db))
  /\ NoDup (map Payment.id (payments ex_db))
  /\ User.id ex_alice <> ""
  /\ invoices_router.read_invoices ex_db 0 10 ex_alice
     = [ex_invoice1; ex_invoice2]
  /\ invoices_router.read_invoice ex_db "i2" ex_alice = Ok ex_invoice2.
Proof.
  assert (H1 : NoDup (map Invoice.id (invoices ex_db)))
    by (cbn; repeat constructor; cbn; intuition discriminate).
  assert (H2 : NoDup (map Payment.id (payments ex_db)))
    by (cbn; repeat constructor; cbn; intuition discriminate).
  assert (H3 : User.id ex_alice <> "") by discriminate.
  split; [exact H1|]. split; [exact H2|]. split; [exact H3|].
  split; [reflexivity|].
  apply (proj1 (listed_is_readable ex_db 0 10 ex_alice H1 H2
                  (or_intror H3)) ex_invoice2).
  cbn. auto.
Defined.
